(** * ScreenGrab AI: capture queue, orchestrator, stitcher and AI gateway

    A shallow embedding of the capture/queue/state-machine core of the
    extension (capture-queue.js, background.js, the popup script and
    ai-service.js) together with the properties its specification states
    about it. *)

From Stdlib Require Import Ascii.
From stdpp Require Import gmap strings list fin_maps pretty.

Open Scope Z_scope.

(** ** JavaScript values *)

Module Js.

(** JSON scalars, the values that survive a round trip through
    chrome.storage. Numbers are the integers the code uses (timestamps,
    tab identifiers, pixel counts). *)
Inductive json :=
  | JNull
  | JBool (b : bool)
  | JNum (n : Z)
  | JStr (s : string).

#[global] Instance json_eq_dec : EqDecision json.
Proof. solve_decision. Defined.

(** A JavaScript value held in a variable or in a field of an object
    literal: [None] is [undefined]. *)
Abbreviation value := (option json).

(** An object as chrome.storage keeps it: field names to JSON values. *)
Abbreviation obj := (gmap string json).

(** An object literal in memory; a field may hold [undefined]. *)
Abbreviation literal := (gmap string value).

(** [{...o}] : the fields of a stored object, as a literal. *)
Definition fields (o : obj) : literal := Some <$> o.

(** [{...base, ...upd}] : later spreads win. *)
Definition spread (base upd : literal) : literal := upd ∪ base.

(** What chrome.storage keeps of a literal: fields holding [undefined]
    are dropped by the serialisation. *)
Definition serialize (l : literal) : obj := omap id l.

(** JavaScript truthiness, as used by [!x], [x && y] and [x || y]. *)
Definition truthy (v : value) : bool :=
  match v with
  | None | Some JNull => false
  | Some (JBool b) => b
  | Some (JNum n) => negb (n =? 0)
  | Some (JStr s) => negb (String.eqb s "")
  end.

(** [x || d] *)
Definition or_else (x : value) (d : json) : json :=
  match x with
  | Some j => if truthy x then j else d
  | None => d
  end.

(** [s.startsWith(p)] *)
Definition startsWith (s p : string) : bool := String.prefix p s.

(** [s.includes(p)] *)
Fixpoint includes (s p : string) : bool :=
  String.prefix p s ||
  match s with
  | EmptyString => false
  | String _ s' => includes s' p
  end.

(** A field that holds neither [undefined] nor [null]. *)
Definition present (o : obj) (k : string) : bool :=
  match o !! k with
  | None | Some JNull => false
  | Some _ => true
  end.

End Js.
Import Js.

(** ** capture-queue.js *)

Module CaptureQueue.

(** chrome.storage.local, restricted to the keys the extension uses.
    [areaSelection = Some None] is a stored [null]. *)
Record Store := mkStore {
  captureRequest : option obj;
  currentCapture : option obj;
  areaSelection : option (option obj);
  activeCaptureTabId : option json;
  screengrabSettings : option obj;
  apiKeys : gmap string json
}.

Definition empty_store : Store :=
  mkStore None None None None None ∅.

Definition set_captureRequest (r : option obj) (s : Store) : Store :=
  mkStore r (currentCapture s) (areaSelection s) (activeCaptureTabId s)
          (screengrabSettings s) (apiKeys s).

Definition set_currentCapture (c : option obj) (s : Store) : Store :=
  mkStore (captureRequest s) c (areaSelection s) (activeCaptureTabId s)
          (screengrabSettings s) (apiKeys s).

Definition set_areaSelection (a : option (option obj)) (s : Store) : Store :=
  mkStore (captureRequest s) (currentCapture s) a (activeCaptureTabId s)
          (screengrabSettings s) (apiKeys s).

Definition set_activeCaptureTabId (t : option json) (s : Store) : Store :=
  mkStore (captureRequest s) (currentCapture s) (areaSelection s) t
          (screengrabSettings s) (apiKeys s).

(** [enqueue(request)]: [now1] and [now2] are the two readings of
    [Date.now()], [rnd] the random suffix. *)
Definition enqueue (now1 now2 : Z) (rnd : string) (request : literal)
    (s : Store) : string * Store :=
  let id := "capture_" +:+ pretty now1 +:+ "_" +:+ rnd in
  let enrichedRequest : literal :=
    <["status" := Some (JStr "pending")]>
      (<["timestamp" := Some (JNum now2)]>
        (<["id" := Some (JStr id)]> request)) in
  (id, set_captureRequest (Some (serialize enrichedRequest)) s).

(** [dequeue()] *)
Definition dequeue (s : Store) : option obj * Store :=
  match captureRequest s with
  | Some request =>
      if decide (request !! "status" = Some (JStr "pending")) then
        let request' := <["status" := JStr "processing"]> request in
        (Some request', set_captureRequest (Some request') s)
      else (None, s)
  | None => (None, s)
  end.

(** [clear()] *)
Definition clear (s : Store) : Store := set_captureRequest None s.

(** [updateState(state)]: [now] is the reading of [Date.now()]. *)
Definition updateState (now : Z) (state : literal) (s : Store) : Store :=
  let current : obj := default ∅ (currentCapture s) in
  let newState : literal :=
    <["updatedAt" := Some (JNum now)]> (spread (fields current) state) in
  set_currentCapture (Some (serialize newState)) s.

(** [getState()] *)
Definition getState (s : Store) : option obj := currentCapture s.

(** [reset()] *)
Definition reset (s : Store) : Store :=
  set_currentCapture None (set_captureRequest None s).

(** [cancel()] *)
Definition cancel (now : Z) (s : Store) : Store :=
  updateState now {["status" := Some (JStr "cancelled")]} s.

(** [getSettings()] *)
Definition getSettings (s : Store) : literal :=
  let settings : obj := default ∅ (screengrabSettings s) in
  let key (k : string) : value := Some (or_else (apiKeys s !! k) (JStr "")) in
  <["geminiApiKey" := key "geminiApiKey"]>
    (<["anthropicApiKey" := key "anthropicApiKey"]>
      (<["openaiApiKey" := key "openaiApiKey"]>
        (<["googleApiKey" := key "googleApiKey"]>
          (<["ollamaApiKey" := key "ollamaApiKey"]> (fields settings))))).

(** The [status] field of the stored capture state, when it is a string. *)
Definition status_of (s : Store) : option string :=
  match currentCapture s with
  | Some o => match o !! "status" with Some (JStr st) => Some st | _ => None end
  | None => None
  end.

End CaptureQueue.
Import CaptureQueue.

(** ** The execution model of background.js and of the popup script

    An asynchronous function is a state transformer over the [World] that
    either returns or throws an [Error] with a message. Every call that
    leaves the worker (chrome.tabs, chrome.scripting, timers, AIService)
    is answered by the environment [Env] and recorded in the log. *)

Module Async.

Inductive Result (A : Type) :=
  | Ok (a : A)
  | Throw (message : string).
Arguments Ok {A} a.
Arguments Throw {A} message.

(** A computation over a state [W] that returns or throws. *)
Definition St (W A : Type) : Type := W → W * Result A.

#[global] Instance St_ret {W} : MRet (St W) := λ A a w, (w, Ok a).

#[global] Instance St_bind {W} : MBind (St W) := λ A B f m w,
  match m w with
  | (w', Ok a) => f a w'
  | (w', Throw e) => (w', Throw e)
  end.

Definition throw {W A} (message : string) : St W A := λ w, (w, Throw message).

(** [try { body } catch (error) { handler(error.message) }] *)
Definition try_catch {W A} (body : St W A) (handler : string → St W A)
    : St W A := λ w,
  match body w with
  | (w', Ok a) => (w', Ok a)
  | (w', Throw e) => handler e w'
  end.

(** [try { body } finally { cleanup }] *)
Definition try_finally {W A} (body : St W A) (cleanup : St W unit)
    : St W A := λ w,
  match body w with
  | (w', r) =>
      match cleanup w' with
      | (w'', Ok _) => (w'', r)
      | (w'', Throw e) => (w'', Throw e)
      end
  end.

Definition lift {W A} (r : Result A) : St W A := λ w, (w, r).

End Async.
Import Async.

Module Exec.

Record Tab := mkTab { tabIdent : json; windowId : Z; tabUrl : value }.

Record PageInfo := mkPageInfo {
  piHeight : Z; piViewport : Z; piWidth : Z;
  piScrollX : Z; piScrollY : Z
}.

(** The functions injected with chrome.scripting.executeScript. *)
Inductive Script :=
  | ScPageInfo
  | ScShowOverlayAndScroll (overlay : string) (y : Z)
  | ScHideOverlay (overlay : string)
  | ScRestoreScroll (overlay : string) (x y : Z)
  | ScStitch (captures : list (string * Z)) (width height : Z)
  | ScFile (file : string)
  | ScInitSelector.

Inductive ScriptValue :=
  | SvUndefined
  | SvPageInfo (p : PageInfo)
  | SvDataUrl (dataUrl : string)
  | SvInit (success ready : bool) (error : value).

(** What another context (popup, content script) does to the store while
    the worker is suspended in a call of the gateway. *)
Inductive ClientOp :=
  | OpCancel            (* CaptureQueue.cancel() *)
  | OpReset             (* CaptureQueue.reset() *)
  | OpCancelCapture.    (* the 'cancelCapture' message *)

(** What a run records: timers, chrome API calls, messages to tabs,
    store accesses of the worker, gateway calls, actions of other
    contexts. *)
Inductive Event :=
  | EvDelay (ms : Z)
  | EvTabsQuery
  | EvTabsGet (tabId : json)
  | EvCaptureVisibleTab (windowId : Z)
  | EvInsertCSS (file : string)
  | EvExecuteScript (sc : Script)
  | EvTabMessage (action : string)
  | EvStorageRemove (keys : list string)
  | EvStorageSet (key : string)
  | EvUpdateState (state : literal)
  | EvGetState (status : option string)
  | EvDescribeImage (base64Image : string)
  | EvAnalyzeText (text : string)
  | EvClient (op : ClientOp).

(** The environment of a run: the answer to every call that leaves the
    worker. [dateNow], [captureVisibleTab] and [executeScript] are indexed
    by the number of earlier calls; [describeImage] and [analyzeText] are
    the outcomes of the two AIService calls; [duringVision] is what
    other contexts do to the store until the vision call returns and
    [duringText] what they do from then until the text-analysis call
    returns; [renderCanvas] is the canvas of the popup. *)
Record Env := mkEnv {
  dateNow : nat → Z;
  tabsQuery : Result (option Tab);
  tabsGet : json → Result Tab;
  captureVisibleTab : nat → Result string;
  insertCSS : Result unit;
  executeScript : nat → Script → Result ScriptValue;
  describeImage : string → literal → Result string;
  analyzeText : string → literal → Result string;
  duringVision : list ClientOp;
  duringText : list ClientOp;
  renderCanvas : Z → Z → list (string * Z * Z) → string
}.

(** The state of a run: the store, the [pollingActive] flag of the worker,
    the calls made so far and the counters that index the environment. *)
Record World := mkWorld {
  store : Store;
  pollingActive : bool;
  log : list Event;
  ticks : nat;
  ncaptures : nat;
  nscripts : nat
}.

Definition initial_world (s : Store) : World := mkWorld s false [] 0 0 0.

Abbreviation M := (St World).

Definition emit (e : Event) : M unit := λ w,
  (mkWorld (store w) (pollingActive w) (log w ++ [e]) (ticks w)
           (ncaptures w) (nscripts w), Ok ()).

Definition get_store : M Store := λ w, (w, Ok (store w)).

Definition put_store (s : Store) : M unit := λ w,
  (mkWorld s (pollingActive w) (log w) (ticks w) (ncaptures w) (nscripts w),
   Ok ()).

Definition get_pollingActive : M bool := λ w, (w, Ok (pollingActive w)).

Definition set_pollingActive (b : bool) : M unit := λ w,
  (mkWorld (store w) b (log w) (ticks w) (ncaptures w) (nscripts w), Ok ()).

Section WithEnv.
Variable env : Env.

(** [Date.now()] *)
Definition now : M Z := λ w,
  (mkWorld (store w) (pollingActive w) (log w) (S (ticks w))
           (ncaptures w) (nscripts w),
   Ok (dateNow env (ticks w))).

(** [setTimeout] awaited *)
Definition delay (ms : Z) : M unit := emit (EvDelay ms).

(** [chrome.tabs.captureVisibleTab(windowId, {format: 'png'})] *)
Definition chrome_captureVisibleTab (wid : Z) : M string := λ w,
  (mkWorld (store w) (pollingActive w) (log w ++ [EvCaptureVisibleTab wid])
           (ticks w) (S (ncaptures w)) (nscripts w),
   captureVisibleTab env (ncaptures w)).

(** [chrome.scripting.executeScript] with an injected function or file *)
Definition chrome_executeScript (sc : Script) : M ScriptValue := λ w,
  (mkWorld (store w) (pollingActive w) (log w ++ [EvExecuteScript sc])
           (ticks w) (ncaptures w) (S (nscripts w)),
   executeScript env (nscripts w) sc).

Definition chrome_tabs_get (tabId : json) : M Tab :=
  emit (EvTabsGet tabId);; lift (tabsGet env tabId).

Definition chrome_tabs_query : M (option Tab) :=
  emit EvTabsQuery;; lift (tabsQuery env).

Definition chrome_insertCSS (file : string) : M unit :=
  emit (EvInsertCSS file);; lift (insertCSS env).

(** [chrome.tabs.sendMessage] where the caller swallows a failure *)
Definition tabMessage (action : string) : M unit := emit (EvTabMessage action).

(** The CaptureQueue operations, run by the worker. *)
Definition q_updateState (state : literal) : M unit :=
  t ← now;
  s ← get_store;
  emit (EvUpdateState state);;
  put_store (updateState t state s).

Definition q_getState : M (option obj) :=
  s ← get_store;
  emit (EvGetState (status_of s));;
  mret (getState s).

Definition q_dequeue : M (option obj) :=
  s ← get_store;
  let '(r, s') := dequeue s in
  put_store s';; mret r.

Definition q_clear : M unit :=
  s ← get_store; put_store (clear s).

Definition q_reset : M unit :=
  s ← get_store; put_store (reset s).

Definition q_cancel : M unit :=
  q_updateState {["status" := Some (JStr "cancelled")]}.

Definition q_getSettings : M literal :=
  s ← get_store; mret (getSettings s).

(** [handleCancelCapture()] of background.js *)
Definition handleCancelCapture : M unit :=
  q_cancel;; q_reset.

Definition client (op : ClientOp) : M unit :=
  emit (EvClient op);;
  match op with
  | OpCancel => q_cancel
  | OpReset => q_reset
  | OpCancelCapture => handleCancelCapture
  end.

Fixpoint clients (ops : list ClientOp) : M unit :=
  match ops with
  | [] => mret ()
  | op :: ops' => client op;; clients ops'
  end.

End WithEnv.

End Exec.
Import Exec.

(** ** background.js *)

Module Background.

(** [dataUrl.split(',')[1]] *)
Fixpoint after_comma (s : string) : option string :=
  match s with
  | EmptyString => None
  | String c s' =>
      if Ascii.eqb c ","%char then Some s' else after_comma s'
  end.

Fixpoint until_comma (s : string) : string :=
  match s with
  | EmptyString => EmptyString
  | String c s' =>
      if Ascii.eqb c ","%char then EmptyString
      else String c (until_comma s')
  end.

Definition split_comma_1 (dataUrl : string) : option string :=
  until_comma <$> after_comma dataUrl.

(** Character classes of the regular expression in
    [sanitizeSensitiveData]: [\d] and the word characters behind [\b]. *)
Definition is_digit (c : ascii) : bool :=
  let n := Ascii.N_of_ascii c in ((48 <=? n) && (n <=? 57))%N.

Definition is_word (c : ascii) : bool :=
  let n := Ascii.N_of_ascii c in
  (is_digit c || ((65 <=? n) && (n <=? 90)) || ((97 <=? n) && (n <=? 122))
   || (n =? 95))%N.

Definition is_dash (c : ascii) : bool := Ascii.eqb c "-"%char.

(** [\d{3}-\d{2}-\d{4}] *)
Definition ssn_pattern : list (ascii → bool) :=
  [is_digit; is_digit; is_digit; is_dash; is_digit; is_digit; is_dash;
   is_digit; is_digit; is_digit; is_digit].

Fixpoint match_classes (p : list (ascii → bool)) (s : string) : option string :=
  match p with
  | [] => Some s
  | f :: p' =>
      match s with
      | String c s' => if f c then match_classes p' s' else None
      | EmptyString => None
      end
  end.

(** The pattern followed by a word boundary. *)
Definition ssn_at (s : string) : bool :=
  match match_classes ssn_pattern s with
  | Some (String c _) => negb (is_word c)
  | Some EmptyString => true
  | None => false
  end.

(** [data.replace(/\b\d{3}-\d{2}-\d{4}\b/g, '[REDACTED_SSN]')], scanning
    from the left; [skip] counts the characters of a match still to be
    passed over and [prev_word] tells whether the previous character is a
    word character. *)
Fixpoint redact (skip : nat) (prev_word : bool) (s : string) : string :=
  match s with
  | EmptyString => EmptyString
  | String c s' =>
      match skip with
      | S k => redact k (is_word c) s'
      | O =>
          if negb prev_word && ssn_at s
          then "[REDACTED_SSN]" +:+ redact 10 true s'
          else String c (redact 0 (is_word c) s')
      end
  end.

(** [sanitizeSensitiveData(data)] on the strings the gateway returns. *)
Definition sanitizeSensitiveData (data : string) : string :=
  redact 0 false data.

(** [isRestrictedUrl(url)]; a truthy value that is not a string has no
    [startsWith] method. *)
Definition restrictedPatterns : list string :=
  ["chrome://"; "chrome-extension://"; "edge://"; "opera://"; "about:";
   "moz-extension://"; "chrome-error://"; "https://chromewebstore.google.com/";
   "https://chrome.google.com/webstore"].

Definition isRestrictedUrl (url : value) : Result bool :=
  if negb (truthy url) then Ok true
  else match url with
       | Some (JStr u) =>
           Ok (existsb (λ pattern, startsWith u pattern) restrictedPatterns)
       | _ => Throw "url.startsWith is not a function"
       end.

(** [text.replace(/&/g, '&amp;').replace(/</g, '&lt;')
    .replace(/>/g, '&gt;')], the first pass of [parseMarkdown] *)
Fixpoint escapeHtml (text : string) : string :=
  match text with
  | EmptyString => EmptyString
  | String c rest =>
      (if Ascii.eqb c "&"%char then "&amp;"
       else if Ascii.eqb c "<"%char then "&lt;"
       else if Ascii.eqb c ">"%char then "&gt;"
       else String c EmptyString) +:+ escapeHtml rest
  end.

(** The characters that no pattern of [parseMarkdown] after the escaping
    looks for, wherever they stand in a line: the printable ASCII
    characters other than the backquote, [#], [*], [_] and [|]. *)
Definition is_inert (c : ascii) : bool :=
  let n := Ascii.N_of_ascii c in
  ((32 <=? n) && (n <=? 126) && negb (n =? 96) && negb (n =? 35)
   && negb (n =? 42) && negb (n =? 95) && negb (n =? 124))%N.

Fixpoint all_inert (text : string) : bool :=
  match text with
  | EmptyString => true
  | String c rest => is_inert c && all_inert rest
  end.

(** A text that the passes of [parseMarkdown] after the escaping leave
    as it is: one line of inert characters that starts neither with a
    digit (ordered list) nor with a dash (list item, rule). *)
Definition inert (text : string) : bool :=
  all_inert text
  && match text with
     | String c _ => negb (is_digit c) && negb (is_dash c)
     | EmptyString => true
     end.

(** [Math.ceil(a / b)] for a divisor that is not zero (for a zero
    divisor and a positive [a] the JavaScript value is [Infinity]). *)
Definition ceil_div (a b : Z) : Z := - ((- a) / b).

Definition RATE_LIMIT : string := "MAX_CAPTURE_VISIBLE_TAB_CALLS_PER_SECOND".

Definition CAPTURE_DELAY : Z := 600.

Section Orchestrator.
Variable env : Env.

(** [parseMarkdown] is a pipeline of regular expression replacements.
    On an inert text only the escaping and the final wrapping have an
    effect; on any other text the passes for code, headers, emphasis,
    tables, rules, lists and line breaks are not interpreted, and the
    outcome of the pipeline is [markdownToHtml text]. *)
Variable markdownToHtml : string → string.

Definition parseMarkdown (text : string) : string :=
  if String.eqb text "" then ""
  else if inert text then "<div>" +:+ escapeHtml text +:+ "</div>"
  else markdownToHtml text.

Definition formatResult (description analysis : string) : string :=
  parseMarkdown description +:+ parseMarkdown analysis.

(** [captureWithRetry(tab, maxRetries)]: the loop from [attempt], with
    [retriesLeft = maxRetries - attempt]. *)
Fixpoint captureWithRetry_from (wid : Z) (maxRetries : nat)
    (attempt : nat) (retriesLeft : nat) : M string :=
  try_catch
    ((match attempt with
      | S _ => delay (CAPTURE_DELAY * (Z.of_nat attempt + 1))
      | O => match maxRetries with
             | S _ => delay CAPTURE_DELAY
             | O => mret ()
             end
      end);;
     chrome_captureVisibleTab env wid)
    (λ message,
      if includes message RATE_LIMIT then
        match retriesLeft with
        | S r => captureWithRetry_from wid maxRetries (S attempt) r
        | O => throw message
        end
      else throw message).

Definition captureWithRetry (tab : Tab) (maxRetries : nat) : M string :=
  captureWithRetry_from (windowId tab) maxRetries 0 maxRetries.

(** [const { property, ... } = pageInfo] *)
Definition expect_pageInfo (property : string) (v : ScriptValue)
    : M PageInfo :=
  match v with
  | SvPageInfo p => mret p
  | _ => throw ("Cannot destructure property '" +:+ property
                +:+ "' of 'pageInfo' as it is undefined.")
  end.

Definition FULLPAGE_OVERLAY : string := "screengrab-fullpage-capture-overlay".

(** The body of the capture loop of [captureFullPage] for shot [i]. *)
Definition fullPage_shot (tab : Tab) (viewport : Z) (i : Z) : M (string * Z) :=
  let y := i * viewport in
  chrome_executeScript env (ScShowOverlayAndScroll FULLPAGE_OVERLAY y);;
  delay 30;;
  chrome_executeScript env (ScHideOverlay FULLPAGE_OVERLAY);;
  dataUrl ← captureWithRetry tab 3;
  mret (dataUrl, y).

(** [for (let i = 0; i < numCaptures; i++) captures.push(body(i))] *)
Fixpoint capture_loop (body : Z → M (string * Z)) (indices : list Z)
    : M (list (string * Z)) :=
  match indices with
  | [] => mret []
  | i :: rest =>
      c ← body i;
      cs ← capture_loop body rest;
      mret (c :: cs)
  end.

(** [captureFullPage(tab)]; the result is [None] when the stitching
    script yields something that is not a string. *)
Definition captureFullPage (tab : Tab) : M (option string) :=
  v ← chrome_executeScript env ScPageInfo;
  pageInfo ← expect_pageInfo "height" v;
  let height := piHeight pageInfo in
  let viewport := piViewport pageInfo in
  let numCaptures := ceil_div height viewport in
  captures ← capture_loop (fullPage_shot tab viewport)
                          (seqZ 0 numCaptures);
  chrome_executeScript env
    (ScRestoreScroll FULLPAGE_OVERLAY (piScrollX pageInfo) (piScrollY pageInfo));;
  stitched ← chrome_executeScript env
    (ScStitch captures (piWidth pageInfo) height);
  mret (match stitched with SvDataUrl d => Some d | _ => None end).

Definition showFloatingProgress : M unit :=
  try_catch
    (chrome_executeScript env (ScFile "progress-indicator.js");;
     delay 100;;
     tabMessage "showProgress")
    (λ _, mret ()).

Definition hideFloatingProgress : M unit := tabMessage "hideProgress".

Definition updateFloatingProgress : M unit := tabMessage "updateProgress".

Definition cancelled (state : option obj) : bool :=
  match state with
  | Some o => bool_decide (o !! "status" = Some (JStr "cancelled"))
  | None => false
  end.

(** [analyzeScreenshot(base64Image, settings, tabId)]. The progress
    callbacks handed to the gateway only send progress messages to the
    tab and are left out. *)
Definition analyzeScreenshot (base64Image : string) (settings : literal)
    : M string :=
  if negb (truthy (settings !!! "visionApiProvider"))
     || negb (truthy (settings !!! "textApiProvider"))
  then throw "API providers not configured."
  else
    imageDescription ←
      try_catch
        (updateFloatingProgress;;
         emit (EvDescribeImage base64Image);;
         clients env (duringVision env);;
         lift (describeImage env base64Image settings))
        (λ message, throw ("Vision analysis failed: " +:+ message));
    let imageDescription := sanitizeSensitiveData imageDescription in
    state ← q_getState;
    if cancelled state then throw "Capture cancelled"
    else
      deepAnalysis ←
        try_catch
          (updateFloatingProgress;;
           emit (EvAnalyzeText imageDescription);;
           clients env (duringText env);;
           deepAnalysis ← lift (analyzeText env imageDescription settings);
           mret (sanitizeSensitiveData deepAnalysis))
          (λ message, mret ("Analysis unavailable: " +:+ message));
      mret (formatResult imageDescription deepAnalysis).

(** [processCapturedImage(dataUrl, tabId)]; [dataUrl = None] is a value
    without a [split] method. *)
Definition processCapturedImage (dataUrl : option string) : M unit :=
  try_catch
    (q_updateState env {["status" := Some (JStr "analyzing")]};;
     showFloatingProgress;;
     updateFloatingProgress;;
     settings ← q_getSettings;
     match dataUrl with
     | None => throw "Cannot read properties of undefined (reading 'split')"
     | Some d =>
         match split_comma_1 d with
         | None | Some EmptyString => throw "Invalid image data"
         | Some base64Image =>
             result ← analyzeScreenshot base64Image settings;
             state ← q_getState;
             if cancelled state then hideFloatingProgress
             else
               q_updateState env
                 (<["result" := Some (JStr result)]>
                    {["status" := Some (JStr "complete")]});;
               hideFloatingProgress;;
               tabMessage "showResult"
         end
     end)
    (λ message,
      q_updateState env
        (<["error" := Some (JStr message)]>
           {["status" := Some (JStr "error")]});;
      hideFloatingProgress).

(** [startAreaSelection(tabId)] *)
Definition startAreaSelection (tabId : json) : M unit :=
  try_catch
    (tab ← try_catch (chrome_tabs_get env tabId)
             (λ _, throw "Tab was closed. Please try again.");
     restricted ← lift (isRestrictedUrl (tabUrl tab));
     if (restricted : bool)
     then throw "Cannot capture screenshots on this page (Restricted URL)."
     else
       chrome_insertCSS env "selector.css";;
       chrome_executeScript env (ScFile "selector.js");;
       delay 500;;
       emit (EvStorageRemove ["areaSelection"]);;
       s ← get_store;
       put_store (set_areaSelection None s);;
       initResult ← chrome_executeScript env ScInitSelector;
       match initResult with
       | SvInit true ready _ =>
           if ready then
             emit (EvStorageSet "activeCaptureTabId");;
             s ← get_store;
             put_store (set_activeCaptureTabId (Some tabId) s);;
             q_updateState env
               (<["tabId" := Some tabId]>
                  {["status" := Some (JStr "selecting")]})
           else throw "Area selector overlay is not ready"
       | SvInit false _ (Some (JStr e)) =>
           throw (if String.eqb e "" then "Failed to initialize area selector"
                  else e)
       | _ => throw "Failed to initialize area selector"
       end)
    (λ message,
      let msg :=
        if includes message "invalidated"
        then "Extension was reloaded. Please refresh this page to continue."
        else if includes message "Cannot access"
        then "Cannot access this page. Please try a different page."
        else if includes message "Tab was closed"
        then "The tab was closed. Please try again."
        else message in
      q_updateState env
        (<["error" := Some (JStr msg)]>
           {["status" := Some (JStr "error")]})).

Definition RESTRICTED_MESSAGE : string :=
  "Cannot capture screenshots on this page (Restricted URL).".

Definition NO_TAB_MESSAGE : string := "Target tab could not be identified.".

(** The part of [processQueuedRequest] that follows a successful
    [dequeue()], inside the [try] block. *)
Definition handleRequest (request : obj) : M unit :=
  set_pollingActive true;;
  let mode : value := request !! "mode" in
  let url : value := request !! "url" in
  tabId ← (if truthy (request !! "tabId") then mret (request !! "tabId")
           else activeTab ← chrome_tabs_query env;
                mret (tabIdent <$> activeTab));
  match tabId with
  | None => throw NO_TAB_MESSAGE
  | Some tid =>
      if negb (truthy (Some tid)) then throw NO_TAB_MESSAGE
      else
        restricted ← lift (isRestrictedUrl url);
        if (restricted : bool) then throw RESTRICTED_MESSAGE
        else
          q_updateState env
            (<["result" := Some JNull]>
              (<["error" := Some JNull]>
                (<["tabId" := Some tid]>
                  (<["mode" := mode]>
                    {["status" := Some (JStr "capturing")]}))));;
          if decide (mode = Some (JStr "visible")) then
            tab ← chrome_tabs_get env tid;
            dataUrl ← chrome_captureVisibleTab env (windowId tab);
            processCapturedImage (Some dataUrl)
          else if decide (mode = Some (JStr "full")) then
            tab ← chrome_tabs_get env tid;
            dataUrl ← captureFullPage tab;
            processCapturedImage dataUrl
          else if decide (mode = Some (JStr "area")) then
            startAreaSelection tid
          else mret ()
  end.

(** [processQueuedRequest()]. The storage listener that also clears
    [pollingActive] on a terminal status is not part of the function. *)
Definition processQueuedRequest : M unit :=
  busy ← get_pollingActive;
  if (busy : bool) then mret ()
  else
    try_finally
      (try_catch
         (request ← q_dequeue;
          match request with
          | None => mret ()
          | Some request => handleRequest request
          end)
         (λ message,
           q_updateState env
             (<["error" := Some (JStr message)]>
                {["status" := Some (JStr "error")]})))
      (set_pollingActive false;; q_clear).

End Orchestrator.

Section AreaSelection.
Variable env : Env.
Variable markdownToHtml : string → string.

(** The capture of the selected area (a probe of the viewport, one
    capture of the visible tab or a scrolling capture, then a crop in
    the page) is not interpreted; the orchestrator only passes its
    outcome on. *)
Variable captureSelection : Tab → obj → M (option string).

(** [handleAreaSelectionChange(areaSelection)]; [None] is [null]. *)
Definition handleAreaSelectionChange (areaSelection : option obj) : M unit :=
  s ← get_store;
  match activeCaptureTabId s with
  | None => mret ()
  | Some tabId =>
      if negb (truthy (Some tabId)) then mret ()
      else
        emit (EvStorageRemove ["areaSelection"; "activeCaptureTabId"]);;
        put_store (set_activeCaptureTabId None (set_areaSelection None s));;
        match areaSelection with
        | None => q_updateState env {["status" := Some (JStr "cancelled")]}
        | Some selection =>
            try_catch
              (q_updateState env {["status" := Some (JStr "processing")]};;
               showFloatingProgress env;;
               updateFloatingProgress;;
               delay 250;;
               tab ← chrome_tabs_get env tabId;
               finalDataUrl ← captureSelection tab selection;
               processCapturedImage env markdownToHtml finalDataUrl)
              (λ message,
                q_updateState env
                  (<["error" := Some (JStr message)]>
                     {["status" := Some (JStr "error")]}))
        end
  end.

(** The storage listener on a change of [areaSelection]: the handler
    runs when the new value is not [undefined]. *)
Definition onAreaSelectionChanged : M unit :=
  s ← get_store;
  match areaSelection s with
  | Some newValue => handleAreaSelectionChange newValue
  | None => mret ()
  end.

End AreaSelection.

End Background.

(** ** The popup script *)

Module Popup.

Section Capture.
Variable env : Env.

Definition CAPTURE_OVERLAY : string := "screengrab-capture-overlay".

(** The body of the capture loop of the popup's [captureFullPage]. *)
Definition fullPage_shot (tab : Tab) (scrollHeight viewportHeight : Z)
    (i : Z) : M (string * Z) :=
  let scrollY := Z.min (i * viewportHeight) (scrollHeight - viewportHeight) in
  chrome_executeScript env (ScShowOverlayAndScroll CAPTURE_OVERLAY scrollY);;
  delay 30;;
  chrome_executeScript env (ScHideOverlay CAPTURE_OVERLAY);;
  dataUrl ← chrome_captureVisibleTab env (windowId tab);
  mret (dataUrl, scrollY).

(** The captures of the loop of [captureFullPage], in order. *)
Definition fullPage_captures (tab : Tab) (scrollHeight viewportHeight : Z)
    : M (list (string * Z)) :=
  let numCaptures := Background.ceil_div scrollHeight viewportHeight in
  Background.capture_loop (fullPage_shot tab scrollHeight viewportHeight)
                          (seqZ 0 numCaptures).

(** [stitchImages(captures, width, totalHeight, viewportHeight)]: each
    capture is drawn at its own offset with the height that is left. *)
Definition stitchImages (captures : list (string * Z))
    (width totalHeight viewportHeight : Z) : string :=
  renderCanvas env width totalHeight
    (map (λ c : string * Z,
            let yPos := c.2 in
            (c.1, yPos, Z.min viewportHeight (totalHeight - yPos)))
         captures).

(** [captureFullPage()] of the popup *)
Definition captureFullPage : M (option string) :=
  activeTab ← chrome_tabs_query env;
  match activeTab with
  | None => throw "Cannot read properties of undefined (reading 'id')"
  | Some tab =>
      v ← chrome_executeScript env ScPageInfo;
      pageInfo ← Background.expect_pageInfo "scrollHeight" v;
      let scrollHeight := piHeight pageInfo in
      let viewportHeight := piViewport pageInfo in
      captures ← fullPage_captures tab scrollHeight viewportHeight;
      chrome_executeScript env
        (ScRestoreScroll CAPTURE_OVERLAY (piScrollX pageInfo)
                         (piScrollY pageInfo));;
      mret (Background.split_comma_1
              (stitchImages captures (piWidth pageInfo) scrollHeight
                            viewportHeight))
  end.

End Capture.

(** The request that [startAreaSelection()] of the popup enqueues for the
    active tab. *)
Definition area_request (tab : Tab) : literal :=
  <["tabId" := Some (tabIdent tab)]>
    (<["url" := tabUrl tab]> {["mode" := Some (JStr "area")]}).

End Popup.

(** ** The floating icon (content script) *)

Module FloatingIcon.

(** [startCapture(mode)]: the previous request and capture state are
    removed, then the request is written without a tab identifier. *)
Definition startCapture (now1 now2 : Z) (rnd : string) (mode url : string)
    (s : Store) : Store :=
  let id := "capture_" +:+ pretty now1 +:+ "_" +:+ rnd in
  let request : literal :=
    <["status" := Some (JStr "pending")]>
      (<["timestamp" := Some (JNum now2)]>
        (<["url" := Some (JStr url)]>
          (<["mode" := Some (JStr mode)]>
            {["id" := Some (JStr id)]}))) in
  set_captureRequest (Some (serialize request)) (reset s).

End FloatingIcon.

(** ** ai-service.js *)

Module AIService.

(** The payload of an error response, when it parses as JSON with an
    [error] member. *)
Record ApiError := mkApiError {
  errCode : Z; errStatus : string; errMessage : string
}.

(** An HTTP response. The parsed body is represented by what the calling
    code reads from it: [content] is the text found at the provider's own
    path ([choices[0].message.content], [content[0].text],
    [candidates[0].content.parts[0].text], [response],
    [fullTextAnnotation]) and [models] the listed models with their
    display names. *)
Record Response := mkResponse {
  ok : bool;
  status : Z;
  body : string;
  content : value;
  apiError : option ApiError;
  models : list (string * value)
}.

(** A selectable model: [{id, name}]. *)
Definition Model : Type := string * string.

(** The state of the gateway: the requests issued so far and [CACHE]. *)
Record Net := mkNet {
  requests : list string;
  cache : gmap string (list Model * Z)
}.

Definition initial_net : Net := mkNet [] ∅.

Definition OLLAMA_LOCAL : string := "ollama".
Definition OLLAMA_CLOUD : string := "ollama-cloud".
Definition GOOGLE_VISION : string := "google-vision".
Definition OPENAI : string := "openai".
Definition ANTHROPIC : string := "anthropic".
Definition GOOGLE_GEMINI : string := "google-gemini".

Definition ENDPOINT_local : string := "http://localhost:11434".
Definition ENDPOINT_cloud : string := "https://ollama.com".
Definition ENDPOINT_googleVision : string := "https://vision.googleapis.com/v1".
Definition ENDPOINT_openai : string := "https://api.openai.com/v1".
Definition ENDPOINT_anthropic : string := "https://api.anthropic.com/v1".
Definition ENDPOINT_googleGemini : string :=
  "https://generativelanguage.googleapis.com/v1beta".

(** A value interpolated in a template literal. *)
Definition tpl (v : value) : string :=
  match v with
  | None => "undefined"
  | Some JNull => "null"
  | Some (JBool true) => "true"
  | Some (JBool false) => "false"
  | Some (JNum n) => pretty n
  | Some (JStr s) => s
  end.

(** [TIMEOUT_MS] *)
Definition TIMEOUT_MS : Z := 120000.

Definition is_provider (provider : value) (name : string) : bool :=
  bool_decide (provider = Some (JStr name)).

(** [getBaseUrl(provider)] *)
Definition getBaseUrl (provider : value) : string :=
  if is_provider provider OLLAMA_CLOUD then ENDPOINT_cloud
  else if is_provider provider GOOGLE_VISION then ENDPOINT_googleVision
  else if is_provider provider OPENAI then ENDPOINT_openai
  else if is_provider provider ANTHROPIC then ENDPOINT_anthropic
  else if is_provider provider GOOGLE_GEMINI then ENDPOINT_googleGemini
  else ENDPOINT_local.

(** [validateRequiredKey(provider, settings)] *)
Definition validateRequiredKey (provider : value) (settings : literal)
    : Result unit :=
  if is_provider provider "openai" && negb (truthy (settings !!! "openaiApiKey"))
  then Throw "OpenAI API Key is required"
  else if is_provider provider "anthropic"
          && negb (truthy (settings !!! "anthropicApiKey"))
  then Throw "Anthropic API Key is required"
  else if is_provider provider "google-gemini"
          && negb (truthy (settings !!! "geminiApiKey"))
  then Throw "Gemini API Key is required"
  else if is_provider provider "ollama-cloud"
          && negb (truthy (settings !!! "ollamaApiKey"))
  then Throw "Ollama Cloud API Key is required"
  else if is_provider provider "google-vision"
          && negb (truthy (settings !!! "googleApiKey"))
  then Throw "Google Cloud Vision API Key is required"
  else Ok ().

(** [s.split(':')[0]] *)
Fixpoint until_colon (s : string) : string :=
  match s with
  | EmptyString => EmptyString
  | String c s' =>
      if Ascii.eqb c ":"%char then EmptyString
      else String c (until_colon s')
  end.

(** [s.replace(p, '')]: the first occurrence only. *)
Fixpoint remove_first (p s : string) : string :=
  if String.prefix p s then String.substring (String.length p)
                                             (String.length s) s
  else match s with
       | EmptyString => EmptyString
       | String c s' => String c (remove_first p s')
       end.

Section Gateway.
(** The network: the answer to the [n]-th request, by URL. A [Throw] is
    a rejected [fetch]. Request headers and bodies are not recorded. *)
Variable fetch_answer : nat → string → Result Response.

(** How long the [n]-th request takes to settle, in milliseconds, the
    reading of its body included. *)
Variable latency : nat → string → Z.

Abbreviation G := (St Net).

(** [fetch(url, ...)] *)
Definition fetch (url : string) : G Response := λ w,
  (mkNet (requests w ++ [url]) (cache w),
   fetch_answer (length (requests w)) url).

(** A request issued inside a [fetchPromise] that is raced against the
    timer of [TIMEOUT_MS], [elapsed] milliseconds after the timer was
    started: the request is issued, and the outcome is [None] when the
    timer fires before the request settles, in which case
    [Promise.race] rejects with the timeout error whatever the request
    does later. The second component is the time at which the request
    settles. *)
Definition fetch_within (url : string) (elapsed : Z)
    : G (option (Result Response) * Z) := λ w,
  let settled := elapsed + latency (length (requests w)) url in
  (mkNet (requests w ++ [url]) (cache w),
   Ok (if TIMEOUT_MS <=? settled then None
       else Some (fetch_answer (length (requests w)) url),
       settled)).

(** The text of a response, or the [TypeError] of reading a member of
    a missing one. *)
Definition text_of (r : Response) : G string :=
  match content r with
  | Some (JStr t) => mret t
  | _ => throw "Cannot read properties of undefined"
  end.

(** [x || fallback] on the text read from a response *)
Definition text_or (r : Response) (fallback : string) : string :=
  match content r with
  | Some (JStr t) => if String.eqb t "" then fallback else t
  | _ => fallback
  end.

(** [checkLocalHealth()] *)
Definition checkLocalHealth : G Response :=
  try_catch
    (response ← fetch (ENDPOINT_local +:+ "/api/tags");
     if ok response then mret response
     else throw "Ollama is not responding")
    (λ message,
      if includes message "Failed to fetch" || includes message "NetworkError"
      then throw "Cannot connect to Ollama at localhost:11434. Is it running?"
      else throw message).

(** [hasLocalModel(modelName)] *)
Definition hasLocalModel (modelName : value) : G bool :=
  data ← checkLocalHealth;
  match modelName with
  | Some (JStr m) =>
      let baseModelName := until_colon m in
      mret (existsb (λ e : string * value, includes e.1 baseModelName)
                    (models data))
  | None => throw "Cannot read properties of undefined (reading 'split')"
  | Some JNull => throw "Cannot read properties of null (reading 'split')"
  | Some _ => throw "modelName.split is not a function"
  end.

(** [getLocalModels()] *)
Definition getLocalModels : G (list (string * value)) :=
  try_catch
    (response ← fetch (ENDPOINT_local +:+ "/api/tags");
     if ok response then mret (models response)
     else throw "Failed to fetch models")
    (λ _, mret []).

(** What the chat endpoint is good for: the content of a 2xx answer,
    unless it is empty or reads like the endpoint's own error page. *)
Definition chat_content (answer : Result Response) : option string :=
  match answer with
  | Ok chatResponse =>
      if ok chatResponse then
        match content chatResponse with
        | Some (JStr c) =>
            if negb (String.eqb c "")
               && negb (includes c "/v1/chat/completions")
               && negb (includes c "OpenAI-compatible")
            then Some c else None
        | _ => None
        end
      else None
  | Throw _ => None
  end.

(** [describeImageOllama]: the check of the local model, then the chat
    endpoint and, if that is of no use, the generate endpoint, both
    raced against the timer. *)
Definition describeImageOllama (base64Image : string) (settings : literal)
    : G string :=
  let visionApiProvider := settings !!! "visionApiProvider" in
  let visionModel := settings !!! "visionModel" in
  let baseUrl := getBaseUrl visionApiProvider in
  let isCloud := is_provider visionApiProvider "ollama-cloud" in
  (if isCloud then mret ()
   else
     hasModel ← hasLocalModel visionModel;
     if (hasModel : bool) then mret ()
     else throw (tpl visionModel +:+ " model not found. Run: ollama pull "
                 +:+ tpl visionModel));;
  chat ← fetch_within (baseUrl +:+ "/v1/chat/completions") 0;
  match chat.1 with
  | None => throw "Vision analysis timeout (120s)"
  | Some chatAnswer =>
      match chat_content chatAnswer with
      | Some c => mret c
      | None =>
          generate ← fetch_within (baseUrl +:+ "/api/generate") chat.2;
          match generate.1 with
          | None => throw "Vision analysis timeout (120s)"
          | Some (Throw message) => throw message
          | Some (Ok response) =>
              if negb (ok response)
              then throw ("Vision analysis failed ("
                          +:+ pretty (status response)
                          +:+ "): " +:+ body response)
              else if negb (truthy (content response))
              then throw
                     "Model returned empty response. Try a different vision model."
              else mret (text_or response "No text extracted from image")
          end
      end
  end.

(** The message for a 403 answer with status [PERMISSION_DENIED]. *)
Definition PERMISSION_DENIED_MESSAGE (message : string) : string :=
  "Google Vision API access denied (403). Possible reasons:"
  +:+ String "010"%char
        "1. Cloud Vision API is not enabled in your Google Cloud Project."
  +:+ String "010"%char "2. Your API key is restricted and doesn't allow "
  +:+ String "034"%char "Cloud Vision API"
  +:+ String "034"%char "."
  +:+ String "010"%char "3. Billing might not be enabled for your project."
  +:+ String "010"%char (String "010"%char "Technical details: ")
  +:+ message.

(** [describeImageGoogleVision], raced against the timer *)
Definition describeImageGoogleVision (base64Image : string)
    (settings : literal) : G string :=
  let googleApiKey := settings !!! "googleApiKey" in
  if negb (truthy googleApiKey)
  then throw "Google Cloud Vision API key is required"
  else
    answer ← fetch_within (ENDPOINT_googleVision +:+ "/images:annotate?key="
                           +:+ tpl googleApiKey) 0;
    match answer.1 with
    | None => throw "Google Vision analysis timeout (120s)"
    | Some (Throw message) => throw message
    | Some (Ok response) =>
        if negb (ok response) then
          throw
            (match apiError response with
             | Some e =>
                 if errCode e =? 403 then
                   if String.eqb (errStatus e) "PERMISSION_DENIED"
                   then PERMISSION_DENIED_MESSAGE (errMessage e)
                   else "Google Vision API 403 error: " +:+ errMessage e
                 else if negb (String.eqb (errMessage e) "")
                 then "Google Vision API error: " +:+ errMessage e
                 else "Google Vision analysis failed ("
                      +:+ pretty (status response) +:+ "): " +:+ body response
             | None => "Google Vision analysis failed ("
                       +:+ pretty (status response) +:+ "): " +:+ body response
             end)
        else
          match content response with
          | None => mret "No text detected in image"
          | Some _ => mret (text_or response "No text extracted from image")
          end
    end.

(** The hosted chat endpoints share one shape: post, fail on a status
    that is not 2xx, read the text. *)
Definition post_chat (url failure : string) : G string :=
  response ← fetch url;
  if negb (ok response) then throw (failure +:+ body response)
  else text_of response.

Definition describeImageOpenAI (base64Image : string) (settings : literal)
    : G string :=
  post_chat (ENDPOINT_openai +:+ "/chat/completions") "OpenAI Vision failed: ".

Definition analyzeTextOpenAI (text : string) (settings : literal) : G string :=
  post_chat (ENDPOINT_openai +:+ "/chat/completions")
            "OpenAI Text Analysis failed: ".

Definition askFollowUpOpenAI (question : string)
    (history : list (string * string)) (settings : literal) : G string :=
  post_chat (ENDPOINT_openai +:+ "/chat/completions")
            "OpenAI Follow-up failed: ".

Definition describeImageAnthropic (base64Image : string)
    (settings : literal) : G string :=
  post_chat (ENDPOINT_anthropic +:+ "/messages") "Anthropic Vision failed: ".

Definition analyzeTextAnthropic (text : string) (settings : literal)
    : G string :=
  post_chat (ENDPOINT_anthropic +:+ "/messages")
            "Anthropic Text Analysis failed: ".

Definition askFollowUpAnthropic (question : string)
    (history : list (string * string)) (settings : literal) : G string :=
  post_chat (ENDPOINT_anthropic +:+ "/messages")
            "Anthropic Follow-up failed: ".

(** The Gemini endpoint carries the model and the key in the URL. *)
Definition gemini_url (model : value) (settings : literal) : string :=
  ENDPOINT_googleGemini +:+ "/models/"
  +:+ tpl (Some (or_else model (JStr "gemini-2.0-flash-exp")))
  +:+ ":generateContent?key=" +:+ tpl (settings !!! "geminiApiKey").

Definition post_gemini (model : value) (settings : literal)
    (failure fallback : string) : G string :=
  response ← fetch (gemini_url model settings);
  if negb (ok response) then throw (failure +:+ body response)
  else mret (text_or response fallback).

Definition describeImageGemini (base64Image : string) (settings : literal)
    : G string :=
  post_gemini (settings !!! "visionModel") settings
              "Gemini Vision failed: " "No text detected".

Definition analyzeTextGemini (text : string) (settings : literal) : G string :=
  post_gemini (settings !!! "textModel") settings
              "Gemini Text Analysis failed: " "No analysis generated".

Definition askFollowUpGemini (question : string)
    (history : list (string * string)) (settings : literal) : G string :=
  post_gemini (settings !!! "textModel") settings
              "Gemini Follow-up failed: " "No response generated".

(** The generate endpoint, raced against the timer. *)
Definition generate_within (url timeout failure fallback : string)
    : G string :=
  answer ← fetch_within url 0;
  match answer.1 with
  | None => throw timeout
  | Some (Throw message) => throw message
  | Some (Ok response) =>
      if negb (ok response)
      then throw (failure +:+ " (" +:+ pretty (status response)
                  +:+ "): " +:+ body response)
      else mret (text_or response fallback)
  end.

(** [analyzeTextOllama] *)
Definition analyzeTextOllama (text : string) (settings : literal) : G string :=
  let baseUrl := getBaseUrl (settings !!! "textApiProvider") in
  generate_within (baseUrl +:+ "/api/generate")
    "Text analysis timeout (120s)" "Text analysis failed"
    "No analysis generated".

(** [askFollowUpOllama] *)
Definition askFollowUpOllama (question : string)
    (history : list (string * string)) (settings : literal) : G string :=
  let textApiProvider := settings !!! "textApiProvider" in
  let baseUrl := getBaseUrl textApiProvider in
  (if is_provider textApiProvider OLLAMA_LOCAL then
     try_catch (checkLocalHealth;; mret ())
       (λ _, throw "Ollama is not running. Please start Ollama locally.")
   else mret ());;
  generate_within (baseUrl +:+ "/api/generate")
    "Follow-up analysis timeout (120s)" "Follow-up analysis failed"
    "No response generated".

(** [describeImage(base64Image, settings, onProgress)] *)
Definition describeImage (base64Image : string) (settings : literal)
    : G string :=
  let visionApiProvider := settings !!! "visionApiProvider" in
  lift (validateRequiredKey visionApiProvider settings);;
  if is_provider visionApiProvider OLLAMA_LOCAL || is_provider visionApiProvider OLLAMA_CLOUD
  then describeImageOllama base64Image settings
  else if is_provider visionApiProvider GOOGLE_VISION
  then describeImageGoogleVision base64Image settings
  else if is_provider visionApiProvider OPENAI
  then describeImageOpenAI base64Image settings
  else if is_provider visionApiProvider ANTHROPIC
  then describeImageAnthropic base64Image settings
  else if is_provider visionApiProvider GOOGLE_GEMINI
  then describeImageGemini base64Image settings
  else throw ("Unknown vision provider: " +:+ tpl visionApiProvider).

(** [analyzeText(text, settings, onProgress)] *)
Definition analyzeText (text : string) (settings : literal) : G string :=
  let textApiProvider := settings !!! "textApiProvider" in
  lift (validateRequiredKey textApiProvider settings);;
  if is_provider textApiProvider OLLAMA_LOCAL || is_provider textApiProvider OLLAMA_CLOUD
  then analyzeTextOllama text settings
  else if is_provider textApiProvider OPENAI then analyzeTextOpenAI text settings
  else if is_provider textApiProvider ANTHROPIC then analyzeTextAnthropic text settings
  else if is_provider textApiProvider GOOGLE_GEMINI then analyzeTextGemini text settings
  else throw ("Unknown text provider: " +:+ tpl textApiProvider).

(** [askFollowUp(question, conversationHistory, settings, onProgress)] *)
Definition askFollowUp (question : string) (history : list (string * string))
    (settings : literal) : G string :=
  let textApiProvider := settings !!! "textApiProvider" in
  lift (validateRequiredKey textApiProvider settings);;
  if is_provider textApiProvider OLLAMA_LOCAL || is_provider textApiProvider OLLAMA_CLOUD
  then askFollowUpOllama question history settings
  else if is_provider textApiProvider OPENAI
  then askFollowUpOpenAI question history settings
  else if is_provider textApiProvider ANTHROPIC
  then askFollowUpAnthropic question history settings
  else if is_provider textApiProvider GOOGLE_GEMINI
  then askFollowUpGemini question history settings
  else throw ("Unknown text provider: " +:+ tpl textApiProvider).

Definition needs_key (provider : string) : bool :=
  String.eqb provider OPENAI || String.eqb provider ANTHROPIC
  || String.eqb provider GOOGLE_GEMINI || String.eqb provider OLLAMA_CLOUD.

Definition get_cache : G (gmap string (list Model * Z)) :=
  λ w, (w, Ok (cache w)).

Definition put_cache (key : string) (entry : list Model * Z) : G unit :=
  λ w, (mkNet (requests w) (<[key := entry]> (cache w)), Ok ()).

(** The listing of one provider, inside the [try] block of [getModels]. *)
Definition fetchModels (provider : string) (apiKey : value)
    : G (list Model) :=
  if String.eqb provider OLLAMA_LOCAL || String.eqb provider OLLAMA_CLOUD then
    localModels ← getLocalModels;
    mret (map (λ m : string * value, (m.1, m.1)) localModels)
  else if String.eqb provider OPENAI then
    response ← fetch (ENDPOINT_openai +:+ "/models");
    if negb (ok response) then throw "Failed to fetch OpenAI models"
    else mret (map (λ m : string * value, (m.1, m.1))
                 (filter (λ m : string * value, includes m.1 "gpt" = true)
                         (models response)))
  else if String.eqb provider ANTHROPIC then
    response ← fetch (ENDPOINT_anthropic +:+ "/models");
    if negb (ok response) then throw "Failed to fetch Anthropic models"
    else mret (map (λ m : string * value,
                      (m.1, tpl (Some (or_else m.2 (JStr m.1)))))
                 (filter (λ m : string * value, includes m.1 "claude" = true)
                         (models response)))
  else if String.eqb provider GOOGLE_GEMINI then
    response ← fetch (ENDPOINT_googleGemini +:+ "/models?key=" +:+ tpl apiKey);
    if negb (ok response) then throw "Failed to fetch Gemini models"
    else mret (map (λ m : string * value,
                      let id := remove_first "models/" m.1 in
                      (id, tpl (Some (or_else m.2 (JStr id)))))
                 (filter (λ m : string * value, includes m.1 "gemini" = true)
                         (models response)))
  else mret [].

(** [CACHE.models[key] && CACHE.expiry[key] > now] *)
Definition cache_hit (c : gmap string (list Model * Z)) (key : string)
    (now : Z) : option (list Model) :=
  match c !! key with
  | Some (cached, expiry) => if now <? expiry then Some cached else None
  | None => None
  end.

(** [getModels(provider, apiKey)]; [now] is the reading of [Date.now()]. *)
Definition getModels (now : Z) (provider : string) (apiKey : value)
    : G (list Model) :=
  let cacheKey :=
    provider +:+ "-" +:+ tpl (Some (or_else apiKey (JStr "no-key"))) in
  c ← get_cache;
  match cache_hit c cacheKey now with
  | Some cached => mret cached
  | None =>
      if needs_key provider && negb (truthy apiKey)
      then throw "API Key is required for this provider"
      else
        models ← fetchModels provider apiKey;
        put_cache cacheKey (models, now + 3600000);;
        mret models
  end.

End Gateway.

End AIService.

(** ** The popup while an area capture is under way *)

Module PopupArea.

(** What the popup shows: the two lines of the loading panel, or, with
    the loading panel hidden and the capture button enabled again, a
    result, an error, or nothing. *)
Inductive View :=
  | ShowProgress (text step : string)
  | ShowResult (html : json)
  | ShowError (message : string)
  | ShowIdle.

(** The state of the popup: the store it shares with the other contexts,
    what it has shown so far, and the number of waits it has gone
    through. *)
Record PopupWorld := mkPopupWorld {
  pstore : Store;
  views : list View;
  waits : nat
}.

Abbreviation P := (St PopupWorld).

Definition show (v : View) : P unit := λ w,
  (mkPopupWorld (pstore w) (views w ++ [v]) (waits w), Ok ()).

Definition p_getState : P (option obj) := λ w, (w, Ok (getState (pstore w))).

Definition p_reset : P unit := λ w,
  (mkPopupWorld (reset (pstore w)) (views w) (waits w), Ok ()).

Definition status_is (state : obj) (st : string) : bool :=
  bool_decide (state !! "status" = Some (JStr st)).

Definition maxWait : Z := 120000.

Definition pollInterval : Z := 500.

Definition TIMEOUT_MESSAGE : string := "Operation timed out. Please try again.".

Section Poll.
(** What the other contexts do to the store during the [k]-th wait of
    the popup. *)
Variable meanwhile : nat → Store → Store.

(** [setTimeout(resolve, pollInterval)] awaited *)
Definition sleep : P unit := λ w,
  (mkPopupWorld (meanwhile (waits w) (pstore w)) (views w) (S (waits w)),
   Ok ()).

(** The body of the loop of [pollForAreaResult] up to the wait; the
    result tells whether the function returned. *)
Definition poll_once : P bool :=
  state ← p_getState;
  match state with
  | Some state =>
      if status_is state "capturing" then
        show (ShowProgress "Initializing..." "Please wait...");; mret false
      else if status_is state "selecting" then
        show (ShowProgress "Area Selection" "Select an area on the page...");;
        mret false
      else if status_is state "processing" then
        show (ShowProgress "Processing" "Processing captured area...");;
        mret false
      else if status_is state "analyzing" then
        show (ShowProgress "Analyzing" "AI Analysis in progress...");;
        mret false
      else if status_is state "complete" && truthy (state !! "result") then
        show (ShowResult (default JNull (state !! "result")));;
        p_reset;; mret true
      else if status_is state "error" then
        show (ShowError (AIService.tpl (state !! "error")));;
        p_reset;; mret true
      else if status_is state "cancelled" then
        show ShowIdle;; p_reset;; mret true
      else mret false
  | None => mret false
  end.

(** [while (elapsed < maxWait) { ...; elapsed += pollInterval }] and what
    follows the loop. [fuel] bounds the number of iterations. *)
Fixpoint pollForAreaResult_from (fuel : nat) (elapsed : Z) : P unit :=
  if elapsed <? maxWait then
    match fuel with
    | O => throw "out of fuel"
    | S fuel' =>
        returned ← poll_once;
        if (returned : bool) then mret ()
        else sleep;; pollForAreaResult_from fuel' (elapsed + pollInterval)
    end
  else
    show (ShowError TIMEOUT_MESSAGE);; p_reset.

(** [pollForAreaResult(loadingStep)] *)
Definition pollForAreaResult : P unit := pollForAreaResult_from 240 0.

(** The click handler of the cancel button; [backgroundAlive] tells
    whether the ['cancelCapture'] message reaches the worker, whose
    handler is [handleCancelCapture]. *)
Definition cancelClicked (now1 now2 : Z) (backgroundAlive : bool) : P unit :=
  λ w,
    let s1 := cancel now1 (pstore w) in
    let s2 := if backgroundAlive then reset (cancel now2 s1) else s1 in
    (mkPopupWorld s2 (views w ++ [ShowIdle]) (waits w), Ok ()).

End Poll.

End PopupArea.

(** ** The area selector (content script) *)

Module Selector.

(** The selection of a drag between two points of the page, or [None]
    ([null]) when it is not more than ten pixels in both dimensions. *)
Definition selection (startX startY currentX currentY : Z) : option obj :=
  let left := Z.min startX currentX in
  let top := Z.min startY currentY in
  let width := Z.abs (currentX - startX) in
  let height := Z.abs (currentY - startY) in
  if (10 <? width) && (10 <? height) then
    Some (<["height" := JNum height]>
            (<["width" := JNum width]>
               (<["y" := JNum top]> {["x" := JNum left]})))
  else None.

(** [handleMouseUp(e)] with the drag recorded by [handleMouseDown] and
    [handleMouseMove] *)
Definition handleMouseUp (isSelecting : bool)
    (docStartX docStartY docCurrentX docCurrentY : Z) (s : Store) : Store :=
  if isSelecting then
    set_areaSelection
      (Some (selection docStartX docStartY docCurrentX docCurrentY)) s
  else s.

(** [handleKeyDown(e)] *)
Definition handleKeyDown (key : string) (s : Store) : Store :=
  if String.eqb key "Escape" then set_areaSelection (Some None) s else s.

End Selector.

(** ** The storage listener of the floating icon *)

Module IconListener.

(** The floating icon in a page: the store it shares with the other
    contexts, whether its button is hidden, and the results it has put
    on the page. *)
Record Icon := mkIcon {
  istore : Store;
  buttonHidden : bool;
  resultsShown : list json
}.

Abbreviation L := (St Icon).

(** [chrome.storage.local.remove(['currentCapture', 'captureRequest'])] *)
Definition removeCapture : L unit := λ w,
  (mkIcon (reset (istore w)) (buttonHidden w) (resultsShown w), Ok ()).

(** [showResultOnPage(result)] *)
Definition showResultOnPage (result : json) : L unit := λ w,
  (mkIcon (istore w) (buttonHidden w) (resultsShown w ++ [result]), Ok ()).

(** [floatBtn.style.display = ''] *)
Definition showButton : L unit := λ w,
  (mkIcon (istore w) false (resultsShown w), Ok ()).

(** The listener on a change of [currentCapture] with a new value. In
    the ['error'] case the code reaches for [chrome.storage.local.local],
    which is [undefined], so that the call of [remove] throws. *)
Definition onCurrentCaptureChanged (newValue : option obj) : L unit :=
  try_catch
    (match newValue with
     | Some state =>
         if PopupArea.status_is state "complete" then
           removeCapture;;
           (if truthy (state !! "result")
            then showResultOnPage (default JNull (state !! "result"))
            else mret ());;
           showButton
         else if PopupArea.status_is state "error" then
           (throw "Cannot read properties of undefined (reading 'remove')"
              : L unit);;
           showButton
         else if PopupArea.status_is state "cancelled" then
           removeCapture;; showButton
         else mret ()
     | None => mret ()
     end)
    (λ message,
      if includes message "Extension context"
         || includes message "context invalidated"
      then showButton
      else mret ()).

End IconListener.

(** * Vocabulary of the properties and example runs *)

(** The outcome of a capture signals the rate limit of the primitive. *)
Definition rate_limited (r : Result string) : bool :=
  match r with
  | Throw message => includes message Background.RATE_LIMIT
  | Ok _ => false
  end.

(** The wait before attempt [j], in milliseconds. *)
Definition backoff_ms (j : nat) : Z := 600 * (Z.of_nat j + 1).

(** What attempt [j] adds to the log. *)
Definition attempt_events (wid : Z) (maxRetries j : nat) : list Event :=
  match j, maxRetries with
  | O, O => [EvCaptureVisibleTab wid]
  | _, _ => [EvDelay (backoff_ms j); EvCaptureVisibleTab wid]
  end.

(** The log of attempts [a], [a+1], ..., [a+k]. *)
Fixpoint attempts_log (wid : Z) (maxRetries a : nat) (k : nat) : list Event :=
  attempt_events wid maxRetries a ++
  match k with
  | O => []
  | S k' => attempts_log wid maxRetries (S a) k'
  end.

Definition after_attempt (w : World) (evs : list Event) : World :=
  mkWorld (store w) (pollingActive w) (log w ++ evs) (ticks w)
          (S (ncaptures w)) (nscripts w).

(** The partial state written on a failure. *)
Definition error_update (message : string) : literal :=
  <["error" := Some (JStr message)]> {["status" := Some (JStr "error")]}.

(** The event is an [updateState] call that sets the given status. *)
Definition writes_status (st : string) (ev : Event) : bool :=
  match ev with
  | EvUpdateState l => bool_decide (l !! "status" = Some (Some (JStr st)))
  | _ => false
  end.

(** The event is a capture operation: a snapshot of the tab or anything
    injected into the page. *)
Definition capture_op (ev : Event) : bool :=
  match ev with
  | EvCaptureVisibleTab _ | EvExecuteScript _ | EvInsertCSS _ => true
  | _ => false
  end.

(** The event is a call into the AI gateway. *)
Definition gateway_call (ev : Event) : bool :=
  match ev with
  | EvDescribeImage _ | EvAnalyzeText _ => true
  | _ => false
  end.

Definition error_of (s : Store) : option json :=
  currentCapture s ≫= λ o, o !! "error".

Definition result_of (s : Store) : option json :=
  currentCapture s ≫= λ o, o !! "result".

(** A tab on an ordinary page. *)
Definition example_tab : Tab :=
  mkTab (JNum 7) 1 (Some (JStr "https://example.org/")).

(** An environment in which every chrome call succeeds, with the given
    outcomes of the two gateway calls and the given actions of other
    contexts during them. *)
Definition scenario (vision text : Result string)
    (dv dt : list ClientOp) : Env :=
  {| dateNow := λ n, 1000 + Z.of_nat n;
     tabsQuery := Ok (Some example_tab);
     tabsGet := λ _, Ok example_tab;
     captureVisibleTab := λ _, Ok "data:image/png;base64,AAAA";
     insertCSS := Ok ();
     executeScript := λ _ _, Ok SvUndefined;
     describeImage := λ _ _, vision;
     analyzeText := λ _ _, text;
     duringVision := dv;
     duringText := dt;
     renderCanvas := λ _ _ _, "data:image/png;base64,BBBB" |}.

(** Every call succeeds and no other context touches the store. *)
Definition calm_env : Env := scenario (Ok "hello") (Ok "analysis") [] [].

(** A renderer to run examples with; the statements below hold for every
    renderer. *)
Definition plain_markup (text : string) : string :=
  "<div>" +:+ text +:+ "</div>".

Definition configured_settings : obj :=
  <["textApiProvider" := JStr "ollama"]>
    {["visionApiProvider" := JStr "ollama"]}.

(** A store holding one pending request for the given URL and mode. *)
Definition pending_store (url mode : string) : Store :=
  mkStore
    (Some (<["status" := JStr "pending"]>
             (<["tabId" := JNum 7]>
                (<["url" := JStr url]> {["mode" := JStr mode]}))))
    None None None (Some configured_settings) ∅.

(** The last thing another context did while the worker was suspended was
    a [cancel()] that no [reset()] followed. *)
Definition ends_cancelled (ops : list ClientOp) : bool :=
  match last ops with
  | Some OpCancel => true
  | _ => false
  end.

(** The event is neither a call of the gateway nor a write of the status. *)
Definition silent (ev : Event) : Prop :=
  gateway_call ev = false ∧ ∀ st, writes_status st ev = false.

(** The event is no call of the gateway. *)
Definition offline (ev : Event) : Prop := gateway_call ev = false.

(** What another context may add to the log: no call of the gateway, and
    no write of a status other than ['cancelled']. *)
Definition client_event (ev : Event) : Prop :=
  gateway_call ev = false
  ∧ ∀ st, st ≠ "cancelled" → writes_status st ev = false.

Definition is_analyzeText (ev : Event) : bool :=
  match ev with EvAnalyzeText _ => true | _ => false end.

(** The store as the ['capturing'] write of a visible capture leaves it. *)
Definition capturing_store : Store :=
  mkStore None
    (Some (<["updatedAt" := JNum 999]>
             (<["result" := JNull]>
                (<["error" := JNull]>
                   (<["tabId" := JNum 7]>
                      (<["mode" := JStr "visible"]>
                         {["status" := JStr "capturing"]}))))))
    None None (Some configured_settings) ∅.

Definition example_dataUrl : string := "data:image/png;base64,AAAA".

(** The event is a read of the capture state that found ['cancelled']. *)
Definition observes_cancel (ev : Event) : bool :=
  match ev with
  | EvGetState (Some st) => String.eqb st "cancelled"
  | _ => false
  end.

(** Another context replaces the store of the world. *)
Definition with_store (s : Store) (w : World) : World :=
  mkWorld s (pollingActive w) (log w) (ticks w) (ncaptures w) (nscripts w).

Definition configured_store : Store :=
  mkStore None None None None (Some configured_settings) ∅.

(** A visible capture of an ordinary page, started from the floating icon
    and run to completion. *)
Definition after_first_capture : World :=
  let w0 := initial_world configured_store in
  (Background.processQueuedRequest calm_env plain_markup
     (with_store
        (FloatingIcon.startCapture 1 2 "aaaaaaaaa" "visible"
           "https://example.org/" (store w0))
        w0)).1.

(** Then, with the store as the first capture left it, an area capture
    started from the popup on a restricted page. *)
Definition before_second_capture : World :=
  with_store
    (enqueue 3 4 "bbbbbbbbb"
       (Popup.area_request
          (mkTab (JNum 8) 1 (Some (JStr "chrome://extensions/"))))
       (store after_first_capture)).2
    after_first_capture.

Definition after_second_capture : World :=
  (Background.processQueuedRequest calm_env plain_markup
     before_second_capture).1.

Definition state_of (w : World) : obj := default ∅ (currentCapture (store w)).

(** The scroll offsets of the shots recorded in a log. *)
Definition shot_offsets (l : list Event) : list Z :=
  omap (λ ev, match ev with
              | EvExecuteScript (ScShowOverlayAndScroll _ y) => Some y
              | _ => None
              end) l.

(** The event does not scroll a shot past [bound]. *)
Definition scroll_within (bound : Z) (ev : Event) : Prop :=
  match ev with
  | EvExecuteScript (ScShowOverlayAndScroll _ y) => y ≤ bound
  | _ => True
  end.

(** A page of the given total height seen through a viewport of the given
    height, on which every script and every capture succeeds. *)
Definition page_env (height viewport : Z) : Env :=
  {| dateNow := λ n, 1000 + Z.of_nat n;
     tabsQuery := Ok (Some example_tab);
     tabsGet := λ _, Ok example_tab;
     captureVisibleTab := λ _, Ok "data:image/png;base64,AAAA";
     insertCSS := Ok ();
     executeScript := λ _ sc,
       match sc with
       | ScPageInfo => Ok (SvPageInfo (mkPageInfo height viewport 1280 0 0))
       | ScStitch _ _ _ => Ok (SvDataUrl "data:image/png;base64,CCCC")
       | _ => Ok SvUndefined
       end;
     describeImage := λ _ _, Ok "hello";
     analyzeText := λ _ _, Ok "analysis";
     duringVision := [];
     duringText := [];
     renderCanvas := λ _ _ _, "data:image/png;base64,BBBB" |}.

(** The providers that need a credential, each with the settings field
    that holds it and the message of the error raised without it. *)
Definition credentialed : list (string * string * string) :=
  [("openai", "openaiApiKey", "OpenAI API Key is required");
   ("anthropic", "anthropicApiKey", "Anthropic API Key is required");
   ("google-gemini", "geminiApiKey", "Gemini API Key is required");
   ("ollama-cloud", "ollamaApiKey", "Ollama Cloud API Key is required");
   ("google-vision", "googleApiKey", "Google Cloud Vision API Key is required")].

(** Every request settles at once. *)
Definition instant : nat → string → Z := λ _ _, 0.

(** A network on which nothing answers. *)
Definition no_network : nat → string → Result AIService.Response :=
  λ _ _, Throw "Failed to fetch".

(** A network on which only the local server answers, listing one model. *)
Definition local_network : nat → string → Result AIService.Response :=
  λ _ url,
    if String.eqb url "http://localhost:11434/api/tags"
    then Ok (AIService.mkResponse true 200 "" None None [("llava", None)])
    else Throw "Failed to fetch".

(** The partial state written when a capture starts. *)
Definition capturing_update (mode : value) (tid : json) : literal :=
  <["result" := Some JNull]>
    (<["error" := Some JNull]>
      (<["tabId" := Some tid]>
        (<["mode" := mode]> {["status" := Some (JStr "capturing")]}))).

(** A store holding the given request and the example settings. *)
Definition request_store (request : obj) : Store :=
  mkStore (Some request) None None None (Some configured_settings) ∅.

(** No tab is active in the current window; everything else succeeds. *)
Definition tabless_env : Env :=
  mkEnv (dateNow calm_env) (Ok None) (tabsGet calm_env)
        (captureVisibleTab calm_env) (insertCSS calm_env)
        (executeScript calm_env) (describeImage calm_env)
        (analyzeText calm_env) [] [] (renderCanvas calm_env).

(** The store after the floating icon asked for a capture of the visible
    area of an ordinary page. *)
Definition icon_store : Store :=
  FloatingIcon.startCapture 1 2 "aaaaaaaaa" "visible" "https://example.org/"
    configured_store.

(** Settings whose blob carries a key that is not stored under its own
    entry. *)
Definition blob_key_store : Store :=
  mkStore None None None None
    (Some (<["openaiApiKey" := JStr "sk-blob"]>
             {["visionApiProvider" := JStr "openai"]})) ∅.

(** The base64 payload of a captured image, when the data URL has one. *)
Definition image_payload (dataUrl : option string) : option string :=
  match dataUrl ≫= Background.split_comma_1 with
  | Some EmptyString => None
  | payload => payload
  end.

(** The names under which [getSettings] returns the stored credentials. *)
Definition credential_fields : list string :=
  ["ollamaApiKey"; "googleApiKey"; "openaiApiKey"; "anthropicApiKey";
   "geminiApiKey"].

(** The request got no answer, or an answer whose status is not 2xx. *)
Definition request_failed (r : Result AIService.Response) : Prop :=
  match r with
  | Ok response => AIService.ok response = false
  | Throw _ => True
  end.

(** The providers that [analyzeText] and [askFollowUp] dispatch on. *)
Definition text_providers : list string :=
  ["ollama"; "ollama-cloud"; "openai"; "anthropic"; "google-gemini"].

(** A network on which the chat endpoint of the cloud is down and its
    generate endpoint answers. *)
Definition generate_only_network : nat → string → Result AIService.Response :=
  λ _ url,
    if String.eqb url "https://ollama.com/api/generate"
    then Ok (AIService.mkResponse true 200 "" (Some (JStr "a cat")) None [])
    else Throw "Failed to fetch".

(** A network on which the local server lists one installed model. *)
Definition bakllava_network : nat → string → Result AIService.Response :=
  λ _ url,
    if String.eqb url "http://localhost:11434/api/tags"
    then Ok (AIService.mkResponse true 200 "" None None
               [("bakllava:7b", None)])
    else Throw "Failed to fetch".

(** The text after its first [n] characters. *)
Fixpoint string_drop (n : nat) (s : string) : string :=
  match n, s with
  | O, _ => s
  | S k, String _ s' => string_drop k s'
  | S _, EmptyString => EmptyString
  end.

(** The text is empty or starts with a character that is not a word
    character. *)
Definition at_boundary (s : string) : bool :=
  match s with
  | EmptyString => true
  | String c _ => negb (Background.is_word c)
  end.

(** The capture state is one at which [pollForAreaResult] stops. *)
Definition ends_polling (state : option obj) : bool :=
  match state with
  | Some o =>
      PopupArea.status_is o "complete" && truthy (o !! "result")
      || PopupArea.status_is o "error"
      || PopupArea.status_is o "cancelled"
  | None => false
  end.

(** What the popup shows for such a state. *)
Definition view_of (state : option obj) : PopupArea.View :=
  match state with
  | Some o =>
      if PopupArea.status_is o "complete"
      then PopupArea.ShowResult (default JNull (o !! "result"))
      else if PopupArea.status_is o "error"
      then PopupArea.ShowError (AIService.tpl (o !! "error"))
      else PopupArea.ShowIdle
  | None => PopupArea.ShowIdle
  end.

(** The store that the popup finds at its [k]-th poll from the world
    [w], when it has only waited in between. *)
Fixpoint store_at (meanwhile : nat → Store → Store)
    (w : PopupArea.PopupWorld) (k : nat) : Store :=
  match k with
  | O => PopupArea.pstore w
  | S k' => meanwhile (PopupArea.waits w + k')%nat (store_at meanwhile w k')
  end.

(** * Properties *)

(** ** The capture queue *)

Section QueueFacts.

Lemma lookup_serialize (l : literal) (k : string) :
  serialize l !! k = l !! k ≫= id.
Proof. unfold serialize. apply lookup_omap. Qed.

Lemma lookup_fields (o : obj) (k : string) :
  fields o !! k = Some <$> (o !! k).
Proof. unfold fields. apply lookup_fmap. Qed.

Lemma lookup_spread (base upd : literal) (k : string) :
  spread base upd !! k =
    match upd !! k with Some v => Some v | None => base !! k end.
Proof.
  unfold spread. rewrite lookup_union.
  destruct (upd !! k), (base !! k); reflexivity.
Qed.

(** Field by field, what [updateState] leaves in the store. *)
Lemma lookup_updateState (now : Z) (P : literal) (s : Store) (k : string) :
  ∃ S', currentCapture (updateState now P s) = Some S' ∧
    S' !! k =
      if decide (k = "updatedAt") then Some (JNum now)
      else match P !! k with
           | Some v => v
           | None => default ∅ (currentCapture s) !! k
           end.
Proof.
  eexists. split; [reflexivity|].
  rewrite lookup_serialize.
  destruct (decide (k = "updatedAt")) as [->|Hk].
  - by rewrite lookup_insert_eq.
  - rewrite lookup_insert_ne by done.
    rewrite lookup_spread, lookup_fields.
    destruct (P !! k) as [v|]; [reflexivity|].
    by destruct (default ∅ (currentCapture s) !! k).
Qed.

Lemma status_of_updateState (now : Z) (P : literal) (s : Store) (st : string) :
  P !! "status" = Some (Some (JStr st)) →
  status_of (updateState now P s) = Some st.
Proof.
  intros HP. unfold status_of.
  destruct (lookup_updateState now P s "status") as (S' & -> & ->).
  rewrite decide_False by done. by rewrite HP.
Qed.

End QueueFacts.

(** C1. In every store whose [captureRequest] entry holds a request with
    status ['pending'], [dequeue()] flips the status to ['processing'],
    writes the request back and returns it; in every store whose entry is
    absent or holds a request with another status, [dequeue()] returns
    nothing and leaves the store as it is. Hence after one [enqueue], the
    first of two successive [dequeue()] calls yields the request and the
    second yields nothing. *)
Theorem C1_dequeue_claims_once (s : Store) :
  (∀ r, captureRequest s = Some r → r !! "status" = Some (JStr "pending") →
     let r' := <["status" := JStr "processing"]> r in
     dequeue s = (Some r', set_captureRequest (Some r') s)
     ∧ (∀ k, k ≠ "status" → r' !! k = r !! k)
     ∧ r' !! "status" = Some (JStr "processing")
     ∧ dequeue (dequeue s).2 = (None, (dequeue s).2))
  ∧ (captureRequest s = None → dequeue s = (None, s))
  ∧ (∀ r, captureRequest s = Some r → r !! "status" ≠ Some (JStr "pending") →
       dequeue s = (None, s))
  ∧ (∀ now1 now2 rnd request,
       let id := (enqueue now1 now2 rnd request s).1 in
       let s1 := (enqueue now1 now2 rnd request s).2 in
       ∃ r, (dequeue s1).1 = Some r
          ∧ r !! "id" = Some (JStr id)
          ∧ r !! "status" = Some (JStr "processing")
          ∧ captureRequest (dequeue s1).2 = Some r
          ∧ dequeue (dequeue s1).2 = (None, (dequeue s1).2)).
Proof.
  assert (Hflip : ∀ (t : Store) r,
            captureRequest t = Some r →
            r !! "status" = Some (JStr "pending") →
            dequeue t = (Some (<["status" := JStr "processing"]> r),
                         set_captureRequest
                           (Some (<["status" := JStr "processing"]> r)) t)).
  { intros t r Hr Hst. unfold dequeue. rewrite Hr.
    by rewrite decide_True. }
  assert (Hagain : ∀ (t : Store) r,
            captureRequest t = Some r →
            r !! "status" = Some (JStr "pending") →
            dequeue (dequeue t).2 = (None, (dequeue t).2)).
  { intros t r Hr Hst. rewrite (Hflip t r Hr Hst). cbn.
    unfold dequeue. cbn. rewrite decide_False; [done|].
    rewrite lookup_insert_eq. discriminate. }
  repeat split.
  - by apply Hflip.
  - intros k Hk. by rewrite lookup_insert_ne.
  - apply lookup_insert_eq.
  - by eapply Hagain.
  - intros Hnone. unfold dequeue. by rewrite Hnone.
  - intros r Hr Hst. unfold dequeue. rewrite Hr. by rewrite decide_False.
  - intros now1 now2 rnd request id s1.
    set (e := serialize
                (<["status" := Some (JStr "pending")]>
                   (<["timestamp" := Some (JNum now2)]>
                      (<["id" := Some (JStr id)]> request)))).
    assert (Hs1 : captureRequest s1 = Some e) by reflexivity.
    assert (He : e !! "status" = Some (JStr "pending")).
    { unfold e. rewrite lookup_serialize. by rewrite lookup_insert_eq. }
    assert (Hid : e !! "id" = Some (JStr id)).
    { unfold e. rewrite lookup_serialize.
      rewrite lookup_insert_ne by done. rewrite lookup_insert_ne by done.
      by rewrite lookup_insert_eq. }
    exists (<["status" := JStr "processing"]> e).
    rewrite (Hflip s1 e Hs1 He).
    repeat split.
    + by rewrite lookup_insert_ne.
    + apply lookup_insert_eq.
    + rewrite <- (Hflip s1 e Hs1 He). by apply (Hagain s1 e).
Qed.

(** C2. For every prior capture state [S] and partial update [P],
    [updateState(P)] stores [S] overlaid with the fields of [P] and a
    fresh [updatedAt]: a field named in [P] takes its value from [P], a
    field of [S] not named in [P] is unchanged, and no other entry of the
    store is touched. In particular [updateState({a:1})] followed by
    [updateState({b:2})] leaves a state with both [a:1] and [b:2]. *)
Theorem C2_updateState_merges (now : Z) (P : literal) (s : Store) :
  let S := default ∅ (currentCapture s) in
  (∃ S', currentCapture (updateState now P s) = Some S'
     ∧ S' = serialize (<["updatedAt" := Some (JNum now)]>
                         (spread (fields S) P))
     ∧ S' !! "updatedAt" = Some (JNum now)
     ∧ (∀ k v, k ≠ "updatedAt" → P !! k = Some v → S' !! k = v)
     ∧ (∀ k, k ≠ "updatedAt" → P !! k = None → S' !! k = S !! k))
  ∧ captureRequest (updateState now P s) = captureRequest s
  ∧ (∀ now', ∃ S2,
       currentCapture
         (updateState now' {["b" := Some (JNum 2)]}
            (updateState now {["a" := Some (JNum 1)]} s)) = Some S2
       ∧ S2 !! "a" = Some (JNum 1) ∧ S2 !! "b" = Some (JNum 2)).
Proof.
  intros S. split; [|split].
  - eexists. split; [reflexivity|]. split; [reflexivity|].
    split; [|split].
    + rewrite lookup_serialize. by rewrite lookup_insert_eq.
    + intros k v Hk HP.
      destruct (lookup_updateState now P s k) as (S' & HS' & Hl).
      cbn in HS'. injection HS' as <-. rewrite Hl.
      rewrite decide_False by done. by rewrite HP.
    + intros k Hk HP.
      destruct (lookup_updateState now P s k) as (S' & HS' & Hl).
      cbn in HS'. injection HS' as <-. rewrite Hl.
      rewrite decide_False by done. by rewrite HP.
  - reflexivity.
  - intros now'.
    set (s1 := updateState now {["a" := Some (JNum 1)]} s).
    destruct (lookup_updateState now' {["b" := Some (JNum 2)]} s1 "a")
      as (S2 & HS2 & Ha).
    destruct (lookup_updateState now' {["b" := Some (JNum 2)]} s1 "b")
      as (S2' & HS2' & Hb).
    rewrite HS2 in HS2'. injection HS2' as <-.
    exists S2. split; [exact HS2|]. split.
    + rewrite Ha. rewrite decide_False by done.
      rewrite lookup_singleton_ne by done.
      destruct (lookup_updateState now {["a" := Some (JNum 1)]} s "a")
        as (S1 & HS1 & Ha1).
      fold s1 in HS1. rewrite HS1. cbn. rewrite Ha1.
      rewrite decide_False by done. by rewrite lookup_singleton_eq.
    + rewrite Hb. rewrite decide_False by done.
      by rewrite lookup_singleton_eq.
Qed.

(** C10. Handling a ['cancelCapture'] message is [cancel()] followed by
    [reset()]: the handler makes exactly one write of the capture state,
    the one that sets status ['cancelled'], and then removes the request
    and that state. After the handler both are gone, [getState()]
    returns nothing, and a consumer reading the store afterwards finds
    no ['cancelled'] status. *)
Theorem C10_cancelCapture_leaves_no_state (env : Env) (w : World) :
  let w1 := (q_cancel env w).1 in
  let w2 := (handleCancelCapture env w).1 in
  handleCancelCapture env w = q_reset w1
  ∧ (handleCancelCapture env w).2 = Ok ()
  ∧ log w1 = log w ++ [EvUpdateState {["status" := Some (JStr "cancelled")]}]
  ∧ log w2 = log w1
  ∧ store w1 = cancel (dateNow env (ticks w)) (store w)
  ∧ status_of (store w1) = Some "cancelled"
  ∧ store w2 = reset (store w1)
  ∧ captureRequest (store w2) = None
  ∧ currentCapture (store w2) = None
  ∧ getState (store w2) = None
  ∧ status_of (store w2) ≠ Some "cancelled".
Proof.
  cbn. repeat split.
  - apply status_of_updateState. by rewrite lookup_singleton_eq.
  - discriminate.
Qed.

(** ** The capture-with-retry helper *)

Section RetryFacts.
Variable env : Env.

Lemma captureWithRetry_from_unfold wid maxRetries a rl w :
  Background.captureWithRetry_from env wid maxRetries a rl w =
    let w1 := after_attempt w (attempt_events wid maxRetries a) in
    match captureVisibleTab env (ncaptures w) with
    | Ok d => (w1, Ok d)
    | Throw m =>
        if includes m Background.RATE_LIMIT then
          match rl with
          | S r => Background.captureWithRetry_from env wid maxRetries (S a) r w1
          | O => (w1, Throw m)
          end
        else (w1, Throw m)
    end.
Proof.
  destruct w as [st pa lg tk nc ns].
  assert (Hev : ∀ e1 e2 : Event, (lg ++ [e1]) ++ [e2] = lg ++ [e1; e2]).
  { intros. by rewrite <- app_assoc. }
  destruct rl, a, maxRetries; cbn;
    unfold try_catch, mbind, St_bind, Background.CAPTURE_DELAY, backoff_ms;
    cbn; rewrite ?Hev;
    destruct (captureVisibleTab env nc); try reflexivity;
    destruct (includes _ _); reflexivity.
Qed.

Lemma captureWithRetry_from_spec wid maxRetries rl : ∀ a w,
  ∃ k : nat,
    (k ≤ rl)%nat
    ∧ (∀ j, (j < k)%nat →
         rate_limited (captureVisibleTab env (ncaptures w + j)) = true)
    ∧ (Background.captureWithRetry_from env wid maxRetries a rl w).2
        = captureVisibleTab env (ncaptures w + k)
    ∧ (rate_limited (captureVisibleTab env (ncaptures w + k)) = true → k = rl)
    ∧ log (Background.captureWithRetry_from env wid maxRetries a rl w).1
        = log w ++ attempts_log wid maxRetries a k
    ∧ ncaptures (Background.captureWithRetry_from env wid maxRetries a rl w).1
        = S (ncaptures w + k)
    ∧ store (Background.captureWithRetry_from env wid maxRetries a rl w).1
        = store w.
Proof.
  induction rl as [|r IH]; intros a w;
    rewrite captureWithRetry_from_unfold; cbv zeta.
  - exists O. rewrite Nat.add_0_r.
    split; [lia|]. split; [intros j Hj; lia|].
    destruct (captureVisibleTab env (ncaptures w)) as [d|m] eqn:Ho; cbn.
    + rewrite app_nil_r. by repeat split.
    + destruct (includes m Background.RATE_LIMIT) eqn:Hm; cbn;
        rewrite app_nil_r; by repeat split.
  - destruct (captureVisibleTab env (ncaptures w)) as [d|m] eqn:Ho.
    + exists O. rewrite Nat.add_0_r, Ho. cbn. rewrite app_nil_r.
      split; [lia|]. split; [intros j Hj; lia|]. by repeat split.
    + destruct (includes m Background.RATE_LIMIT) eqn:Hm.
      * set (w1 := after_attempt w (attempt_events wid maxRetries a)).
        destruct (IH (S a) w1) as (k & Hk & Hall & Hres & Hlast & Hlog & Hn & Hst).
        exists (S k).
        replace (ncaptures w + S k)%nat with (ncaptures w1 + k)%nat
          by (cbn; lia).
        split; [lia|]. split; [|split; [exact Hres|]].
        { intros [|j] Hj.
          - rewrite Nat.add_0_r, Ho. exact Hm.
          - replace (ncaptures w + S j)%nat with (ncaptures w1 + j)%nat
              by (cbn; lia).
            apply Hall. lia. }
        split; [intros H; f_equal; by apply Hlast|].
        split; [|split].
        { rewrite Hlog. cbn. by rewrite <- app_assoc. }
        { rewrite Hn. cbn. lia. }
        { by rewrite Hst. }
      * exists O. rewrite Nat.add_0_r, Ho. cbn. rewrite app_nil_r, Hm.
        split; [lia|]. split; [intros j Hj; lia|]. by repeat split.
Qed.

End RetryFacts.

(** C8. [captureWithRetry] makes attempts until one does not fail with the
    rate-limit message or until [maxRetries] retries are used up: every
    attempt before the last failed with the rate-limit message, the
    outcome of the last attempt is the outcome of the call (so a failure
    that does not signal the rate limit is propagated at once, with no
    further attempt, and a rate-limit failure is surfaced only after
    [maxRetries] retries), and each retry is preceded by a wait that grows
    with the attempt number. *)
Theorem C8_captureWithRetry_retries_rate_limit_only
    (env : Env) (tab : Tab) (maxRetries : nat) (w : World) :
  ∃ k : nat,
    (k ≤ maxRetries)%nat
    ∧ (∀ j, (j < k)%nat →
         rate_limited (captureVisibleTab env (ncaptures w + j)) = true)
    ∧ (Background.captureWithRetry env tab maxRetries w).2
        = captureVisibleTab env (ncaptures w + k)
    ∧ (rate_limited (captureVisibleTab env (ncaptures w + k)) = true →
         k = maxRetries)
    ∧ log (Background.captureWithRetry env tab maxRetries w).1
        = log w ++ attempts_log (windowId tab) maxRetries 0 k
    ∧ ncaptures (Background.captureWithRetry env tab maxRetries w).1
        = S (ncaptures w + k)
    ∧ (∀ i j, (i < j)%nat → backoff_ms i < backoff_ms j).
Proof.
  destruct (captureWithRetry_from_spec env (windowId tab) maxRetries
              maxRetries 0%nat w)
    as (k & Hk & Hall & Hres & Hlast & Hlog & Hn & _).
  exists k. unfold Background.captureWithRetry.
  repeat split; try assumption.
  intros i j Hij. unfold backoff_ms. lia.
Qed.

(** ** The orchestrator: restricted targets *)

(** Symbolic execution of a computation: unfold the primitives of the
    execution model and reduce, leaving maps and stores folded. *)
Create HintDb run discriminated.
#[export] Hint Unfold mbind St_bind mret St_ret throw lift try_catch try_finally
  emit delay now get_store put_store get_pollingActive set_pollingActive
  chrome_tabs_query chrome_tabs_get chrome_insertCSS chrome_executeScript
  chrome_captureVisibleTab tabMessage
  q_updateState q_getState q_dequeue q_clear q_reset q_cancel q_getSettings
  handleCancelCapture : run.

Ltac run :=
  repeat progress
    (autounfold with run;
     cbn -[insert lookup singletonM updateState dequeue clear reset union fmap
           omap set_captureRequest Background.isRestrictedUrl truthy app
           Background.processCapturedImage Background.captureFullPage
           Background.startAreaSelection Background.handleRequest
           Background.analyzeScreenshot Background.split_comma_1
           Background.sanitizeSensitiveData Background.formatResult
           Background.showFloatingProgress status_of
           clients error_update getSettings String.eqb String.append]).

Section RestrictedFacts.
Variable env : Env.
Variable markdownToHtml : string → string.

Lemma status_error_update (t : Z) (message : string) (s : Store) :
  status_of (updateState t (error_update message) s) = Some "error"
  ∧ error_of (updateState t (error_update message) s) = Some (JStr message).
Proof.
  split.
  - apply status_of_updateState. unfold error_update.
    rewrite lookup_insert_ne by done. by rewrite lookup_singleton_eq.
  - unfold error_of.
    destruct (lookup_updateState t (error_update message) s "error")
      as (S' & -> & Hl).
    cbn. rewrite Hl. rewrite decide_False by done.
    unfold error_update. by rewrite lookup_insert_eq.
Qed.

(** The [try] block of [processQueuedRequest] on a request whose URL is
    restricted: it throws before any state is written. *)
Lemma handleRequest_restricted (w : World) (request : obj) :
  Background.isRestrictedUrl (request !! "url") = Ok true →
  ∃ message evs,
    Background.handleRequest env markdownToHtml request w =
      (mkWorld (store w) true (log w ++ evs) (ticks w) (ncaptures w)
               (nscripts w), Throw message)
    ∧ (message = Background.RESTRICTED_MESSAGE
       ∨ message = Background.NO_TAB_MESSAGE
       ∨ tabsQuery env = Throw message)
    ∧ (evs = [] ∨ evs = [EvTabsQuery]).
Proof.
  intros Hurl. destruct w as [st pa lg tk nc ns].
  unfold Background.handleRequest.
  destruct (truthy (request !! "tabId")) eqn:Htab.
  - destruct (request !! "tabId") as [tid|] eqn:Htid; [|discriminate].
    exists Background.RESTRICTED_MESSAGE, [].
    split; [|split; [by left | by left]].
    run. rewrite Htab, Hurl. run. by rewrite app_nil_r.
  - run. rewrite Hurl.
    destruct (tabsQuery env) as [[tab|]|m] eqn:Hq; run;
      cbn [fmap option_fmap option_map].
    + destruct (truthy (Some (tabIdent tab))) eqn:Hid; run.
      * exists Background.RESTRICTED_MESSAGE, [EvTabsQuery].
        split; [reflexivity|]. split; [by left | by right].
      * exists Background.NO_TAB_MESSAGE, [EvTabsQuery].
        split; [reflexivity|]. split; [right; by left | by right].
    + exists Background.NO_TAB_MESSAGE, [EvTabsQuery].
      split; [reflexivity|]. split; [right; by left | by right].
    + exists m, [EvTabsQuery].
      split; [reflexivity|]. split; [right; by right | by right].
Qed.

(** The run of [processQueuedRequest] on a pending request whose URL is
    restricted. *)
Lemma processQueuedRequest_restricted (w : World) (request : obj) :
  pollingActive w = false →
  captureRequest (store w) = Some request →
  request !! "status" = Some (JStr "pending") →
  Background.isRestrictedUrl (request !! "url") = Ok true →
  ∃ message evs,
    Background.processQueuedRequest env markdownToHtml w =
      (mkWorld (clear (updateState (dateNow env (ticks w))
                         (error_update message) (dequeue (store w)).2))
               false (log w ++ evs ++ [EvUpdateState (error_update message)])
               (S (ticks w)) (ncaptures w) (nscripts w),
       Ok ())
    ∧ (message = Background.RESTRICTED_MESSAGE
       ∨ message = Background.NO_TAB_MESSAGE
       ∨ tabsQuery env = Throw message)
    ∧ (evs = [] ∨ evs = [EvTabsQuery]).
Proof.
  intros Hidle Hreq Hpending Hurl.
  destruct w as [st pa lg tk nc ns]. cbn in Hidle, Hreq. subst pa.
  set (request' := <["status" := JStr "processing"]> request).
  assert (Hdq : dequeue st = (Some request',
                              set_captureRequest (Some request') st)).
  { unfold dequeue. rewrite Hreq. by rewrite decide_True. }
  assert (Hurl' : Background.isRestrictedUrl (request' !! "url") = Ok true).
  { unfold request'. by rewrite lookup_insert_ne. }
  unfold Background.processQueuedRequest. run. rewrite Hdq. run.
  destruct (handleRequest_restricted
              (mkWorld (set_captureRequest (Some request') st) false lg tk nc ns)
              request' Hurl') as (message & evs & Hrun & Hmsg & Hevs).
  rewrite Hrun. run.
  exists message, evs. split; [|by split].
  by rewrite <- app_assoc.
Qed.

End RestrictedFacts.

Lemma prefix_append (p rest : string) : String.prefix p (p +:+ rest) = true.
Proof.
  induction p as [|c p IH]; simpl.
  - by destruct rest.
  - destruct (Ascii.ascii_dec c c) as [_|Hne]; [exact IH | by destruct Hne].
Qed.

Lemma includes_append (pre p post : string) :
  includes (pre +:+ p +:+ post) p = true.
Proof.
  induction pre as [|c pre IH].
  - change ("" +:+ p +:+ post) with (p +:+ post).
    destruct (p +:+ post) eqn:Heq; cbn [includes];
      rewrite <- Heq, prefix_append; reflexivity.
  - change (String c pre +:+ p +:+ post) with (String c (pre +:+ p +:+ post)).
    cbn [includes]. rewrite IH. apply orb_true_r.
Qed.





Lemma isRestrictedUrl_pattern (p rest : string) :
  p ∈ Background.restrictedPatterns →
  Background.isRestrictedUrl (Some (JStr (p +:+ rest))) = Ok true.
Proof.
  intros Hp. unfold Background.isRestrictedUrl.
  assert (Hne : truthy (Some (JStr (p +:+ rest))) = true).
  { unfold Background.restrictedPatterns in Hp.
    repeat (apply elem_of_cons in Hp as [->|Hp]; [reflexivity|]).
    by apply elem_of_nil in Hp. }
  rewrite Hne. cbn [negb]. f_equal.
  apply existsb_exists. exists p. split.
  - by apply list_elem_of_In.
  - apply prefix_append.
Qed.

(** C4. When the request taken from the queue targets a restricted URL
    (one that starts with a restricted pattern, or a missing URL), the
    orchestrator ends in status ['error'] with a message, and what it did
    on the way contains no write of ['capturing'], no capture operation
    and no call of the gateway. *)
Theorem C4_restricted_target_goes_to_error
    (env : Env) (markdownToHtml : string → string)
    (w : World) (request : obj) :
  pollingActive w = false →
  captureRequest (store w) = Some request →
  request !! "status" = Some (JStr "pending") →
  Background.isRestrictedUrl (request !! "url") = Ok true →
  let w' := (Background.processQueuedRequest env markdownToHtml w).1 in
  (∀ p rest, p ∈ Background.restrictedPatterns →
     Background.isRestrictedUrl (Some (JStr (p +:+ rest))) = Ok true)
  ∧ Background.isRestrictedUrl None = Ok true
  ∧ ∃ message evs,
      log w' = log w ++ evs
      ∧ Forall (λ ev, writes_status "capturing" ev = false
                      ∧ capture_op ev = false
                      ∧ gateway_call ev = false) evs
      ∧ status_of (store w') = Some "error"
      ∧ error_of (store w') = Some (JStr message)
      ∧ (message = Background.RESTRICTED_MESSAGE
         ∨ message = Background.NO_TAB_MESSAGE
         ∨ tabsQuery env = Throw message)
      ∧ captureRequest (store w') = None
      ∧ pollingActive w' = false.
Proof.
  intros Hidle Hreq Hpending Hurl w'.
  split; [intros p rest; apply isRestrictedUrl_pattern|].
  split; [reflexivity|].
  destruct (processQueuedRequest_restricted env markdownToHtml w request
              Hidle Hreq Hpending Hurl)
    as (message & evs & Hrun & Hmsg & Hevs).
  subst w'. rewrite Hrun. cbn [fst store log pollingActive].
  exists message, (evs ++ [EvUpdateState (error_update message)]).
  split; [reflexivity|]. split; [|split; [|split; [|split; [exact Hmsg|]]]].
  - apply Forall_app. split.
    + destruct Hevs as [-> | ->]; repeat constructor.
    + repeat constructor.
  - apply (status_error_update (dateNow env (ticks w)) message).
  - apply (status_error_update (dateNow env (ticks w)) message).
  - by split.
Qed.

Lemma C4_restricted_target_witness :
  pollingActive (initial_world (pending_store "chrome://settings" "visible"))
    = false
  ∧ status_of
      (store (Background.processQueuedRequest calm_env plain_markup
                (initial_world
                   (pending_store "chrome://settings" "visible"))).1)
    = Some "error".
Proof.
  split; [reflexivity|].
  set (w := initial_world (pending_store "chrome://settings" "visible")).
  destruct (C4_restricted_target_goes_to_error calm_env plain_markup w
              (<["status" := JStr "pending"]>
                 (<["tabId" := JNum 7]>
                    (<["url" := JStr "chrome://settings"]>
                       {["mode" := JStr "visible"]})))
              eq_refl eq_refl eq_refl eq_refl)
    as (_ & _ & message & evs & _ & _ & Hst & _).
  exact Hst.
Defined.

(** ** The analysis pipeline *)

Section PipelineFacts.
Variable env : Env.
Variable markdownToHtml : string → string.

Lemma cancelled_updateState (t : Z) (P : literal) (s : Store) (st : string) :
  P !! "status" = Some (Some (JStr st)) →
  Background.cancelled (getState (updateState t P s))
    = bool_decide (st = "cancelled").
Proof.
  intros HP. unfold getState.
  destruct (lookup_updateState t P s "status") as (S' & -> & Hl).
  cbn. rewrite Hl, decide_False, HP by done.
  apply bool_decide_ext. split; [by intros [= ->] | by intros ->].
Qed.

(** What the other contexts do during a suspension: they leave the
    settings alone, call no gateway, and leave the capture state
    cancelled exactly when their last action is a bare [cancel()]. *)
Lemma clients_spec (ops : list ClientOp) : ∀ w,
  ∃ w', clients env ops w = (w', Ok ())
    ∧ getSettings (store w') = getSettings (store w)
    ∧ (∃ evs, log w' = log w ++ evs ∧ Forall client_event evs)
    ∧ Background.cancelled (getState (store w')) =
        match last ops with
        | Some OpCancel => true
        | Some _ => false
        | None => Background.cancelled (getState (store w))
        end.
Proof.
  induction ops as [|op ops IH]; intros w.
  - exists w. split; [reflexivity|]. split; [reflexivity|].
    split; [exists []; by rewrite app_nil_r|reflexivity].
  - assert (Hop : ∃ w1, client env op w = (w1, Ok ())
              ∧ getSettings (store w1) = getSettings (store w)
              ∧ (∃ evs, log w1 = log w ++ evs ∧ Forall client_event evs)
              ∧ Background.cancelled (getState (store w1)) =
                  match op with OpCancel => true | _ => false end).
    { assert (Hcw : client_event
                      (EvUpdateState {["status" := Some (JStr "cancelled")]})).
      { split; [reflexivity|]. intros st' Hne. cbn [writes_status].
        apply bool_decide_eq_false. rewrite lookup_singleton_eq.
        intros [= <-]. by apply Hne. }
      assert (Hcl : ∀ o, client_event (EvClient o)) by (by intros o; split).
      destruct w as [st pa lg tk nc ns].
      destruct op; unfold client; run; eexists; (split; [reflexivity|]);
        (split; [reflexivity|]); split.
      - eexists. rewrite <- app_assoc. split; [reflexivity|].
        repeat apply Forall_cons_2; auto using Forall_nil_2.
      - apply (cancelled_updateState _ _ _ "cancelled").
        by rewrite lookup_singleton_eq.
      - eexists. split; [reflexivity|].
        repeat apply Forall_cons_2; auto using Forall_nil_2.
      - reflexivity.
      - eexists. rewrite <- app_assoc. split; [reflexivity|].
        repeat apply Forall_cons_2; auto using Forall_nil_2.
      - reflexivity. }
    destruct Hop as (w1 & Hrun1 & Hset1 & (evs1 & Hlog1 & Hoff1) & Hc1).
    destruct (IH w1) as (w' & Hrun & Hset & (evs & Hlog & Hoff) & Hc).
    exists w'. split; [|split; [|split]].
    + change (clients env (op :: ops) w)
        with ((client env op ≫= λ _, clients env ops) w).
      unfold mbind, St_bind. by rewrite Hrun1.
    + by rewrite Hset.
    + exists (evs1 ++ evs). rewrite Hlog, Hlog1, <- app_assoc.
      split; [reflexivity|]. by apply Forall_app.
    + rewrite Hc. destruct ops as [|op' ops']; [cbn; rewrite Hc1; by destruct op|].
      change (last (op :: op' :: ops')) with (last (op' :: ops')).
      destruct (last (op' :: ops')) as [o|] eqn:Hl; [reflexivity|].
      by apply last_None in Hl.
Qed.

Lemma showFloatingProgress_spec (w : World) :
  ∃ evs ns',
    Background.showFloatingProgress env w =
      (mkWorld (store w) (pollingActive w) (log w ++ evs) (ticks w)
               (ncaptures w) ns', Ok ())
    ∧ Forall silent evs.
Proof.
  destruct w as [st pa lg tk nc ns].
  unfold Background.showFloatingProgress. run.
  destruct (executeScript env ns (ScFile "progress-indicator.js")); run.
  - eexists _, _. rewrite <- !app_assoc. split; [reflexivity|].
    repeat constructor.
  - eexists _, _. split; [reflexivity|]. repeat constructor.
Qed.

End PipelineFacts.

Lemma client_not_analyzeText (evs : list Event) :
  Forall client_event evs → Forall (λ ev, is_analyzeText ev = false) evs.
Proof.
  intros H. eapply Forall_impl; [exact H|].
  intros ev [Hg _]. by destruct ev.
Qed.

Lemma silent_not_analyzeText (evs : list Event) :
  Forall silent evs → Forall (λ ev, is_analyzeText ev = false) evs.
Proof.
  intros H. eapply Forall_impl; [exact H|].
  intros ev [Hg _]. by destruct ev.
Qed.

Lemma client_no_write (st : string) (evs : list Event) :
  st ≠ "cancelled" →
  Forall client_event evs → Forall (λ ev, writes_status st ev = false) evs.
Proof.
  intros Hst H. eapply Forall_impl; [exact H|].
  intros ev [_ Hw]. by apply Hw.
Qed.

Lemma silent_no_write (st : string) (evs : list Event) :
  Forall silent evs → Forall (λ ev, writes_status st ev = false) evs.
Proof.
  intros H. eapply Forall_impl; [exact H|]. intros ev [_ Hw]. apply Hw.
Qed.

Lemma cancelled_status (s : Store) :
  Background.cancelled (getState s) = bool_decide (status_of s = Some "cancelled").
Proof.
  unfold Background.cancelled, getState, status_of.
  destruct (currentCapture s) as [o|]; [|reflexivity].
  apply bool_decide_ext.
  destruct (o !! "status") as [[]|]; split; intros [=]; by subst.
Qed.

Lemma ends_cancelled_app (dv dt : list ClientOp) :
  ends_cancelled (dv ++ dt) =
    match last dt with
    | Some OpCancel => true
    | Some _ => false
    | None => ends_cancelled dv
    end.
Proof.
  unfold ends_cancelled. rewrite last_app.
  by destruct (last dt) as [[]|].
Qed.

Section PipelineRuns.
Variable env : Env.
Variable markdownToHtml : string → string.
Variable w : World.
Variable d b64 : string.
Hypothesis Hd : Background.split_comma_1 d = Some b64.
Hypothesis Hb : b64 ≠ "".
Hypothesis Hvp : truthy (getSettings (store w) !!! "visionApiProvider") = true.
Hypothesis Htp : truthy (getSettings (store w) !!! "textApiProvider") = true.

Ltac step_show :=
  match goal with
  | |- context [Background.showFloatingProgress ?e ?w0] =>
      let evs := fresh "evs" in
      let ns := fresh "ns" in
      let H := fresh "Hshow" in
      let Hs := fresh "Hsil" in
      destruct (showFloatingProgress_spec e w0) as (evs & ns & H & Hs);
      cbn [store pollingActive log ticks ncaptures nscripts] in H;
      rewrite H; clear H
  end.

Ltac step_clients :=
  match goal with
  | |- context [clients ?e ?ops ?w0] =>
      let w1 := fresh "w" in
      let evs := fresh "evs" in
      let H := fresh "Hrun" in
      let Hset := fresh "Hset" in
      let Hlog := fresh "Hlog" in
      let Hoff := fresh "Hoff" in
      let Hc := fresh "Hc" in
      destruct (clients_spec e ops w0)
        as (w1 & H & Hset & (evs & Hlog & Hoff) & Hc);
      cbn [store pollingActive log ticks ncaptures nscripts] in Hset, Hlog, Hc;
      rewrite H; clear H
  end.

Ltac enter_pipeline :=
  unfold Background.processCapturedImage; run; step_show; run;
  rewrite Hd; destruct b64 as [|c b] eqn:Hb64; [done|]; rewrite <- Hb64 in *;
  unfold Background.analyzeScreenshot; run;
  change (getSettings (updateState _ _ (store w))) with (getSettings (store w));
  rewrite Hvp, Htp; run; step_clients; run.

Ltac forall_events :=
  repeat match goal with
         | |- Forall _ (_ ++ _) => apply Forall_app; split
         | |- Forall _ (_ :: _) => constructor
         | |- Forall _ [] => constructor
         end;
  try reflexivity.

Ltac close_log :=
  repeat match goal with H : log _ = _ |- _ => rewrite H; clear H end;
  rewrite <- ?app_assoc; reflexivity.

Lemma checkpoint1 (w1 : World) (t : Z) :
  Background.cancelled (getState (store w1)) =
    match last (duringVision env) with
    | Some OpCancel => true
    | None =>
        Background.cancelled
          (getState (updateState t {["status" := Some (JStr "analyzing")]}
                       (store w)))
    | _ => false
    end →
  Background.cancelled (getState (store w1)) = ends_cancelled (duringVision env).
Proof.
  intros ->. unfold ends_cancelled.
  destruct (last (duringVision env)) as [[]|]; try reflexivity.
  rewrite (cancelled_updateState _ _ _ "analyzing")
    by (by rewrite lookup_singleton_eq).
  reflexivity.
Qed.


(** X2. A cancel observed at the checkpoint before text analysis: no
    text-analysis call follows, and the capture is recorded as ['error']
    with the message ['Capture cancelled']. *)
Lemma cancel_at_checkpoint1_run (v : string) :
  describeImage env b64 (getSettings (store w)) = Ok v →
  ends_cancelled (duringVision env) = true →
  ∃ w' pre post,
    Background.processCapturedImage env markdownToHtml (Some d) w = (w', Ok ())
    ∧ log w' = log w ++ pre ++ [EvGetState (Some "cancelled")] ++ post
    ∧ Forall (λ ev, is_analyzeText ev = false) pre
    ∧ Forall offline post
    ∧ status_of (store w') = Some "error"
    ∧ error_of (store w') = Some (JStr "Capture cancelled").
Proof.
  intros Hv Hcancel. enter_pipeline. rewrite Hv. run.
  apply checkpoint1 in Hc. rewrite Hcancel in Hc. rewrite Hc. run.
  rewrite cancelled_status in Hc. apply bool_decide_eq_true in Hc. rewrite Hc.
  rewrite <- !app_assoc in Hlog.
  match type of Hlog with
  | log _ = log w ++ ?A =>
      eexists _, A,
        [EvUpdateState (error_update "Capture cancelled");
         EvTabMessage "hideProgress"]
  end.
  split; [reflexivity|]. cbn [log store].
  split; [close_log|]. split; [|split].
  - forall_events;
      auto using client_not_analyzeText, silent_not_analyzeText.
  - repeat constructor.
  - apply status_error_update.
Qed.

Lemma checkpoint2 (w1 w2 : World) :
  Background.cancelled (getState (store w1))
    = ends_cancelled (duringVision env) →
  Background.cancelled (getState (store w2)) =
    match last (duringText env) with
    | Some OpCancel => true
    | None => Background.cancelled (getState (store w1))
    | _ => false
    end →
  Background.cancelled (getState (store w2))
    = ends_cancelled (duringVision env ++ duringText env).
Proof.
  intros H1 ->. rewrite ends_cancelled_app, H1.
  by destruct (last (duringText env)) as [[]|].
Qed.


(** X3. A cancel observed at the checkpoint before ['complete']: nothing
    but the hiding of the progress indicator follows, ['complete'] is
    never written and the status stays ['cancelled']. *)
Lemma cancel_at_checkpoint2_run (v : string) :
  describeImage env b64 (getSettings (store w)) = Ok v →
  ends_cancelled (duringVision env) = false →
  ends_cancelled (duringVision env ++ duringText env) = true →
  ∃ w' pre,
    Background.processCapturedImage env markdownToHtml (Some d) w = (w', Ok ())
    ∧ log w' = log w ++ pre ++ [EvGetState (Some "cancelled");
                                EvTabMessage "hideProgress"]
    ∧ Forall (λ ev, writes_status "complete" ev = false) pre
    ∧ status_of (store w') = Some "cancelled".
Proof.
  intros Hv Hcp1 Hcp2. enter_pipeline. rewrite Hv. run.
  apply checkpoint1 in Hc. rewrite Hc, Hcp1. run.
  step_clients.
  apply (checkpoint2 _ _ Hc) in Hc0. rewrite Hcp2 in Hc0.
  assert (Hst : status_of (store w1) = Some "cancelled").
  { rewrite cancelled_status in Hc0. by apply bool_decide_eq_true in Hc0. }
  rewrite Hlog in Hlog0. rewrite <- !app_assoc in Hlog0.
  destruct (analyzeText env _ _); run; rewrite Hc0; run; rewrite Hst;
    match type of Hlog0 with
    | log _ = log w ++ ?A => eexists _, A
    end;
    (split; [reflexivity|]); cbn [log store];
    (split; [rewrite Hlog0, <- !app_assoc; reflexivity|]);
    (split; [|exact Hst]);
    forall_events;
    auto using client_no_write, silent_no_write.
Qed.

(** X5. The run in which both gateway calls succeed and no cancellation
    is observed: the text model is called once, with the redacted
    description, and the capture ends ['complete'] with the markup of
    both redacted texts. *)
Lemma analysis_success_run (v a : string) :
  describeImage env b64 (getSettings (store w)) = Ok v →
  analyzeText env (Background.sanitizeSensitiveData v)
    (getSettings (store w)) = Ok a →
  ends_cancelled (duringVision env) = false →
  ends_cancelled (duringVision env ++ duringText env) = false →
  ∃ w' pre post,
    Background.processCapturedImage env markdownToHtml (Some d) w = (w', Ok ())
    ∧ log w' = log w ++ pre
               ++ [EvAnalyzeText (Background.sanitizeSensitiveData v)] ++ post
    ∧ Forall (λ ev, is_analyzeText ev = false) pre
    ∧ Forall (λ ev, is_analyzeText ev = false) post
    ∧ status_of (store w') = Some "complete"
    ∧ result_of (store w') =
        Some (JStr (Background.formatResult markdownToHtml
                      (Background.sanitizeSensitiveData v)
                      (Background.sanitizeSensitiveData a))).
Proof.
  intros Hv Ht Hcp1 Hcp2. enter_pipeline. rewrite Hv. run.
  apply checkpoint1 in Hc. rewrite Hc, Hcp1. run.
  step_clients. rewrite Ht. run.
  apply (checkpoint2 _ _ Hc) in Hc0. rewrite Hc0, Hcp2. run.
  rewrite <- !app_assoc in Hlog.
  match type of Hlog with
  | log _ = log w ++ ?A =>
      eexists _, (A ++ [EvGetState (status_of (store w0));
                        EvTabMessage "updateProgress"]),
        (evs1 ++ [EvGetState (status_of (store w1));
                  EvUpdateState
                    (<["result" :=
                         Some (JStr (Background.formatResult markdownToHtml
                                       (Background.sanitizeSensitiveData v)
                                       (Background.sanitizeSensitiveData a)))]>
                       {["status" := Some (JStr "complete")]});
                  EvTabMessage "hideProgress"; EvTabMessage "showResult"])
  end.
  split; [reflexivity|]. cbn [log store].
  split; [rewrite Hlog0, Hlog, <- !app_assoc; reflexivity|].
  split; [|split; [|split]].
  - forall_events;
      auto using client_not_analyzeText, silent_not_analyzeText.
  - forall_events; auto using client_not_analyzeText.
  - apply status_of_updateState. rewrite lookup_insert_ne by done.
    by rewrite lookup_singleton_eq.
  - unfold result_of.
    match goal with
    | |- context [updateState ?t ?P ?s] =>
        destruct (lookup_updateState t P s "result") as (S' & -> & Hl)
    end.
    cbn. rewrite Hl, decide_False by done. by rewrite lookup_insert_eq.
Qed.

End PipelineRuns.




(** ** Cancellation checkpoints *)

(** C6, on a run in which [cancel()] is called while the vision call is in
    flight: the checkpoint before text analysis observes ['cancelled'] and
    the text-analysis step is never called, but the capture is recorded
    as ['error'] with the message ['Capture cancelled']. *)
Lemma C6_cancel_before_text_analysis_ends_in_error :
  let env := scenario (Ok "hello") (Ok "analysis") [OpCancel] [] in
  let w' := (Background.processCapturedImage env plain_markup
               (Some example_dataUrl) (initial_world capturing_store)).1 in
  existsb observes_cancel (log w') = true
  ∧ existsb is_analyzeText (log w') = false
  ∧ status_of (store w') = Some "error"
  ∧ error_of (store w') = Some (JStr "Capture cancelled").
Proof. vm_compute. by repeat split. Qed.

(** The sibling checkpoint, before ['complete'] is written, leaves the
    ['cancelled'] status in place. *)
Lemma cancel_before_complete_stays_cancelled :
  let env := scenario (Ok "hello") (Ok "analysis") [] [OpCancel] in
  let w' := (Background.processCapturedImage env plain_markup
               (Some example_dataUrl) (initial_world capturing_store)).1 in
  existsb observes_cancel (log w') = true
  ∧ existsb (writes_status "complete") (log w') = false
  ∧ status_of (store w') = Some "cancelled".
Proof. vm_compute. by repeat split. Qed.

(** ** Result and error in terminal states *)

(** C3, on two captures in a row with no consumer left to reset the store
    in between: the first ends ['complete'] with a result and no error;
    the second is refused before ['capturing'] is written, and its
    ['error'] state still carries the result of the first, so that both
    fields are present. *)
Lemma C3_error_state_keeps_stale_result :
  status_of (store after_first_capture) = Some "complete"
  ∧ present (state_of after_first_capture) "result" = true
  ∧ present (state_of after_first_capture) "error" = false
  ∧ status_of (store after_second_capture) = Some "error"
  ∧ present (state_of after_second_capture) "result" = true
  ∧ present (state_of after_second_capture) "error" = true.
Proof. vm_compute. by repeat split. Qed.

(** ** Scroll offsets of a full-page capture *)

Section PopupShots.
Variable env : Env.
Variable tab : Tab.
Variables scrollHeight viewportHeight : Z.

Lemma popup_shot_spec (i : Z) (w : World) :
  ∃ evs,
    log (Popup.fullPage_shot env tab scrollHeight viewportHeight i w).1
      = log w ++ evs
    ∧ Forall (scroll_within (scrollHeight - viewportHeight)) evs
    ∧ ∀ c, (Popup.fullPage_shot env tab scrollHeight viewportHeight i w).2
             = Ok c →
           c.2 ≤ scrollHeight - viewportHeight.
Proof.
  destruct w as [st pa lg tk nc ns].
  assert (Hmin : Z.min (i * viewportHeight) (scrollHeight - viewportHeight)
                 ≤ scrollHeight - viewportHeight) by apply Z.le_min_r.
  unfold Popup.fullPage_shot. run.
  destruct (executeScript env ns _); run.
  - destruct (executeScript env (S ns) _); run.
    + destruct (captureVisibleTab env nc); run;
        (eexists; rewrite <- !app_assoc; split; [reflexivity|]; split;
         [repeat constructor; exact Hmin | intros c [=]; by subst]).
    + eexists. rewrite <- !app_assoc. split; [reflexivity|]. split;
        [repeat constructor; exact Hmin | intros c [=]].
  - eexists. split; [reflexivity|]. split;
      [repeat constructor; exact Hmin | intros c [=]].
Qed.

Lemma popup_loop_spec (indices : list Z) : ∀ w,
  ∃ evs,
    log (Background.capture_loop
           (Popup.fullPage_shot env tab scrollHeight viewportHeight)
           indices w).1 = log w ++ evs
    ∧ Forall (scroll_within (scrollHeight - viewportHeight)) evs
    ∧ ∀ cs, (Background.capture_loop
               (Popup.fullPage_shot env tab scrollHeight viewportHeight)
               indices w).2 = Ok cs →
            Forall (λ c : string * Z, c.2 ≤ scrollHeight - viewportHeight) cs.
Proof.
  induction indices as [|i rest IH]; intros w.
  - exists []. rewrite app_nil_r. split; [reflexivity|].
    split; [constructor|]. intros cs [= <-]. constructor.
  - destruct (popup_shot_spec i w) as (evs1 & Hlog1 & Hev1 & Hc1).
    cbn [Background.capture_loop]. unfold mbind, St_bind.
    destruct (Popup.fullPage_shot env tab scrollHeight viewportHeight i w)
      as [w1 [c|m]].
    + destruct (IH w1) as (evs2 & Hlog2 & Hev2 & Hc2).
      destruct (Background.capture_loop _ rest w1) as [w2 [cs|m]];
        simpl in *.
      * exists (evs1 ++ evs2). rewrite Hlog2, Hlog1, <- app_assoc.
        split; [reflexivity|]. split; [by apply Forall_app|].
        intros cs' [= <-]. constructor; [by apply Hc1 | by apply Hc2].
      * exists (evs1 ++ evs2). rewrite Hlog2, Hlog1, <- app_assoc.
        split; [reflexivity|]. split; [by apply Forall_app|]. intros cs' [=].
    + simpl in *. exists evs1. split; [exact Hlog1|].
      split; [exact Hev1|]. intros cs [=].
Qed.

End PopupShots.

(** X1. The popup's full-page capture clamps every shot: no shot scrolls past
    [scrollHeight - viewportHeight], whatever the page and whatever fails
    on the way. *)
Theorem popup_captureFullPage_clamps_every_shot
    (env : Env) (tab : Tab) (scrollHeight viewportHeight : Z) (w : World) :
  ∃ evs,
    log (Popup.fullPage_captures env tab scrollHeight viewportHeight w).1
      = log w ++ evs
    ∧ Forall (scroll_within (scrollHeight - viewportHeight)) evs
    ∧ ∀ cs, (Popup.fullPage_captures env tab scrollHeight viewportHeight w).2
              = Ok cs →
            Forall (λ c : string * Z, c.2 ≤ scrollHeight - viewportHeight) cs.
Proof. apply popup_loop_spec. Qed.

(** C7, as stated, fails for the worker: on a page 1500 pixels high seen
    through a viewport of 1000, the worker's [captureFullPage] computes
    1000 as the offset of its second shot and hands it to
    [window.scrollTo] unclamped, although
    [totalHeight - viewportHeight = 500]; the popup's [captureFullPage]
    computes 500 for the same shot. *)
Lemma C7_worker_offset_is_not_clamped_counterexample :
  shot_offsets
    (log (Background.captureFullPage (page_env 1500 1000) example_tab
            (initial_world empty_store)).1) = [0; 1000]
  ∧ 1500 - 1000 < 1000
  ∧ shot_offsets
      (log (Popup.captureFullPage (page_env 1500 1000)
              (initial_world empty_store)).1) = [0; 500].
Proof. vm_compute. by repeat split. Qed.

(** ** The gateway and missing credentials *)

Section GatewayFacts.
Variable fetch_answer : nat → string → Result AIService.Response.

Ltac decide_providers :=
  repeat match goal with
         | |- context [AIService.is_provider (Some (JStr ?a)) ?b] =>
             let v := eval vm_compute in
                        (AIService.is_provider (Some (JStr a)) b) in
             change (AIService.is_provider (Some (JStr a)) b) with v
         end.

Lemma validateRequiredKey_missing (settings : literal) (provider : value)
    (p key msg : string) :
  (p, key, msg) ∈ credentialed →
  provider = Some (JStr p) →
  truthy (settings !!! key) = false →
  AIService.validateRequiredKey provider settings = Throw msg.
Proof.
  intros Hin -> Hkey. unfold credentialed in Hin.
  repeat (apply elem_of_cons in Hin as [[= -> -> ->]|Hin]);
    [..|by apply elem_of_nil in Hin];
    unfold AIService.validateRequiredKey; decide_providers;
    cbn [andb negb]; rewrite ?Hkey; reflexivity.
Qed.

Lemma getModels_without_key (now : Z) (p : string) (apiKey : value)
    (n : AIService.Net) :
  truthy apiKey = false →
  (∃ key msg, (p, key, msg) ∈ credentialed) →
  AIService.requests (AIService.getModels fetch_answer now p apiKey n).1
    = AIService.requests n
  ∧ (p ≠ "google-vision" →
     AIService.cache_hit (AIService.cache n) (p +:+ "-" +:+ "no-key") now
       = None →
     AIService.getModels fetch_answer now p apiKey n
       = (n, Throw "API Key is required for this provider")).
Proof.
  intros Hkey (key & msg & Hin).
  assert (Hk : AIService.tpl (Some (or_else apiKey (JStr "no-key"))) = "no-key").
  { destruct apiKey as [j|]; [|reflexivity]. cbn [or_else]. by rewrite Hkey. }
  unfold AIService.getModels. rewrite Hk, Hkey.
  unfold mbind, St_bind, AIService.get_cache.
  destruct (AIService.cache_hit (AIService.cache n) (p +:+ "-" +:+ "no-key") now)
    as [cached|] eqn:Hhit.
  - split; [reflexivity|]. by intros _ [=].
  - unfold credentialed in Hin.
    repeat (apply elem_of_cons in Hin as [[= -> -> ->]|Hin]);
      [..|by apply elem_of_nil in Hin];
      (split; [reflexivity | intros Hne _; try reflexivity; by destruct Hne]).
Qed.

End GatewayFacts.

(** C9. For each of the five providers that need a credential, when the
    credential is absent from the settings, [describeImage],
    [analyzeText] and [askFollowUp] throw the provider's missing-key
    error and issue no request. [getModels] called without a key issues
    no request either; for every such provider but Google Vision, it
    throws ['API Key is required for this provider'] unless a fresh
    listing is cached under the key. *)
Theorem C9_missing_credential_fails_before_any_request
    (fetch_answer : nat → string → Result AIService.Response)
    (latency : nat → string → Z)
    (settings : literal) (n : AIService.Net) (p key msg : string) :
  (p, key, msg) ∈ credentialed →
  truthy (settings !!! key) = false →
  (settings !!! "visionApiProvider" = Some (JStr p) →
     ∀ image, AIService.describeImage fetch_answer latency image settings n
              = (n, Throw msg))
  ∧ (settings !!! "textApiProvider" = Some (JStr p) →
       (∀ text, AIService.analyzeText fetch_answer latency text settings n
                = (n, Throw msg))
       ∧ (∀ question history,
            AIService.askFollowUp fetch_answer latency question history settings n
            = (n, Throw msg)))
  ∧ (∀ now apiKey, truthy apiKey = false →
       AIService.requests (AIService.getModels fetch_answer now p apiKey n).1
         = AIService.requests n
       ∧ (p ≠ "google-vision" →
          AIService.cache_hit (AIService.cache n) (p +:+ "-" +:+ "no-key") now
            = None →
          AIService.getModels fetch_answer now p apiKey n
            = (n, Throw "API Key is required for this provider"))).
Proof.
  intros Hin Hkey. split; [|split].
  - intros Hp image. unfold AIService.describeImage.
    unfold mbind, St_bind, lift.
    by rewrite (validateRequiredKey_missing settings _ p key msg Hin Hp Hkey).
  - intros Hp. split; [intros text | intros question history];
      unfold AIService.analyzeText, AIService.askFollowUp;
      unfold mbind, St_bind, lift;
      by rewrite (validateRequiredKey_missing settings _ p key msg Hin Hp Hkey).
  - intros now apiKey Hk. apply getModels_without_key; eauto.
Qed.

Lemma C9_missing_credential_witness :
  ("openai", "openaiApiKey", "OpenAI API Key is required") ∈ credentialed
  ∧ AIService.describeImage no_network instant "AAAA"
      {["visionApiProvider" := Some (JStr "openai")]} AIService.initial_net
    = (AIService.initial_net, Throw "OpenAI API Key is required").
Proof.
  assert (Hin : ("openai", "openaiApiKey", "OpenAI API Key is required")
                ∈ credentialed) by (apply list_elem_of_here).
  assert (Hkey : truthy (({["visionApiProvider" := Some (JStr "openai")]}
                            : literal) !!! "openaiApiKey") = false)
    by reflexivity.
  split; [exact Hin|].
  apply (C9_missing_credential_fails_before_any_request no_network instant
           {["visionApiProvider" := Some (JStr "openai")]}
           AIService.initial_net "openai" "openaiApiKey"
           "OpenAI API Key is required" Hin Hkey).
  reflexivity.
Defined.

(** C9, as stated, fails for [getModels]: listing the models of Google
    Vision without a key returns an empty list instead of throwing, and a
    listing cached under the key ['no-key'] is returned to a later call
    that has no key at all. *)
Lemma C9_getModels_without_key_counterexample :
  (AIService.getModels no_network 0 "google-vision" None
     AIService.initial_net).2 = Ok []
  ∧ (AIService.getModels local_network 1 "ollama-cloud" None
       (AIService.getModels local_network 0 "ollama-cloud"
          (Some (JStr "no-key")) AIService.initial_net).1).2
    = Ok [("llava", "llava")].
Proof. vm_compute. by split. Qed.

(** ** The model on small inputs *)

Example sanitize_redacts_ssn :
  Background.sanitizeSensitiveData "SSN 123-45-6789."
  = "SSN [REDACTED_SSN].".
Proof. reflexivity. Qed.

Example sanitize_needs_word_boundaries :
  Background.sanitizeSensitiveData "1123-45-6789 123-45-67890 a123-45-6789"
  = "1123-45-6789 123-45-67890 a123-45-6789".
Proof. reflexivity. Qed.

Example split_dataUrl :
  Background.split_comma_1 example_dataUrl = Some "AAAA"
  ∧ Background.split_comma_1 "no comma" = None.
Proof. by split. Qed.

Example numCaptures_rounds_up :
  Background.ceil_div 1500 1000 = 2 ∧ Background.ceil_div 2000 1000 = 2.
Proof. by split. Qed.

Example settings_page_is_restricted :
  Background.isRestrictedUrl (Some (JStr "chrome://settings")) = Ok true
  ∧ Background.isRestrictedUrl (Some (JStr "https://example.org/")) = Ok false.
Proof. by split. Qed.

Example visible_capture_steps :
  omap (λ ev, match ev with
              | EvUpdateState l => default None (l !! "status")
              | _ => None
              end)
       (log after_first_capture)
  = [JStr "capturing"; JStr "analyzing"; JStr "complete"].
Proof. vm_compute. reflexivity. Qed.

(** ** Cancellation observed at a checkpoint, in general *)

Lemma cancel_at_checkpoint1_witness :
  ends_cancelled [OpCancel] = true
  ∧ ∃ w' pre post,
      Background.processCapturedImage
        (scenario (Ok "hello") (Ok "analysis") [OpCancel] [])
        plain_markup (Some example_dataUrl) (initial_world capturing_store)
        = (w', Ok ())
      ∧ log w' = log (initial_world capturing_store) ++ pre
                 ++ [EvGetState (Some "cancelled")] ++ post
      ∧ Forall (λ ev, is_analyzeText ev = false) pre
      ∧ Forall offline post
      ∧ status_of (store w') = Some "error"
      ∧ error_of (store w') = Some (JStr "Capture cancelled").
Proof.
  split; [reflexivity|].
  apply (cancel_at_checkpoint1_run
           (scenario (Ok "hello") (Ok "analysis") [OpCancel] [])
           plain_markup (initial_world capturing_store) example_dataUrl "AAAA"
           eq_refl ltac:(discriminate) eq_refl eq_refl "hello" eq_refl eq_refl).
Defined.

Lemma cancel_at_checkpoint2_witness :
  ends_cancelled ([] ++ [OpCancel]) = true
  ∧ ∃ w' pre,
      Background.processCapturedImage
        (scenario (Ok "hello") (Ok "analysis") [] [OpCancel])
        plain_markup (Some example_dataUrl) (initial_world capturing_store)
        = (w', Ok ())
      ∧ log w' = log (initial_world capturing_store) ++ pre
                 ++ [EvGetState (Some "cancelled");
                     EvTabMessage "hideProgress"]
      ∧ Forall (λ ev, writes_status "complete" ev = false) pre
      ∧ status_of (store w') = Some "cancelled".
Proof.
  split; [reflexivity|].
  apply (cancel_at_checkpoint2_run
           (scenario (Ok "hello") (Ok "analysis") [] [OpCancel])
           plain_markup (initial_world capturing_store) example_dataUrl "AAAA"
           eq_refl ltac:(discriminate) eq_refl eq_refl "hello" eq_refl eq_refl
           eq_refl).
Defined.

(** ** A refused capture over a leftover state, in general *)

Lemma present_updateState_other (t : Z) (P : literal) (s : Store) (old : obj)
    (k : string) :
  currentCapture s = Some old →
  k ≠ "updatedAt" →
  P !! k = None →
  present (default ∅ (currentCapture (updateState t P s))) k = present old k.
Proof.
  intros Hold Hk HP. unfold present.
  destruct (lookup_updateState t P s k) as (S' & -> & Hl).
  change (default ∅ (Some S')) with S'.
  rewrite Hl, decide_False, HP, Hold by done. reflexivity.
Qed.

(** X4. Whenever a request for a restricted target is processed while the
    store still holds a capture state with a result, the run ends in
    status ['error'] with both the error and that result present. *)
Theorem restricted_error_keeps_previous_result
    (env : Env) (markdownToHtml : string → string)
    (w : World) (request old : obj) :
  pollingActive w = false →
  captureRequest (store w) = Some request →
  request !! "status" = Some (JStr "pending") →
  Background.isRestrictedUrl (request !! "url") = Ok true →
  currentCapture (store w) = Some old →
  present old "result" = true →
  let w' := (Background.processQueuedRequest env markdownToHtml w).1 in
  status_of (store w') = Some "error"
  ∧ present (state_of w') "result" = true
  ∧ present (state_of w') "error" = true.
Proof.
  intros Hidle Hreq Hpending Hurl Hold Hres w'.
  destruct (processQueuedRequest_restricted env markdownToHtml w request
              Hidle Hreq Hpending Hurl)
    as (message & evs & Hrun & _ & _).
  subst w'. rewrite Hrun. cbn [fst store].
  assert (Hdq : currentCapture (dequeue (store w)).2 = Some old).
  { unfold dequeue. rewrite Hreq. by rewrite decide_True. }
  split; [|split].
  - apply (status_error_update (dateNow env (ticks w)) message).
  - unfold state_of. cbn [store].
    change (currentCapture (clear ?s)) with (currentCapture s).
    rewrite (present_updateState_other _ _ _ old "result" Hdq); [exact Hres|done|].
    unfold error_update. rewrite lookup_insert_ne by done.
    by rewrite lookup_singleton_ne.
  - unfold state_of, present. cbn [store].
    change (currentCapture (clear ?s)) with (currentCapture s).
    destruct (status_error_update (dateNow env (ticks w)) message
                (dequeue (store w)).2) as [_ Herr].
    unfold error_of in Herr.
    destruct (currentCapture (updateState _ _ _)) as [o|]; [|discriminate].
    cbn in Herr. change (default ∅ (Some o)) with o. by rewrite Herr.
Qed.

Lemma restricted_error_keeps_previous_result_witness :
  pollingActive before_second_capture = false
  ∧ present (state_of after_first_capture) "result" = true
  ∧ present (state_of after_second_capture) "error" = true.
Proof.
  set (request := default ∅ (captureRequest (store before_second_capture))).
  assert (Hidle : pollingActive before_second_capture = false)
    by (vm_compute; reflexivity).
  assert (Hreq : captureRequest (store before_second_capture) = Some request)
    by (vm_compute; reflexivity).
  assert (Hpending : request !! "status" = Some (JStr "pending"))
    by (vm_compute; reflexivity).
  assert (Hurl : Background.isRestrictedUrl (request !! "url") = Ok true)
    by (vm_compute; reflexivity).
  assert (Hold : currentCapture (store before_second_capture)
                 = Some (state_of after_first_capture))
    by (vm_compute; reflexivity).
  assert (Hres : present (state_of after_first_capture) "result" = true)
    by (vm_compute; reflexivity).
  split; [exact Hidle|]. split; [exact Hres|].
  apply (restricted_error_keeps_previous_result calm_env plain_markup
           before_second_capture request (state_of after_first_capture)
           Hidle Hreq Hpending Hurl Hold Hres).
Defined.

(** ** The capture queue, further *)

Lemma lookup_getSettings_key (s : Store) (k : string) :
  k ∈ ["ollamaApiKey"; "googleApiKey"; "openaiApiKey"; "anthropicApiKey";
       "geminiApiKey"] →
  getSettings s !! k = Some (Some (or_else (apiKeys s !! k) (JStr ""))).
Proof.
  intros Hk. unfold getSettings.
  repeat (apply elem_of_cons in Hk as [->|Hk];
          [repeat (rewrite lookup_insert_ne by done); by rewrite lookup_insert_eq |]).
  by apply elem_of_nil in Hk.
Qed.

(** X12. Two successive [updateState] calls leave the store as
    one call with the two partial states merged, the later one winning,
    would. *)
Theorem updateState_twice_is_one_merge (t1 t2 : Z) (P Q : literal) (s : Store) :
  updateState t2 Q (updateState t1 P s) = updateState t2 (spread P Q) s.
Proof.
  unfold updateState at 1 3.
  change (set_currentCapture ?c (updateState t1 P s))
    with (set_currentCapture c s).
  f_equal. f_equal. apply map_eq. intros k.
  rewrite !lookup_serialize.
  destruct (decide (k = "updatedAt")) as [->|Hk].
  - by rewrite !lookup_insert_eq.
  - rewrite !lookup_insert_ne by done.
    rewrite !lookup_spread, !lookup_fields.
    destruct (Q !! k) as [v|] eqn:HQ; [reflexivity|].
    destruct (lookup_updateState t1 P s k) as (S' & HS' & Hl).
    rewrite HS'. change (default ∅ (Some S')) with S'.
    rewrite Hl, decide_False by done.
    destruct (P !! k) as [[j|]|]; reflexivity.
Qed.

Lemma lookup_getSettings_other (s : Store) (k : string) :
  k ∉ ["ollamaApiKey"; "googleApiKey"; "openaiApiKey"; "anthropicApiKey";
       "geminiApiKey"] →
  getSettings s !! k = Some <$> (default ∅ (screengrabSettings s) !! k).
Proof.
  intros Hk. unfold getSettings.
  rewrite !lookup_insert_ne; [apply lookup_fields|..];
    intros <-; apply Hk; set_solver.
Qed.

(** X11. The queue has one slot: a second [enqueue] leaves the
    store as if the first had never happened, and does not touch the
    capture state. The request that [dequeue] then returns carries the
    identifier and the timestamp of the second [enqueue] and, for every
    other field but [status], what the caller passed. *)
Theorem enqueue_is_single_slot_and_keeps_fields
    (n1 n2 n3 n4 : Z) (rnd1 rnd2 : string) (r1 r2 : literal) (s : Store) :
  let s1 := (enqueue n1 n2 rnd1 r1 s).2 in
  let s2 := (enqueue n3 n4 rnd2 r2 s1).2 in
  s2 = (enqueue n3 n4 rnd2 r2 s).2
  ∧ currentCapture s2 = currentCapture s
  ∧ ∃ r, (dequeue s2).1 = Some r
       ∧ r !! "id" = Some (JStr (enqueue n3 n4 rnd2 r2 s1).1)
       ∧ r !! "timestamp" = Some (JNum n4)
       ∧ ∀ k, k ∉ ["id"; "timestamp"; "status"] → r !! k = r2 !! k ≫= id.
Proof.
  intros s1 s2. split; [reflexivity|]. split; [reflexivity|].
  set (e := serialize
              (<["status" := Some (JStr "pending")]>
                 (<["timestamp" := Some (JNum n4)]>
                    (<["id" := Some (JStr (enqueue n3 n4 rnd2 r2 s1).1)]> r2)))).
  assert (He : e !! "status" = Some (JStr "pending")).
  { unfold e. rewrite lookup_serialize. by rewrite lookup_insert_eq. }
  exists (<["status" := JStr "processing"]> e).
  split; [|split; [|split]].
  - assert (Hs2 : captureRequest s2 = Some e) by reflexivity.
    unfold dequeue. rewrite Hs2. by rewrite decide_True.
  - rewrite lookup_insert_ne by done. unfold e. rewrite lookup_serialize.
    rewrite lookup_insert_ne by done. rewrite lookup_insert_ne by done.
    by rewrite lookup_insert_eq.
  - rewrite lookup_insert_ne by done. unfold e. rewrite lookup_serialize.
    rewrite lookup_insert_ne by done. by rewrite lookup_insert_eq.
  - intros k Hk.
    assert (k ≠ "id" ∧ k ≠ "timestamp" ∧ k ≠ "status") as (H1 & H2 & H3).
    { repeat split; intros ->; apply Hk; set_solver. }
    rewrite lookup_insert_ne by done. unfold e. rewrite lookup_serialize.
    by rewrite !lookup_insert_ne by done.
Qed.

(** X13. [getSettings] takes each credential from its own entry
    of the store and from nowhere else: when that entry is missing or
    empty the field is the empty string, whatever the settings blob holds
    under the same name, so that a description or an analysis with that
    provider fails with the missing-key error before any request. *)
Theorem stored_keys_override_settings_blob
    (fetch_answer : nat → string → Result AIService.Response)
    (latency : nat → string → Z)
    (s : Store) (n : AIService.Net) (p key msg : string) :
  (p, key, msg) ∈ credentialed →
  truthy (apiKeys s !! key) = false →
  (getSettings s !!! key = Some (JStr "")
   ∧ ∀ k, k ∉ ["ollamaApiKey"; "googleApiKey"; "openaiApiKey";
               "anthropicApiKey"; "geminiApiKey"] →
          getSettings s !! k = Some <$> (default ∅ (screengrabSettings s) !! k))
  ∧ (default ∅ (screengrabSettings s) !! "visionApiProvider" = Some (JStr p) →
     ∀ image, AIService.describeImage fetch_answer latency image (getSettings s) n
              = (n, Throw msg))
  ∧ (default ∅ (screengrabSettings s) !! "textApiProvider" = Some (JStr p) →
     ∀ text, AIService.analyzeText fetch_answer latency text (getSettings s) n
             = (n, Throw msg)).
Proof.
  intros Hin Hkey.
  assert (Hk : key ∈ ["ollamaApiKey"; "googleApiKey"; "openaiApiKey";
                      "anthropicApiKey"; "geminiApiKey"]).
  { unfold credentialed in Hin.
    repeat (apply elem_of_cons in Hin as [[= -> -> ->]|Hin]; [by repeat constructor|]).
    by apply elem_of_nil in Hin. }
  assert (Hval : getSettings s !!! key = Some (JStr "")).
  { rewrite lookup_total_alt, (lookup_getSettings_key s key Hk). cbn.
    destruct (apiKeys s !! key) as [j|]; [|reflexivity].
    cbn [or_else]. by rewrite Hkey. }
  assert (Hfalse : truthy (getSettings s !!! key) = false) by (by rewrite Hval).
  assert (Hprov : ∀ k, k = "visionApiProvider" ∨ k = "textApiProvider" →
            default ∅ (screengrabSettings s) !! k = Some (JStr p) →
            getSettings s !!! k = Some (JStr p)).
  { intros k Hkk Hp. rewrite lookup_total_alt, lookup_getSettings_other.
    - by rewrite Hp.
    - destruct Hkk as [-> | ->]; intros Hi;
        repeat (apply elem_of_cons in Hi as [Hi|Hi]; [discriminate|]);
        by apply elem_of_nil in Hi. }
  split; [split; [exact Hval | apply lookup_getSettings_other]|].
  split.
  - intros Hp image. unfold AIService.describeImage.
    unfold mbind, St_bind, lift.
    by rewrite (validateRequiredKey_missing (getSettings s) _ p key msg Hin
                  (Hprov _ (or_introl eq_refl) Hp) Hfalse).
  - intros Hp text. unfold AIService.analyzeText.
    unfold mbind, St_bind, lift.
    by rewrite (validateRequiredKey_missing (getSettings s) _ p key msg Hin
                  (Hprov _ (or_intror eq_refl) Hp) Hfalse).
Qed.

Lemma stored_keys_override_settings_blob_witness :
  ("openai", "openaiApiKey", "OpenAI API Key is required") ∈ credentialed
  ∧ AIService.describeImage no_network instant "AAAA" (getSettings blob_key_store)
      AIService.initial_net
    = (AIService.initial_net, Throw "OpenAI API Key is required").
Proof.
  assert (Hin : ("openai", "openaiApiKey", "OpenAI API Key is required")
                ∈ credentialed) by (apply list_elem_of_here).
  assert (Hkey : truthy (apiKeys blob_key_store !! "openaiApiKey") = false)
    by reflexivity.
  assert (Hp : default ∅ (screengrabSettings blob_key_store)
                 !! "visionApiProvider" = Some (JStr "openai"))
    by (vm_compute; reflexivity).
  split; [exact Hin|].
  apply (stored_keys_override_settings_blob no_network instant blob_key_store
           AIService.initial_net "openai" "openaiApiKey"
           "OpenAI API Key is required" Hin Hkey); exact Hp.
Defined.

(** ** Runs of the orchestrator, further *)

Section QueueRuns.
Variable env : Env.
Variable markdownToHtml : string → string.




End QueueRuns.



(** X8. A run of [processQueuedRequest] that finds no request, or a
    request whose status is not ['pending'], calls nothing and writes no
    capture state, but still removes the request entry. *)
Theorem processQueuedRequest_without_pending_request
    (env : Env) (markdownToHtml : string → string) (w : World) :
  pollingActive w = false →
  (∀ r, captureRequest (store w) = Some r →
        r !! "status" ≠ Some (JStr "pending")) →
  Background.processQueuedRequest env markdownToHtml w =
    (mkWorld (clear (store w)) false (log w) (ticks w) (ncaptures w)
             (nscripts w), Ok ()).
Proof.
  intros Hidle Hnone. destruct w as [st pa lg tk nc ns].
  cbn in Hidle, Hnone. subst pa.
  assert (Hdq : dequeue st = (None, st)).
  { unfold dequeue. destruct (captureRequest st) as [r|] eqn:Hr; [|done].
    rewrite decide_False; [done|]. by apply Hnone. }
  unfold Background.processQueuedRequest. run. rewrite Hdq. run. reflexivity.
Qed.

Lemma processQueuedRequest_without_pending_request_witness :
  pollingActive
    (initial_world (request_store {["status" := JStr "processing"]})) = false
  ∧ captureRequest
      (store (Background.processQueuedRequest calm_env plain_markup
                (initial_world
                   (request_store {["status" := JStr "processing"]}))).1)
    = None.
Proof.
  split; [reflexivity|].
  rewrite (processQueuedRequest_without_pending_request calm_env plain_markup
             (initial_world (request_store {["status" := JStr "processing"]}))
             eq_refl).
  - reflexivity.
  - intros r [= <-]. by rewrite lookup_singleton_eq.
Defined.

(** X9. A pending request for an ordinary page whose mode is none
    of ['visible'], ['full'] and ['area'] is taken from the queue and
    marked ['capturing'], and nothing else happens: the run ends with the
    capture still in ['capturing']. *)
Theorem unknown_mode_stays_capturing
    (env : Env) (markdownToHtml : string → string)
    (w : World) (request : obj) (tid : json) :
  pollingActive w = false →
  captureRequest (store w) = Some request →
  request !! "status" = Some (JStr "pending") →
  request !! "tabId" = Some tid →
  truthy (Some tid) = true →
  Background.isRestrictedUrl (request !! "url") = Ok false →
  request !! "mode" ∉ [Some (JStr "visible"); Some (JStr "full");
                       Some (JStr "area")] →
  let w' := (Background.processQueuedRequest env markdownToHtml w).1 in
  log w' = log w ++ [EvUpdateState (capturing_update (request !! "mode") tid)]
  ∧ status_of (store w') = Some "capturing"
  ∧ captureRequest (store w') = None
  ∧ pollingActive w' = false.
Proof.
  intros Hidle Hreq Hpending Htid Htruthy Hurl Hmode w'. subst w'.
  destruct w as [st pa lg tk nc ns]. cbn in Hidle, Hreq. subst pa.
  set (request' := <["status" := JStr "processing"]> request).
  assert (Hdq : dequeue st = (Some request',
                              set_captureRequest (Some request') st)).
  { unfold dequeue. rewrite Hreq. by rewrite decide_True. }
  assert (Hurl' : Background.isRestrictedUrl (request' !! "url") = Ok false).
  { unfold request'. by rewrite lookup_insert_ne. }
  assert (Htid' : request' !! "tabId" = Some tid).
  { unfold request'. by rewrite lookup_insert_ne. }
  assert (Hmode' : request' !! "mode" = request !! "mode").
  { unfold request'. by rewrite lookup_insert_ne. }
  assert (Hm : request !! "mode" ≠ Some (JStr "visible")
               ∧ request !! "mode" ≠ Some (JStr "full")
               ∧ request !! "mode" ≠ Some (JStr "area")).
  { repeat split; intros He; apply Hmode; rewrite He; by repeat constructor. }
  destruct Hm as (Hv & Hf & Ha).
  unfold Background.processQueuedRequest. run. rewrite Hdq. run.
  unfold Background.handleRequest. run.
  repeat progress (rewrite ?Htid', ?Htruthy, ?Hurl', ?Hmode'; run).
  rewrite !decide_False by done. run.
  split; [reflexivity|]. split; [|by split].
  apply status_of_updateState. by rewrite !lookup_insert_ne, lookup_singleton_eq.
Qed.

Lemma unknown_mode_stays_capturing_witness :
  pollingActive (initial_world (pending_store "https://example.org/" "window"))
    = false
  ∧ status_of
      (store (Background.processQueuedRequest calm_env plain_markup
                (initial_world
                   (pending_store "https://example.org/" "window"))).1)
    = Some "capturing".
Proof.
  set (request := default ∅ (captureRequest
                     (pending_store "https://example.org/" "window"))).
  assert (H1 : captureRequest
                 (store (initial_world
                    (pending_store "https://example.org/" "window")))
               = Some request) by reflexivity.
  assert (H2 : request !! "status" = Some (JStr "pending"))
    by (vm_compute; reflexivity).
  assert (H3 : request !! "tabId" = Some (JNum 7)) by (vm_compute; reflexivity).
  assert (H4 : Background.isRestrictedUrl (request !! "url") = Ok false)
    by (vm_compute; reflexivity).
  assert (H5 : request !! "mode" ∉ [Some (JStr "visible"); Some (JStr "full");
                                    Some (JStr "area")]).
  { assert (Hm : request !! "mode" = Some (JStr "window"))
      by (vm_compute; reflexivity).
    rewrite Hm. intros Hi.
    repeat (apply elem_of_cons in Hi as [Hi|Hi]; [discriminate|]).
    by apply elem_of_nil in Hi. }
  split; [reflexivity|].
  apply (unknown_mode_stays_capturing calm_env plain_markup
           (initial_world (pending_store "https://example.org/" "window"))
           request (JNum 7) eq_refl H1 H2 H3 eq_refl H4 H5).
Defined.

(** X10. A pending request without a tab identifier, when the
    query for the active tab yields no tab with an identifier, ends in
    ['error'] after that single query: with the message of the query when
    it failed, with ['Target tab could not be identified.'] otherwise. *)
Theorem request_without_tab_goes_to_error
    (env : Env) (markdownToHtml : string → string)
    (w : World) (request : obj) :
  pollingActive w = false →
  captureRequest (store w) = Some request →
  request !! "status" = Some (JStr "pending") →
  truthy (request !! "tabId") = false →
  (∀ tab, tabsQuery env = Ok (Some tab) → truthy (Some (tabIdent tab)) = false) →
  let w' := (Background.processQueuedRequest env markdownToHtml w).1 in
  ∃ message,
    log w' = log w ++ [EvTabsQuery; EvUpdateState (error_update message)]
    ∧ status_of (store w') = Some "error"
    ∧ error_of (store w') = Some (JStr message)
    ∧ (message = Background.NO_TAB_MESSAGE ∨ tabsQuery env = Throw message).
Proof.
  intros Hidle Hreq Hpending Htid Hq w'. subst w'.
  destruct w as [st pa lg tk nc ns]. cbn in Hidle, Hreq. subst pa.
  set (request' := <["status" := JStr "processing"]> request).
  assert (Hdq : dequeue st = (Some request',
                              set_captureRequest (Some request') st)).
  { unfold dequeue. rewrite Hreq. by rewrite decide_True. }
  assert (Htid' : truthy (request' !! "tabId") = false).
  { unfold request'. by rewrite lookup_insert_ne. }
  unfold Background.processQueuedRequest. run. rewrite Hdq. run.
  unfold Background.handleRequest. run. rewrite Htid'. run.
  destruct (tabsQuery env) as [[tab|]|m] eqn:Hans; run;
    cbn [fmap option_fmap option_map]; rewrite ?(Hq tab eq_refl); run.
  - exists Background.NO_TAB_MESSAGE. rewrite <- app_assoc.
    split; [reflexivity|]. split; [apply status_error_update|].
    split; [apply status_error_update | by left].
  - exists Background.NO_TAB_MESSAGE. rewrite <- app_assoc.
    split; [reflexivity|]. split; [apply status_error_update|].
    split; [apply status_error_update | by left].
  - exists m. rewrite <- app_assoc.
    split; [reflexivity|]. split; [apply status_error_update|].
    split; [apply status_error_update | by right].
Qed.

Lemma request_without_tab_goes_to_error_witness :
  pollingActive (initial_world icon_store) = false
  ∧ ∃ message,
      log (Background.processQueuedRequest tabless_env plain_markup
             (initial_world icon_store)).1
        = log (initial_world icon_store)
          ++ [EvTabsQuery; EvUpdateState (error_update message)]
      ∧ status_of
          (store (Background.processQueuedRequest tabless_env plain_markup
                    (initial_world icon_store)).1) = Some "error"
      ∧ error_of
          (store (Background.processQueuedRequest tabless_env plain_markup
                    (initial_world icon_store)).1) = Some (JStr message)
      ∧ (message = Background.NO_TAB_MESSAGE
         ∨ tabsQuery tabless_env = Throw message).
Proof.
  set (request := default ∅ (captureRequest icon_store)).
  assert (H1 : captureRequest (store (initial_world icon_store)) = Some request)
    by (vm_compute; reflexivity).
  assert (H2 : request !! "status" = Some (JStr "pending"))
    by (vm_compute; reflexivity).
  assert (H3 : truthy (request !! "tabId") = false)
    by (vm_compute; reflexivity).
  split; [reflexivity|].
  apply (request_without_tab_goes_to_error tabless_env plain_markup
           (initial_world icon_store) request eq_refl H1 H2 H3).
  intros tab [=].
Defined.

(** ** The analysis pipeline, further *)

Section PipelineEdges.
Variable env : Env.
Variable markdownToHtml : string → string.
Variable w : World.

Ltac step_show :=
  match goal with
  | |- context [Background.showFloatingProgress ?e ?w0] =>
      let evs := fresh "evs" in
      let ns := fresh "ns" in
      let H := fresh "Hshow" in
      let Hs := fresh "Hsil" in
      destruct (showFloatingProgress_spec e w0) as (evs & ns & H & Hs);
      cbn [store pollingActive log ticks ncaptures nscripts] in H;
      rewrite H; clear H
  end.

Ltac step_clients :=
  match goal with
  | |- context [clients ?e ?ops ?w0] =>
      let w1 := fresh "w" in
      let evs := fresh "evs" in
      let H := fresh "Hrun" in
      let Hset := fresh "Hset" in
      let Hlog := fresh "Hlog" in
      let Hoff := fresh "Hoff" in
      let Hc := fresh "Hc" in
      destruct (clients_spec e ops w0)
        as (w1 & H & Hset & (evs & Hlog & Hoff) & Hc);
      cbn [store pollingActive log ticks ncaptures nscripts] in Hset, Hlog, Hc;
      rewrite H; clear H
  end.

Ltac forall_events :=
  repeat match goal with
         | |- Forall _ (_ ++ _) => apply Forall_app; split
         | |- Forall _ (_ :: _) => constructor
         | |- Forall _ [] => constructor
         end;
  try reflexivity.

Lemma silent_offline (evs : list Event) :
  Forall silent evs → Forall (λ ev, gateway_call ev = false) evs.
Proof. intros H. eapply Forall_impl; [exact H|]. by intros ev [Hg _]. Qed.

Lemma unusable_image_run (dataUrl : option string) :
  image_payload dataUrl = None →
  ∃ w' evs message,
    Background.processCapturedImage env markdownToHtml dataUrl w = (w', Ok ())
    ∧ log w' = log w ++ evs
    ∧ Forall (λ ev, gateway_call ev = false) evs
    ∧ status_of (store w') = Some "error"
    ∧ error_of (store w') = Some (JStr message)
    ∧ (dataUrl ≠ None → message = "Invalid image data").
Proof.
  intros Hp. unfold Background.processCapturedImage. run. step_show. run.
  destruct dataUrl as [d|]; run.
  - unfold image_payload in Hp. cbn [mbind option_bind] in Hp.
    destruct (Background.split_comma_1 d) as [[|c b]|]; [|discriminate|]; run;
      (eexists _, _, _; split; [reflexivity|]; cbn [log store];
       rewrite <- !app_assoc; split; [reflexivity|];
       split; [forall_events; by apply silent_offline|];
       split; [apply status_error_update|];
       split; [apply status_error_update | done]).
  - eexists _, _, _. split; [reflexivity|]. cbn [log store].
    rewrite <- !app_assoc. split; [reflexivity|].
    split; [forall_events; by apply silent_offline|].
    split; [apply status_error_update|].
    split; [apply status_error_update | done].
Qed.

Lemma unconfigured_run (dataUrl : option string) (b64 : string) :
  image_payload dataUrl = Some b64 →
  truthy (getSettings (store w) !!! "visionApiProvider") = false
  ∨ truthy (getSettings (store w) !!! "textApiProvider") = false →
  ∃ w' evs,
    Background.processCapturedImage env markdownToHtml dataUrl w = (w', Ok ())
    ∧ log w' = log w ++ evs
    ∧ Forall (λ ev, gateway_call ev = false) evs
    ∧ status_of (store w') = Some "error"
    ∧ error_of (store w') = Some (JStr "API providers not configured.").
Proof.
  intros Hp Hconf. unfold Background.processCapturedImage. run. step_show. run.
  destruct dataUrl as [d|]; [|discriminate].
  unfold image_payload in Hp. cbn [mbind option_bind] in Hp.
  destruct (Background.split_comma_1 d) as [[|c b]|]; try discriminate.
  injection Hp as <-.
  unfold Background.analyzeScreenshot.
  change (getSettings (updateState _ _ (store w))) with (getSettings (store w)).
  assert (Hor : negb (truthy (getSettings (store w) !!! "visionApiProvider"))
                || negb (truthy (getSettings (store w) !!! "textApiProvider"))
                = true).
  { destruct Hconf as [-> | ->]; [reflexivity | apply orb_true_r]. }
  rewrite Hor. run.
  eexists _, _. split; [reflexivity|]. cbn [log store].
  rewrite <- !app_assoc. split; [reflexivity|].
  split; [forall_events; by apply silent_offline|].
  apply status_error_update.
Qed.

End PipelineEdges.

(** X6. A capture whose image has no payload after the first comma of
    its data URL, or for which a provider is not configured, fails
    before the gateway is called: the state ends in ['error'], with
    ['Invalid image data'] in the first case and
    ['API providers not configured.'] in the second, and
    [processCapturedImage] returns without throwing. *)
Theorem capture_fails_before_the_gateway
    (env : Env) (markdownToHtml : string → string) (w : World)
    (dataUrl : option string) :
  image_payload dataUrl = None
  ∨ truthy (getSettings (store w) !!! "visionApiProvider") = false
  ∨ truthy (getSettings (store w) !!! "textApiProvider") = false →
  ∃ w' evs message,
    Background.processCapturedImage env markdownToHtml dataUrl w = (w', Ok ())
    ∧ log w' = log w ++ evs
    ∧ Forall (λ ev, gateway_call ev = false) evs
    ∧ status_of (store w') = Some "error"
    ∧ error_of (store w') = Some (JStr message)
    ∧ (dataUrl ≠ None → image_payload dataUrl = None →
       message = "Invalid image data")
    ∧ (image_payload dataUrl ≠ None →
       message = "API providers not configured.").
Proof.
  intros Hcase. destruct (image_payload dataUrl) as [b64|] eqn:Hp.
  - destruct Hcase as [[=]|Hconf].
    destruct (unconfigured_run env markdownToHtml w dataUrl b64 Hp Hconf)
      as (w' & evs & Hrun & Hlog & Hev & Hst & Herr).
    exists w', evs, "API providers not configured.".
    repeat split; try assumption. intros _ [=].
  - destruct (unusable_image_run env markdownToHtml w dataUrl Hp)
      as (w' & evs & message & Hrun & Hlog & Hev & Hst & Herr & Hmsg).
    exists w', evs, message. repeat split; try assumption.
    + intros Hd _. by apply Hmsg.
    + intros Hne. by destruct Hne.
Qed.

Lemma capture_fails_before_the_gateway_witness :
  image_payload (Some "no comma") = None
  ∧ ∃ w' evs message,
      Background.processCapturedImage calm_env plain_markup (Some "no comma")
        (initial_world capturing_store) = (w', Ok ())
      ∧ log w' = log (initial_world capturing_store) ++ evs
      ∧ Forall (λ ev, gateway_call ev = false) evs
      ∧ status_of (store w') = Some "error"
      ∧ error_of (store w') = Some (JStr message)
      ∧ (Some "no comma" ≠ None → image_payload (Some "no comma") = None →
         message = "Invalid image data")
      ∧ (image_payload (Some "no comma") ≠ None →
         message = "API providers not configured.").
Proof.
  split; [reflexivity|].
  apply (capture_fails_before_the_gateway calm_env plain_markup
           (initial_world capturing_store) (Some "no comma")).
  left. reflexivity.
Defined.

Lemma analysis_success_witness :
  ends_cancelled ([] ++ []) = false
  ∧ ∃ w' pre post,
      Background.processCapturedImage calm_env plain_markup
        (Some example_dataUrl) (initial_world capturing_store) = (w', Ok ())
      ∧ log w' = log (initial_world capturing_store) ++ pre
                 ++ [EvAnalyzeText (Background.sanitizeSensitiveData "hello")]
                 ++ post
      ∧ Forall (λ ev, is_analyzeText ev = false) pre
      ∧ Forall (λ ev, is_analyzeText ev = false) post
      ∧ status_of (store w') = Some "complete"
      ∧ result_of (store w') =
          Some (JStr (Background.formatResult plain_markup
                        (Background.sanitizeSensitiveData "hello")
                        (Background.sanitizeSensitiveData "analysis"))).
Proof.
  split; [reflexivity|].
  apply (analysis_success_run calm_env plain_markup
           (initial_world capturing_store) example_dataUrl "AAAA"
           eq_refl ltac:(discriminate) eq_refl eq_refl "hello" "analysis"
           eq_refl eq_refl eq_refl eq_refl).
Defined.


(** ** Scroll offsets of a full-page capture, in general *)

Section FullPageOffsets.
Variable env : Env.
Variable tab : Tab.

Lemma capture_loop_offsets (body : Z → M (string * Z)) (offset : Z → Z) :
  (∀ i w c, (body i w).2 = Ok c → c.2 = offset i) →
  ∀ indices w cs,
    (Background.capture_loop body indices w).2 = Ok cs →
    cs.*2 = offset <$> indices.
Proof.
  intros Hbody. induction indices as [|i rest IH]; intros w cs.
  - intros [= <-]. reflexivity.
  - cbn [Background.capture_loop]. unfold mbind, St_bind.
    pose proof (Hbody i w) as Hc.
    destruct (body i w) as [w1 [c|m]]; [|intros [=]].
    pose proof (IH w1) as Hrest.
    destruct (Background.capture_loop body rest w1) as [w2 [cs'|m]];
      [|intros [=]].
    intros [= <-]. cbn. f_equal; [by apply Hc | by apply Hrest].
Qed.

Lemma background_shot_offset (viewport i : Z) (w : World) (c : string * Z) :
  (Background.fullPage_shot env tab viewport i w).2 = Ok c →
  c.2 = i * viewport.
Proof.
  unfold Background.fullPage_shot, mbind, St_bind.
  destruct (chrome_executeScript env _ w) as [w1 [?|?]]; [|intros [=]].
  destruct (delay 30 w1) as [w2 [?|?]]; [|intros [=]].
  destruct (chrome_executeScript env _ w2) as [w3 [?|?]]; [|intros [=]].
  destruct (Background.captureWithRetry env tab 3 w3) as [w4 [?|?]];
    [|intros [=]].
  by intros [= <-].
Qed.

Lemma popup_shot_offset (height viewport i : Z) (w : World) (c : string * Z) :
  (Popup.fullPage_shot env tab height viewport i w).2 = Ok c →
  c.2 = Z.min (i * viewport) (height - viewport).
Proof.
  unfold Popup.fullPage_shot, mbind, St_bind.
  destruct (chrome_executeScript env _ w) as [w1 [?|?]]; [|intros [=]].
  destruct (delay 30 w1) as [w2 [?|?]]; [|intros [=]].
  destruct (chrome_executeScript env _ w2) as [w3 [?|?]]; [|intros [=]].
  destruct (chrome_captureVisibleTab env _ w3) as [w4 [?|?]]; [|intros [=]].
  by intros [= <-].
Qed.

(** What a successful run of the worker's [captureFullPage] went through:
    the page information, the captures of the loop, and the stitching
    script as its last step. *)
Lemma background_captureFullPage_inv (w : World) (r : option string) :
  (Background.captureFullPage env tab w).2 = Ok r →
  ∃ p cs w1,
    executeScript env (nscripts w) ScPageInfo = Ok (SvPageInfo p)
    ∧ (Background.capture_loop
         (Background.fullPage_shot env tab (piViewport p))
         (seqZ 0 (Background.ceil_div (piHeight p) (piViewport p))) w1).2
      = Ok cs
    ∧ last (log (Background.captureFullPage env tab w).1)
      = Some (EvExecuteScript (ScStitch cs (piWidth p) (piHeight p))).
Proof.
  intros Hres.
  destruct (Background.captureFullPage env tab w) as [w' r'] eqn:Hrun.
  cbn [fst snd] in *. subst r'.
  unfold Background.captureFullPage, mbind, St_bind in Hrun.
  destruct w as [st pa lg tk nc ns]. unfold chrome_executeScript at 1 in Hrun.
  cbn [store pollingActive log ticks ncaptures nscripts] in *.
  destruct (executeScript env ns ScPageInfo) as [[|p| |]|m]; try done.
  cbn [Background.expect_pageInfo mret St_ret] in Hrun.
  match type of Hrun with
  | context [Background.capture_loop ?b ?l ?w0] =>
      exists p; destruct (Background.capture_loop b l w0) as [w1 [cs|m]] eqn:Hloop;
        [|done]; exists cs, w0
  end.
  destruct (chrome_executeScript env (ScRestoreScroll _ _ _) w1)
    as [w2 [v|m]] eqn:Hrestore; [|done].
  destruct w2 as [st2 pa2 lg2 tk2 nc2 ns2]. unfold chrome_executeScript in Hrun.
  cbn [store pollingActive log ticks ncaptures nscripts] in Hrun.
  destruct (executeScript env ns2 _) as [v'|m]; [|done].
  injection Hrun as <- _.
  split; [reflexivity|]. split; [by rewrite Hloop|].
  cbn [log]. apply last_snoc.
Qed.

(** The same for the popup's [captureFullPage]. *)
Lemma popup_captureFullPage_inv (w : World) (r : option string) :
  (Popup.captureFullPage env w).2 = Ok r →
  ∃ tab' p cs w1,
    tabsQuery env = Ok (Some tab')
    ∧ executeScript env (nscripts w) ScPageInfo = Ok (SvPageInfo p)
    ∧ (Popup.fullPage_captures env tab' (piHeight p) (piViewport p) w1).2
      = Ok cs
    ∧ r = Background.split_comma_1
            (Popup.stitchImages env cs (piWidth p) (piHeight p)
               (piViewport p)).
Proof.
  unfold Popup.captureFullPage, mbind, St_bind.
  destruct w as [st pa lg tk nc ns].
  unfold chrome_tabs_query, mbind, St_bind, emit, lift.
  cbn [store pollingActive log ticks ncaptures nscripts].
  destruct (tabsQuery env) as [[tab'|]|m]; try (intros [=]; fail).
  unfold chrome_executeScript at 1.
  cbn [store pollingActive log ticks ncaptures nscripts].
  destruct (executeScript env ns ScPageInfo) as [[|p| |]|m];
    try (intros [=]; fail).
  cbn [Background.expect_pageInfo mret St_ret].
  match goal with
  | |- context [Popup.fullPage_captures ?e ?t ?h ?v ?w0] =>
      destruct (Popup.fullPage_captures e t h v w0) as [w1 [cs|m]] eqn:Hloop;
        [|intros [=]]; pose (w0' := w0)
  end.
  destruct (chrome_executeScript env (ScRestoreScroll _ _ _) w1)
    as [w2 [v|m]] eqn:Hrestore; [|intros [=]].
  intros [= <-]. exists tab', p, cs, w0'. subst w0'. by rewrite Hloop.
Qed.

End FullPageOffsets.

Lemma ceil_div_bounds (a b : Z) :
  0 < b → b * (Background.ceil_div a b - 1) < a ≤ b * Background.ceil_div a b.
Proof.
  intros Hb. unfold Background.ceil_div.
  pose proof (Z.div_mod (- a) b ltac:(lia)).
  pose proof (Z.mod_pos_bound (- a) b Hb). nia.
Qed.

Lemma last_fmap_seqZ {A} (f : Z → A) (n : Z) :
  0 < n → last (f <$> seqZ 0 n) = Some (f (n - 1)).
Proof.
  intros Hn. rewrite fmap_last, last_lookup, length_seqZ.
  rewrite lookup_seqZ_lt by lia. cbn. do 2 f_equal. lia.
Qed.


Section FullPageRequests.
Variable env : Env.
Variable tab : Tab.

(** Every shot of the worker starts by asking the page to scroll to
    [i * viewport]. *)
Lemma background_shot_requests (viewport i : Z) (w : World) :
  ∃ rest,
    log (Background.fullPage_shot env tab viewport i w).1
    = log w ++ EvExecuteScript
                 (ScShowOverlayAndScroll Background.FULLPAGE_OVERLAY
                    (i * viewport)) :: rest.
Proof.
  unfold Background.fullPage_shot, mbind, St_bind.
  set (scroll := ScShowOverlayAndScroll _ _).
  assert (Hscript : ∀ sc w0,
            log (chrome_executeScript env sc w0).1
            = log w0 ++ [EvExecuteScript sc]) by done.
  pose proof (Hscript scroll w) as H1.
  destruct (chrome_executeScript env scroll w) as [w1 [?|?]];
    cbn [fst] in *; [|by exists []].
  assert (H2 : log (delay 30 w1).1 = log w1 ++ [EvDelay 30]) by done.
  destruct (delay 30 w1) as [w2 [?|?]]; cbn [fst] in *;
    [|rewrite H2, H1, <- app_assoc; by eexists].
  pose proof (Hscript (ScHideOverlay Background.FULLPAGE_OVERLAY) w2) as H3.
  destruct (chrome_executeScript env _ w2) as [w3 [?|?]]; cbn [fst] in *;
    [|rewrite H3, H2, H1, <- !app_assoc; by eexists].
  destruct (captureWithRetry_from_spec env (windowId tab) 3 3 0%nat w3)
    as (k & _ & _ & _ & _ & H4 & _).
  fold (Background.captureWithRetry env tab 3 w3) in H4.
  destruct (Background.captureWithRetry env tab 3 w3) as [w4 [?|?]];
    unfold mret, St_ret; cbn [fst] in *;
    rewrite H4, H3, H2, H1, <- !app_assoc; by eexists.
Qed.

End FullPageRequests.

(** C7. On every page with [0 < viewportHeight <= totalHeight]: the
    popup's [captureFullPage] clamps, no shot of its loop asks for more
    than [totalHeight - viewportHeight], and the offsets it records are
    [min(i * viewportHeight, totalHeight - viewportHeight)]. The worker's
    [captureFullPage] does not: shot [i] asks the page to scroll to
    [i * viewport] and records that offset, so that whenever the height
    is not a multiple of the viewport the last offset lies past
    [totalHeight - viewportHeight]. *)
Theorem C7_popup_clamps_worker_does_not
    (env : Env) (tab : Tab) (height viewport : Z) (w : World) :
  0 < viewport →
  viewport ≤ height →
  let numCaptures := Background.ceil_div height viewport in
  (∃ evs,
     log (Popup.fullPage_captures env tab height viewport w).1 = log w ++ evs
     ∧ Forall (scroll_within (height - viewport)) evs)
  ∧ (∀ cs, (Popup.fullPage_captures env tab height viewport w).2 = Ok cs →
       cs.*2 = (λ i, Z.min (i * viewport) (height - viewport))
                 <$> seqZ 0 numCaptures
       ∧ Forall (λ y, 0 ≤ y ≤ height - viewport) (cs.*2))
  ∧ (∀ i w0, ∃ rest,
       log (Background.fullPage_shot env tab viewport i w0).1
       = log w0 ++ EvExecuteScript
                     (ScShowOverlayAndScroll Background.FULLPAGE_OVERLAY
                        (i * viewport)) :: rest)
  ∧ (∀ cs, (Background.capture_loop
              (Background.fullPage_shot env tab viewport)
              (seqZ 0 numCaptures) w).2 = Ok cs →
       cs.*2 = (λ i, i * viewport) <$> seqZ 0 numCaptures
       ∧ (height `mod` viewport ≠ 0 →
          ∃ y, last (cs.*2) = Some y ∧ height - viewport < y)).
Proof.
  intros Hv Hh numCaptures.
  pose proof (ceil_div_bounds height viewport Hv) as [Hlo Hhi].
  fold numCaptures in Hlo, Hhi.
  split; [|split; [|split]].
  - destruct (popup_loop_spec env tab height viewport (seqZ 0 numCaptures) w)
      as (evs & Hlog & Hev & _).
    by exists evs.
  - intros cs Hrun.
    pose proof (capture_loop_offsets _
                  (λ i, Z.min (i * viewport) (height - viewport))
                  (popup_shot_offset env tab height viewport) _ _ _ Hrun)
      as Hoff.
    split; [exact Hoff|]. rewrite Hoff.
    apply Forall_fmap, Forall_seqZ. intros i Hi. cbn. nia.
  - intros i w0. apply background_shot_requests.
  - intros cs Hrun.
    pose proof (capture_loop_offsets _ (λ i, i * viewport)
                  (background_shot_offset env tab viewport) _ _ _ Hrun)
      as Hoff.
    split; [exact Hoff|]. intros Hmod.
    assert (Hn : 0 < numCaptures) by nia.
    exists ((numCaptures - 1) * viewport).
    rewrite Hoff. split; [by apply last_fmap_seqZ|].
    assert (height ≠ viewport * numCaptures).
    { intros Heq. apply Hmod. rewrite Heq, Z.mul_comm. apply Z.mod_mul. lia. }
    nia.
Qed.

Lemma C7_popup_clamps_worker_does_not_witness :
  1000 ≤ 1500
  ∧ ∃ evs,
      log (Popup.fullPage_captures (page_env 1500 1000) example_tab 1500 1000
             (initial_world empty_store)).1
        = log (initial_world empty_store) ++ evs
      ∧ Forall (scroll_within (1500 - 1000)) evs.
Proof.
  split; [lia|].
  destruct (C7_popup_clamps_worker_does_not (page_env 1500 1000) example_tab
              1500 1000 (initial_world empty_store) ltac:(lia) ltac:(lia))
    as [Hpopup _].
  exact Hpopup.
Defined.

(** X19. Whenever the worker's [captureFullPage] returns on a page whose
    height is more than one viewport and not a multiple of the viewport,
    the captures it hands to the stitching script are taken at
    [0, v, 2v, ...] and the last of them lies past
    [height - viewport]. *)
Theorem background_fullPage_overshoots
    (env : Env) (tab : Tab) (w : World) (p : PageInfo) (r : option string) :
  executeScript env (nscripts w) ScPageInfo = Ok (SvPageInfo p) →
  0 < piViewport p →
  piViewport p < piHeight p →
  piHeight p `mod` piViewport p ≠ 0 →
  (Background.captureFullPage env tab w).2 = Ok r →
  ∃ cs y,
    last (log (Background.captureFullPage env tab w).1)
      = Some (EvExecuteScript (ScStitch cs (piWidth p) (piHeight p)))
    ∧ cs.*2 = (λ i, i * piViewport p)
                <$> seqZ 0 (Background.ceil_div (piHeight p) (piViewport p))
    ∧ last (cs.*2) = Some y
    ∧ piHeight p - piViewport p < y.
Proof.
  intros Hp Hv Hh Hmod Hrun.
  destruct (background_captureFullPage_inv env tab w r Hrun)
    as (p' & cs & w1 & Hp' & Hloop & Hlast).
  rewrite Hp in Hp'. injection Hp' as <-.
  pose proof (capture_loop_offsets _ (λ i, i * piViewport p)
                (background_shot_offset env tab (piViewport p)) _ _ _ Hloop)
    as Hoff.
  pose proof (ceil_div_bounds (piHeight p) (piViewport p) Hv) as [Hlo Hhi].
  assert (Hn : 0 < Background.ceil_div (piHeight p) (piViewport p)) by nia.
  exists cs,
    ((Background.ceil_div (piHeight p) (piViewport p) - 1) * piViewport p).
  split; [exact Hlast|]. split; [exact Hoff|].
  rewrite Hoff. split; [by apply last_fmap_seqZ|].
  assert (piHeight p
          ≠ piViewport p * Background.ceil_div (piHeight p) (piViewport p)).
  { intros Heq. apply Hmod. rewrite Heq, Z.mul_comm. apply Z.mod_mul. lia. }
  nia.
Qed.

Lemma background_fullPage_overshoots_witness :
  1000 < 1500
  ∧ ∃ cs y,
      last (log (Background.captureFullPage (page_env 1500 1000) example_tab
                   (initial_world empty_store)).1)
        = Some (EvExecuteScript (ScStitch cs 1280 1500))
      ∧ cs.*2 = (λ i, i * 1000) <$> seqZ 0 (Background.ceil_div 1500 1000)
      ∧ last (cs.*2) = Some y
      ∧ 1500 - 1000 < y.
Proof.
  split; [lia|].
  apply (background_fullPage_overshoots (page_env 1500 1000) example_tab
           (initial_world empty_store) (mkPageInfo 1500 1000 1280 0 0)
           (Some "data:image/png;base64,CCCC"));
    [reflexivity | reflexivity | reflexivity | discriminate
     | vm_compute; reflexivity].
Defined.

(** X20. Whenever the popup's [captureFullPage] returns on a page at least
    one viewport high, the image it returns is the canvas on which every
    capture was drawn with the full viewport height at an offset inside
    the page, and every row of the page is covered by some capture. *)
Theorem popup_fullPage_covers_the_page
    (env : Env) (w : World) (p : PageInfo) (r : option string) :
  executeScript env (nscripts w) ScPageInfo = Ok (SvPageInfo p) →
  0 < piViewport p →
  piViewport p ≤ piHeight p →
  (Popup.captureFullPage env w).2 = Ok r →
  ∃ draws : list (string * Z * Z),
    r = Background.split_comma_1
          (renderCanvas env (piWidth p) (piHeight p) draws)
    ∧ Z.of_nat (length draws)
      = Background.ceil_div (piHeight p) (piViewport p)
    ∧ Forall (λ d : string * Z * Z,
                0 ≤ d.1.2 ∧ d.2 = piViewport p
                ∧ d.1.2 + d.2 ≤ piHeight p) draws
    ∧ ∀ row, 0 ≤ row < piHeight p →
        ∃ d, d ∈ draws ∧ d.1.2 ≤ row < d.1.2 + d.2.
Proof.
  intros Hp Hv Hh Hrun.
  destruct (popup_captureFullPage_inv env w r Hrun)
    as (tab & p' & cs & w1 & _ & Hp' & Hloop & ->).
  rewrite Hp in Hp'. injection Hp' as <-.
  set (h := piHeight p) in *. set (v := piViewport p) in *.
  pose proof (capture_loop_offsets _ (λ i, Z.min (i * v) (h - v))
                (popup_shot_offset env tab h v) _ _ _ Hloop) as Hoff.
  pose proof (ceil_div_bounds h v Hv) as [Hlo Hhi].
  set (n := Background.ceil_div h v) in *.
  assert (Hys : ∀ c, c ∈ cs → ∃ i, 0 ≤ i < n ∧ c.2 = Z.min (i * v) (h - v)).
  { intros c Hc.
    assert (Hin : c.2 ∈ cs.*2) by (apply list_elem_of_fmap; eauto).
    rewrite Hoff in Hin. apply list_elem_of_fmap in Hin as (i & Hi & Hin).
    apply elem_of_seqZ in Hin. exists i. split; [lia | exact Hi]. }
  eexists. split; [reflexivity|]. split; [|split].
  - rewrite length_map.
    rewrite <- (length_fmap snd cs), Hoff, length_fmap, length_seqZ. lia.
  - apply Forall_forall. intros d Hd.
    apply list_elem_of_fmap in Hd as (c & -> & Hc).
    destruct (Hys c Hc) as (i & Hi & Hy). cbn. rewrite Hy. nia.
  - intros row Hrow.
    assert (Hq : 0 ≤ row / v < n).
    { split; [apply Z.div_pos; lia|].
      pose proof (Z.div_mod row v ltac:(lia)).
      pose proof (Z.mod_pos_bound row v Hv). nia. }
    assert (Hin : Z.min (row / v * v) (h - v) ∈ cs.*2).
    { rewrite Hoff. apply list_elem_of_fmap. exists (row / v).
      split; [reflexivity|]. apply elem_of_seqZ. lia. }
    apply list_elem_of_fmap in Hin as (c & Hy & Hc).
    exists (c.1, c.2, Z.min v (h - c.2)). split.
    + apply list_elem_of_fmap. exists c. by split.
    + cbn. rewrite <- Hy.
      pose proof (Z.div_mod row v ltac:(lia)).
      pose proof (Z.mod_pos_bound row v Hv). nia.
Qed.

Lemma popup_fullPage_covers_the_page_witness :
  1000 ≤ 1500
  ∧ ∃ draws : list (string * Z * Z),
      Some "BBBB" = Background.split_comma_1
          (renderCanvas (page_env 1500 1000) 1280 1500 draws)
      ∧ Z.of_nat (length draws) = Background.ceil_div 1500 1000
      ∧ Forall (λ d : string * Z * Z,
                  0 ≤ d.1.2 ∧ d.2 = 1000 ∧ d.1.2 + d.2 ≤ 1500) draws
      ∧ ∀ row, 0 ≤ row < 1500 →
          ∃ d, d ∈ draws ∧ d.1.2 ≤ row < d.1.2 + d.2.
Proof.
  split; [lia|].
  apply (popup_fullPage_covers_the_page (page_env 1500 1000)
           (initial_world empty_store) (mkPageInfo 1500 1000 1280 0 0)
           (Some "BBBB"));
    [reflexivity | reflexivity | discriminate | vm_compute; reflexivity].
Defined.

(** ** Starting an area selection *)

Section AreaStart.
Variable env : Env.

Ltac error_end :=
  eexists _, _; split; [reflexivity|]; cbn [log store];
  rewrite <- ?app_assoc; split; [reflexivity|];
  split; [repeat constructor|]; split; [reflexivity|]; right;
  split; [apply status_error_update|]; split; [reflexivity|];
  eexists; apply status_error_update.

(** X14. [startAreaSelection] never throws and never calls the gateway;
    it leaves the capture either in ['selecting'], with the tab recorded
    as the active capture tab and any earlier selection removed (and then
    the tab exists and its URL is not restricted), or in ['error'] with a
    message and the active capture tab as it was. *)
Theorem startAreaSelection_ends_selecting_or_error (tabId : json) (w : World) :
  ∃ w' evs,
    Background.startAreaSelection env tabId w = (w', Ok ())
    ∧ log w' = log w ++ evs
    ∧ Forall (λ ev, gateway_call ev = false) evs
    ∧ captureRequest (store w') = captureRequest (store w)
    ∧ ((status_of (store w') = Some "selecting"
        ∧ activeCaptureTabId (store w') = Some tabId
        ∧ areaSelection (store w') = None
        ∧ ∃ tab, tabsGet env tabId = Ok tab
                 ∧ Background.isRestrictedUrl (tabUrl tab) = Ok false)
       ∨ (status_of (store w') = Some "error"
          ∧ activeCaptureTabId (store w') = activeCaptureTabId (store w)
          ∧ ∃ message, error_of (store w') = Some (JStr message))).
Proof.
  destruct w as [st pa lg tk nc ns].
  unfold Background.startAreaSelection. run.
  destruct (tabsGet env tabId) as [tab|m] eqn:Htab; run; [|error_end].
  destruct (Background.isRestrictedUrl (tabUrl tab)) as [[]|m] eqn:Hurl; run;
    [error_end| |error_end].
  destruct (insertCSS env) as [[]|m]; run; [|error_end].
  destruct (executeScript env ns (ScFile "selector.js")) as [v|m]; run;
    [|error_end].
  destruct (executeScript env (S ns) ScInitSelector)
    as [[| | |success ready err]|m]; run; [error_end..| |error_end].
  destruct success; [destruct ready|]; run.
  - eexists _, _. split; [reflexivity|]. cbn [log store].
    rewrite <- ?app_assoc. split; [reflexivity|].
    split; [repeat constructor|]. split; [reflexivity|]. left.
    split; [|split; [reflexivity|split; [reflexivity|by exists tab]]].
    apply status_of_updateState.
    by rewrite lookup_insert_ne, lookup_singleton_eq.
  - error_end.
  - destruct err as [[| | |e]|]; run; error_end.
Qed.

(** X15. When the tab is gone or shows a restricted page, the area
    selection is refused before anything is injected: the only steps
    are the lookup of the tab and the write of the ['error'] state, whose
    message does not depend on what the browser reported. *)
Theorem startAreaSelection_refuses_before_injecting
    (tabId : json) (w : World) (message : string) :
  ((∃ m, tabsGet env tabId = Throw m)
   ∧ message = "The tab was closed. Please try again.")
  ∨ ((∃ tab, tabsGet env tabId = Ok tab
             ∧ Background.isRestrictedUrl (tabUrl tab) = Ok true)
     ∧ message = Background.RESTRICTED_MESSAGE) →
  let w' := (Background.startAreaSelection env tabId w).1 in
  log w' = log w ++ [EvTabsGet tabId; EvUpdateState (error_update message)]
  ∧ status_of (store w') = Some "error"
  ∧ error_of (store w') = Some (JStr message)
  ∧ areaSelection (store w') = areaSelection (store w)
  ∧ activeCaptureTabId (store w') = activeCaptureTabId (store w).
Proof.
  intros Hcase w'. subst w'. destruct w as [st pa lg tk nc ns].
  unfold Background.startAreaSelection. run.
  destruct Hcase as [[[m Hm] ->] | [(tab & Htab & Hurl) ->]].
  - rewrite Hm. run. rewrite <- app_assoc. split; [reflexivity|].
    split; [apply status_error_update|].
    split; [apply status_error_update | by split].
  - rewrite Htab. run. rewrite Hurl. run. rewrite <- app_assoc.
    split; [reflexivity|]. split; [apply status_error_update|].
    split; [apply status_error_update | by split].
Qed.

End AreaStart.

(** The tab of the request was closed before the worker looked it up. *)
Lemma startAreaSelection_refuses_before_injecting_witness :
  let env := mkEnv (dateNow calm_env) (tabsQuery calm_env)
               (λ _, Throw "No tab with id: 7.")
               (captureVisibleTab calm_env) (insertCSS calm_env)
               (executeScript calm_env) (describeImage calm_env)
               (analyzeText calm_env) [] [] (renderCanvas calm_env) in
  error_of (store (Background.startAreaSelection env (JNum 7)
                     (initial_world configured_store)).1)
  = Some (JStr "The tab was closed. Please try again.").
Proof.
  intros env.
  assert (Hgone : ((∃ m, tabsGet env (JNum 7) = Throw m)
                   ∧ "The tab was closed. Please try again."
                     = "The tab was closed. Please try again.")
                  ∨ ((∃ tab, tabsGet env (JNum 7) = Ok tab
                             ∧ Background.isRestrictedUrl (tabUrl tab)
                               = Ok true)
                     ∧ "The tab was closed. Please try again."
                       = Background.RESTRICTED_MESSAGE)).
  { left. split; [by exists "No tab with id: 7." | reflexivity]. }
  destruct (startAreaSelection_refuses_before_injecting env (JNum 7)
              (initial_world configured_store)
              "The tab was closed. Please try again." Hgone)
    as (_ & _ & Herr & _).
  exact Herr.
Defined.

(** ** The end of an area selection *)

Section AreaChange.
Variable env : Env.
Variable markdownToHtml : string → string.
Variable captureSelection : Tab → obj → M (option string).

Lemma try_catch_returns {A} (body : M A) (handler : string → M A) :
  (∀ m w, ∃ w' a, handler m w = (w', Ok a)) →
  ∀ w, ∃ w' a, try_catch body handler w = (w', Ok a).
Proof.
  intros Hh w. unfold try_catch. destruct (body w) as [w1 [a|m]]; eauto.
Qed.

Lemma processCapturedImage_returns (dataUrl : option string) (w : World) :
  ∃ w', Background.processCapturedImage env markdownToHtml dataUrl w
        = (w', Ok ()).
Proof.
  unfold Background.processCapturedImage.
  match goal with
  | |- context [try_catch ?b ?h w] =>
      destruct (try_catch_returns b h) with (w := w) as (w' & [] & Hrun)
  end.
  - intros m w0. destruct w0. run. eauto.
  - eauto.
Qed.

(** X16. A change of [areaSelection] while no tab is recorded as the active
    capture tab is ignored; with such a tab, a [null] selection removes
    both entries and marks the capture ['cancelled'] without any capture
    operation or gateway call; and in every case the handler returns
    without throwing. *)
Theorem handleAreaSelectionChange_cancels_on_null
    (areaSelection : option obj) (w : World) :
  (∃ w', Background.handleAreaSelectionChange env markdownToHtml
           captureSelection areaSelection w = (w', Ok ()))
  ∧ (truthy (activeCaptureTabId (store w)) = false →
     Background.handleAreaSelectionChange env markdownToHtml
       captureSelection areaSelection w = (w, Ok ()))
  ∧ (truthy (activeCaptureTabId (store w)) = true →
     let w' := (Background.handleAreaSelectionChange env markdownToHtml
                  captureSelection None w).1 in
     log w' = log w ++ [EvStorageRemove ["areaSelection"; "activeCaptureTabId"];
                        EvUpdateState {["status" := Some (JStr "cancelled")]}]
     ∧ status_of (store w') = Some "cancelled"
     ∧ CaptureQueue.areaSelection (store w') = None
     ∧ activeCaptureTabId (store w') = None).
Proof.
  destruct w as [st pa lg tk nc ns]. cbn [store log]. split; [|split].
  - unfold Background.handleAreaSelectionChange.
    unfold mbind at 1. unfold St_bind at 1. unfold get_store at 1.
    cbn [store].
    destruct (activeCaptureTabId st) as [tid|]; [|eauto].
    destruct (truthy (Some tid)); cbn [negb]; [|eauto].
    unfold mbind at 1. unfold St_bind at 1. unfold emit at 1.
    unfold mbind at 1. unfold St_bind at 1. unfold put_store at 1.
    cbn [store pollingActive log ticks ncaptures nscripts].
    destruct areaSelection as [sel|].
    + match goal with
      | |- context [try_catch ?b ?h ?w0] =>
          destruct (try_catch_returns b h) with (w := w0)
            as (w' & [] & Hrun); [|eauto]
      end.
      intros m w0. destruct w0. run. eauto.
    + run. eauto.
  - intros Hno. unfold Background.handleAreaSelectionChange. run.
    destruct (activeCaptureTabId st) as [tid|]; [|reflexivity].
    by rewrite Hno.
  - intros Htab. unfold Background.handleAreaSelectionChange. run.
    destruct (activeCaptureTabId st) as [tid|]; [|discriminate].
    rewrite Htab. run. rewrite <- app_assoc. split; [reflexivity|].
    split; [|by split].
    apply status_of_updateState. by rewrite lookup_singleton_eq.
Qed.

(** X17. A drag that is not more than ten pixels in both dimensions, and
    the Escape key, end an area capture as ['cancelled']: the selector
    writes a [null] selection, and the worker's listener removes it
    together with the active capture tab and writes the status, with no
    capture operation and no gateway call. *)
Theorem small_drag_or_escape_cancels (w : World) (s1 : Store) :
  truthy (activeCaptureTabId (store w)) = true →
  (∃ sx sy cx cy,
     (Z.abs (cx - sx) ≤ 10 ∨ Z.abs (cy - sy) ≤ 10)
     ∧ s1 = Selector.handleMouseUp true sx sy cx cy (store w))
  ∨ s1 = Selector.handleKeyDown "Escape" (store w) →
  let w' := (Background.onAreaSelectionChanged env markdownToHtml
               captureSelection (with_store s1 w)).1 in
  CaptureQueue.areaSelection s1 = Some None
  ∧ log w' = log w ++ [EvStorageRemove ["areaSelection"; "activeCaptureTabId"];
                       EvUpdateState {["status" := Some (JStr "cancelled")]}]
  ∧ status_of (store w') = Some "cancelled"
  ∧ CaptureQueue.areaSelection (store w') = None
  ∧ activeCaptureTabId (store w') = None.
Proof.
  intros Htab Hs1 w'.
  assert (Hnull : CaptureQueue.areaSelection s1 = Some None
                  ∧ activeCaptureTabId s1 = activeCaptureTabId (store w)).
  { destruct Hs1 as [(sx & sy & cx & cy & Hsmall & ->) | ->];
      [|by split].
    unfold Selector.handleMouseUp, Selector.selection.
    assert (Hc : (10 <? Z.abs (cx - sx)) && (10 <? Z.abs (cy - sy)) = false).
    { apply andb_false_iff. destruct Hsmall; [left | right];
        apply Z.ltb_ge; lia. }
    rewrite Hc. by split. }
  destruct Hnull as [Hnull Hkeep]. split; [exact Hnull|].
  subst w'. destruct w as [st pa lg tk nc ns]. cbn [store] in *.
  unfold Background.onAreaSelectionChanged, with_store. run.
  rewrite Hnull. unfold Background.handleAreaSelectionChange. run.
  rewrite Hkeep.
  destruct (activeCaptureTabId st) as [tid|]; [|discriminate].
  rewrite Htab. run. rewrite <- app_assoc. split; [reflexivity|].
  split; [|by split].
  apply status_of_updateState. by rewrite lookup_singleton_eq.
Qed.

End AreaChange.

(** A selector left with Escape while tab 7 is the active capture tab. *)
Lemma small_drag_or_escape_cancels_witness :
  let s := set_activeCaptureTabId (Some (JNum 7)) capturing_store in
  status_of
    (store (Background.onAreaSelectionChanged calm_env plain_markup
              (λ _ _, mret None)
              (with_store (Selector.handleKeyDown "Escape" s)
                 (initial_world s))).1)
  = Some "cancelled".
Proof.
  intros s.
  destruct (small_drag_or_escape_cancels calm_env plain_markup
              (λ _ _, mret None) (initial_world s)
              (Selector.handleKeyDown "Escape" s) eq_refl
              (or_intror eq_refl)) as (_ & _ & H & _).
  exact H.
Defined.

(** X18. The selection of a drag does not depend on the corner the drag
    started from; it is kept exactly when the drag is more than ten
    pixels in both dimensions, and then it is the rectangle spanned by
    the two points. *)
Theorem selection_of_a_drag (sx sy cx cy : Z) :
  Selector.selection sx sy cx cy = Selector.selection cx cy sx sy
  ∧ (Selector.selection sx sy cx cy = None
     ↔ Z.abs (cx - sx) ≤ 10 ∨ Z.abs (cy - sy) ≤ 10)
  ∧ ∀ sel, Selector.selection sx sy cx cy = Some sel →
      ∃ x y width height,
        sel !! "x" = Some (JNum x) ∧ sel !! "y" = Some (JNum y)
        ∧ sel !! "width" = Some (JNum width)
        ∧ sel !! "height" = Some (JNum height)
        ∧ 10 < width ∧ 10 < height
        ∧ x ≤ sx ≤ x + width ∧ x ≤ cx ≤ x + width
        ∧ y ≤ sy ≤ y + height ∧ y ≤ cy ≤ y + height
        ∧ (x = sx ∨ x = cx) ∧ (y = sy ∨ y = cy).
Proof.
  unfold Selector.selection. split; [|split].
  - rewrite (Z.min_comm cx sx), (Z.min_comm cy sy).
    replace (Z.abs (sx - cx)) with (Z.abs (cx - sx)) by lia.
    replace (Z.abs (sy - cy)) with (Z.abs (cy - sy)) by lia.
    reflexivity.
  - destruct (10 <? Z.abs (cx - sx)) eqn:Hw;
      destruct (10 <? Z.abs (cy - sy)) eqn:Hh; cbn [andb];
      rewrite ?Z.ltb_lt, ?Z.ltb_ge in *; split; try done; try lia;
      intros _; lia.
  - intros sel.
    destruct (10 <? Z.abs (cx - sx)) eqn:Hw; [|intros [=]].
    destruct (10 <? Z.abs (cy - sy)) eqn:Hh; [|intros [=]].
    cbn [andb]. intros [= <-]. apply Z.ltb_lt in Hw, Hh.
    eexists _, _, _, _.
    split; [repeat (rewrite lookup_insert_ne by done);
            by rewrite lookup_singleton_eq|].
    split; [repeat (rewrite lookup_insert_ne by done);
            by rewrite lookup_insert_eq|].
    split; [repeat (rewrite lookup_insert_ne by done);
            by rewrite lookup_insert_eq|].
    split; [by rewrite lookup_insert_eq|].
    lia.
Qed.

(** ** Redaction *)

Section Redaction.
Import Background.

Lemma is_digit_word (c : ascii) : is_digit c = true → is_word c = true.
Proof. unfold is_word. by intros ->. Qed.

Lemma ssn_at_digit (c : ascii) (s : string) :
  ssn_at (String c s) = true → is_digit c = true.
Proof.
  unfold ssn_at, ssn_pattern. cbn [match_classes].
  by destruct (is_digit c).
Qed.

Lemma match_classes_drop (p : list (ascii → bool)) : ∀ s rest,
  match_classes p s = Some rest → rest = string_drop (length p) s.
Proof.
  induction p as [|f p IH]; intros s rest.
  - by intros [= <-].
  - destruct s as [|c s]; [intros [=]|]. cbn [match_classes].
    destruct (f c); [|intros [=]]. intros H. by apply IH in H.
Qed.

Lemma ssn_at_boundary (s : string) :
  ssn_at s = true → at_boundary (string_drop 11 s) = true.
Proof.
  unfold ssn_at.
  destruct (match_classes ssn_pattern s) as [rest|] eqn:Hm; [|intros [=]].
  apply match_classes_drop in Hm. cbn [length ssn_pattern] in Hm.
  rewrite <- Hm. by destruct rest.
Qed.

(** The second pass over the replacement text copies it. *)
Lemma redact_replacement (pw : bool) (t : string) :
  redact 0 pw ("[REDACTED_SSN]" +:+ t) = "[REDACTED_SSN]" +:+ redact 0 false t.
Proof. destruct pw; reflexivity. Qed.

(** A run of digits and dashes found in the output of [redact] is a run
    of the input: the pass did not replace anything inside it. *)
Lemma match_classes_redact (q : list (ascii → bool)) :
  Forall (λ f : ascii → bool, f "["%char = false) q →
  ∀ s pw rest,
    match_classes q (redact 0 pw s) = Some rest →
    ∃ s_rest pw',
      match_classes q s = Some s_rest
      ∧ rest = redact 0 pw' s_rest
      ∧ (q = [] ∧ pw' = pw
         ∨ ∃ f x, last q = Some f ∧ f x = true ∧ pw' = is_word x).
Proof.
  induction q as [|f q IH]; intros Hq s pw rest.
  - intros [= <-]. exists s, pw. split; [reflexivity|]. split; [reflexivity|].
    by left.
  - apply Forall_cons in Hq as [Hf Hq].
    destruct s as [|c s]; [intros [=]|].
    cbn [redact].
    destruct (negb pw && ssn_at (String c s)).
    + change ("[REDACTED_SSN]" +:+ redact 10 true s)
        with (String "["%char ("REDACTED_SSN]" +:+ redact 10 true s)).
      cbn [match_classes]. rewrite Hf. intros [=].
    + cbn [match_classes]. destruct (f c) eqn:Hfc; [|intros [=]].
      intros Hm. destruct (IH Hq s (is_word c) rest Hm)
        as (s_rest & pw' & Hs & Hrest & Hlast).
      exists s_rest, pw'. split; [exact Hs|]. split; [exact Hrest|].
      right. destruct Hlast as [[-> ->] | (f' & x & Hl & Hx & Hpw)].
      * exists f, c. by repeat split.
      * exists f', x. split; [|by split].
        destruct q; [discriminate | exact Hl].
Qed.

Lemma ssn_at_redact (c : ascii) (s : string) :
  ssn_at (String c (redact 0 (is_word c) s)) = true →
  ssn_at (String c s) = true.
Proof.
  unfold ssn_at. change ssn_pattern with (is_digit :: tail ssn_pattern).
  cbn [match_classes]. destruct (is_digit c); [|intros [=]].
  destruct (match_classes (tail ssn_pattern) (redact 0 (is_word c) s))
    as [rest|] eqn:Hm; [|intros [=]].
  apply match_classes_redact in Hm
    as (s_rest & pw' & -> & -> & [[[=] _] | (f & x & Hl & Hx & ->)]).
  2: { repeat constructor. }
  injection Hl as <-. rewrite (is_digit_word x Hx).
  destruct s_rest as [|c' s']; [done|]. cbn [redact negb andb]. done.
Qed.

Lemma redact_twice : ∀ s skip pw pw2,
  (skip = 0%nat ∧ pw2 = pw)
  ∨ (pw2 = false ∧ at_boundary (string_drop skip s) = true) →
  redact 0 pw2 (redact skip pw s) = redact skip pw s.
Proof.
  induction s as [|c s IH]; intros skip pw pw2 Hc.
  - by destruct skip.
  - destruct skip as [|k].
    + cbn [redact]. destruct (negb pw && ssn_at (String c s)) eqn:Hm.
      * rewrite redact_replacement. f_equal.
        apply IH. right. split; [reflexivity|].
        apply andb_true_iff in Hm as [_ Hm].
        by apply ssn_at_boundary in Hm.
      * cbn [redact].
        assert (Hno : negb pw2
                      && ssn_at (String c (redact 0 (is_word c) s)) = false).
        { destruct pw2; [reflexivity|]. cbn [negb andb].
          destruct (ssn_at (String c (redact 0 (is_word c) s))) eqn:Hout;
            [|reflexivity].
          destruct Hc as [[_ <-] | [_ Hb]].
          - cbn [negb andb] in Hm. apply ssn_at_redact in Hout. congruence.
          - apply ssn_at_digit, is_digit_word in Hout.
            cbn [string_drop at_boundary] in Hb. by rewrite Hout in Hb. }
        rewrite Hno. f_equal. apply IH. by left.
    + cbn [redact]. apply IH. right. destruct Hc as [[[=] _] | [-> Hb]].
      by split.
Qed.

End Redaction.

(** X21. Redaction is idempotent: the text that [sanitizeSensitiveData]
    returns contains nothing that the function would still redact. *)
Theorem sanitizeSensitiveData_idempotent (data : string) :
  Background.sanitizeSensitiveData (Background.sanitizeSensitiveData data)
  = Background.sanitizeSensitiveData data.
Proof. apply redact_twice. by left. Qed.

(** ** The popup and the floating icon while a capture is under way *)

Section PollFacts.
Import PopupArea.
Variable meanwhile : nat → Store → Store.

Lemma status_is_exclusive (o : obj) (a b : string) :
  a ≠ b → status_is o a = true → status_is o b = false.
Proof.
  unfold status_is. intros Hab Ha. apply bool_decide_eq_true in Ha.
  apply bool_decide_eq_false. rewrite Ha. intros [=]. by apply Hab.
Qed.

Lemma poll_once_spec (w : PopupWorld) :
  ∃ vs,
    poll_once w
    = (mkPopupWorld
         (if ends_polling (getState (pstore w)) then reset (pstore w)
          else pstore w)
         (views w ++ vs) (waits w),
       Ok (ends_polling (getState (pstore w))))
    ∧ (ends_polling (getState (pstore w)) = true →
       vs = [view_of (getState (pstore w))]).
Proof.
  destruct w as [s vs n]. unfold poll_once, mbind, St_bind, p_getState.
  cbn [pstore views waits]. unfold ends_polling, view_of.
  destruct (getState s) as [o|].
  2: { exists []. rewrite app_nil_r. by split. }
  destruct (status_is o "capturing") eqn:H1.
  { rewrite (status_is_exclusive o "capturing" "complete" ltac:(done) H1),
      (status_is_exclusive o "capturing" "error" ltac:(done) H1),
      (status_is_exclusive o "capturing" "cancelled" ltac:(done) H1).
    eexists. split; [reflexivity | intros [=]]. }
  destruct (status_is o "selecting") eqn:H2.
  { rewrite (status_is_exclusive o "selecting" "complete" ltac:(done) H2),
      (status_is_exclusive o "selecting" "error" ltac:(done) H2),
      (status_is_exclusive o "selecting" "cancelled" ltac:(done) H2).
    eexists. split; [reflexivity | intros [=]]. }
  destruct (status_is o "processing") eqn:H3.
  { rewrite (status_is_exclusive o "processing" "complete" ltac:(done) H3),
      (status_is_exclusive o "processing" "error" ltac:(done) H3),
      (status_is_exclusive o "processing" "cancelled" ltac:(done) H3).
    eexists. split; [reflexivity | intros [=]]. }
  destruct (status_is o "analyzing") eqn:H4.
  { rewrite (status_is_exclusive o "analyzing" "complete" ltac:(done) H4),
      (status_is_exclusive o "analyzing" "error" ltac:(done) H4),
      (status_is_exclusive o "analyzing" "cancelled" ltac:(done) H4).
    eexists. split; [reflexivity | intros [=]]. }
  destruct (status_is o "complete") eqn:H5.
  { rewrite (status_is_exclusive o "complete" "error" ltac:(done) H5),
      (status_is_exclusive o "complete" "cancelled" ltac:(done) H5).
    destruct (truthy (o !! "result")); cbn [andb orb].
    - eexists. split; [reflexivity | done].
    - exists []. rewrite app_nil_r. split; [reflexivity | intros [=]]. }
  cbn [andb orb].
  destruct (status_is o "error") eqn:H6.
  { eexists. split; [reflexivity | done]. }
  cbn [orb].
  destruct (status_is o "cancelled") eqn:H7.
  { eexists. split; [reflexivity | done]. }
  exists []. rewrite app_nil_r. split; [reflexivity | intros [=]].
Qed.

Lemma store_at_shift (w : PopupWorld) (vs : list View) (j : nat) :
  store_at meanwhile
    (mkPopupWorld (meanwhile (waits w) (pstore w)) vs (S (waits w))) j
  = store_at meanwhile w (S j).
Proof.
  induction j as [|j IH]; cbn [store_at pstore waits].
  - by rewrite Nat.add_0_r.
  - rewrite IH. cbn [store_at]. f_equal. lia.
Qed.

Lemma pollForAreaResult_from_spec (fuel : nat) : ∀ (i : nat) (w : PopupWorld),
  (i ≤ 240)%nat →
  (240 ≤ fuel + i)%nat →
  ∃ (k : nat) w',
    (i + k ≤ 240)%nat
    ∧ (∀ j, (j < k)%nat →
         ends_polling (getState (store_at meanwhile w j)) = false)
    ∧ pollForAreaResult_from meanwhile fuel (pollInterval * Z.of_nat i) w
      = (w', Ok ())
    ∧ waits w' = (waits w + k)%nat
    ∧ pstore w' = reset (store_at meanwhile w k)
    ∧ ((i + k < 240)%nat →
       ends_polling (getState (store_at meanwhile w k)) = true
       ∧ last (views w')
         = Some (view_of (getState (store_at meanwhile w k))))
    ∧ ((i + k = 240)%nat →
       last (views w') = Some (ShowError TIMEOUT_MESSAGE)).
Proof.
  induction fuel as [|fuel IH]; intros i w Hi Hfuel.
  - assert (i = 240%nat) as -> by lia.
    exists 0%nat. eexists. split; [lia|]. split; [intros j Hj; lia|].
    split; [reflexivity|]. cbn [waits pstore views store_at].
    split; [lia|]. split; [reflexivity|].
    split; [intros H; lia|]. intros _. apply last_snoc.
  - cbn [pollForAreaResult_from].
    destruct (pollInterval * Z.of_nat i <? maxWait) eqn:Hlt.
    2: { apply Z.ltb_ge in Hlt. unfold pollInterval, maxWait in Hlt.
         assert (i = 240%nat) as -> by lia.
         exists 0%nat. eexists. split; [lia|]. split; [intros j Hj; lia|].
         split; [reflexivity|]. cbn [waits pstore views store_at].
         split; [lia|]. split; [reflexivity|].
         split; [intros H; lia|]. intros _. apply last_snoc. }
    apply Z.ltb_lt in Hlt. unfold pollInterval, maxWait in Hlt.
    assert (Hi' : (i < 240)%nat) by lia.
    destruct (poll_once_spec w) as (vs & Hpoll & Hview).
    unfold mbind, St_bind. rewrite Hpoll.
    destruct (ends_polling (getState (pstore w))) eqn:Hend.
    + exists 0%nat. eexists. split; [lia|]. split; [intros j Hj; lia|].
      split; [reflexivity|]. cbn [waits pstore views store_at].
      split; [lia|]. split; [reflexivity|]. split.
      * intros _. split; [exact Hend|]. rewrite (Hview eq_refl).
        apply last_snoc.
      * intros H; lia.
    + unfold sleep at 1. cbn [waits pstore views].
      replace (pollInterval * Z.of_nat i + pollInterval)
        with (pollInterval * Z.of_nat (S i)) by (unfold pollInterval; lia).
      destruct (IH (S i)
                  (mkPopupWorld (meanwhile (waits w) (pstore w))
                     (views w ++ vs) (S (waits w)))
                  ltac:(lia) ltac:(lia))
        as (k & w' & Hk & Hbefore & Hrun & Hwaits & Hstore & Hstop & Htime).
      exists (S k), w'. rewrite store_at_shift in Hstore, Hstop.
      split; [lia|]. split.
      { intros [|j] Hj; [exact Hend|].
        rewrite <- (store_at_shift w (views w ++ vs)). apply Hbefore. lia. }
      split; [exact Hrun|]. cbn [waits] in Hwaits.
      split; [lia|]. split; [exact Hstore|].
      split; [intros H; apply Hstop; lia | intros H; apply Htime; lia].
Qed.

End PollFacts.

(** X22. [pollForAreaResult] always returns: it polls until the first
    capture state that is complete with a result, an error or
    cancelled, shows it and resets the queue; when no poll finds such a
    state, it gives up after exactly 240 waits, shows the timeout error
    and resets the queue as well. In both cases neither a request nor a
    capture state is left. *)
Theorem pollForAreaResult_stops_at_first_terminal_state_or_times_out
    (meanwhile : nat → Store → Store) (w : PopupArea.PopupWorld) :
  ∃ (k : nat) w',
    (k ≤ 240)%nat
    ∧ (∀ j, (j < k)%nat →
         ends_polling (getState (store_at meanwhile w j)) = false)
    ∧ PopupArea.pollForAreaResult meanwhile w = (w', Ok ())
    ∧ PopupArea.waits w' = (PopupArea.waits w + k)%nat
    ∧ PopupArea.pstore w' = reset (store_at meanwhile w k)
    ∧ captureRequest (PopupArea.pstore w') = None
    ∧ currentCapture (PopupArea.pstore w') = None
    ∧ ((k < 240)%nat →
       ends_polling (getState (store_at meanwhile w k)) = true
       ∧ last (PopupArea.views w')
         = Some (view_of (getState (store_at meanwhile w k))))
    ∧ (k = 240%nat →
       last (PopupArea.views w')
       = Some (PopupArea.ShowError PopupArea.TIMEOUT_MESSAGE)).
Proof.
  destruct (pollForAreaResult_from_spec meanwhile 240 0 w ltac:(lia) ltac:(lia))
    as (k & w' & Hk & Hbefore & Hrun & Hwaits & Hstore & Hstop & Htime).
  exists k, w'. split; [lia|]. split; [exact Hbefore|].
  split; [exact Hrun|]. split; [exact Hwaits|]. split; [exact Hstore|].
  rewrite Hstore. split; [reflexivity|]. split; [reflexivity|].
  split; [exact Hstop | exact Htime].
Qed.

Section CancelAndPoll.
Variable meanwhile : nat → Store → Store.
Hypothesis quiet :
  ∀ k s, currentCapture s = None → currentCapture (meanwhile k s) = None.

Lemma store_at_quiet (w : PopupArea.PopupWorld) (k : nat) :
  currentCapture (PopupArea.pstore w) = None →
  currentCapture (store_at meanwhile w k) = None.
Proof.
  intros H. induction k as [|k IH]; [exact H|].
  cbn [store_at]. by apply quiet.
Qed.

(** X23. The click on the cancel button, when its message reaches the
    worker, leaves no capture state behind; a poll of the popup that
    goes on from there, with nobody writing a capture state, never sees
    ['cancelled']: it waits 240 times and ends with the timeout error.
    When the message does not reach the worker, the first poll finds
    ['cancelled'] and stops at once. *)
Theorem cancel_through_the_worker_leaves_the_poll_to_time_out
    (w : PopupArea.PopupWorld) (now1 now2 : Z) :
  let reached := (PopupArea.cancelClicked now1 now2 true w).1 in
  let missed := (PopupArea.cancelClicked now1 now2 false w).1 in
  (∃ w', PopupArea.pollForAreaResult meanwhile reached = (w', Ok ())
         ∧ PopupArea.waits w' = (PopupArea.waits w + 240)%nat
         ∧ last (PopupArea.views w')
           = Some (PopupArea.ShowError PopupArea.TIMEOUT_MESSAGE))
  ∧ (∃ w', PopupArea.pollForAreaResult meanwhile missed = (w', Ok ())
           ∧ PopupArea.waits w' = PopupArea.waits w
           ∧ last (PopupArea.views w') = Some PopupArea.ShowIdle).
Proof.
  intros reached missed. split.
  - destruct (pollForAreaResult_from_spec meanwhile 240 0 reached
                ltac:(lia) ltac:(lia))
      as (k & w' & Hk & _ & Hrun & Hwaits & _ & Hstop & Htime).
    assert (Hnone : ∀ j, ends_polling
                           (getState (store_at meanwhile reached j)) = false).
    { intros j. unfold getState.
      by rewrite (store_at_quiet reached j eq_refl). }
    destruct (decide (k = 240%nat)) as [->|Hne].
    + exists w'. split; [exact Hrun|]. split; [exact Hwaits|]. by apply Htime.
    + destruct (Hstop ltac:(lia)) as [Hend _]. by rewrite Hnone in Hend.
  - destruct (pollForAreaResult_from_spec meanwhile 240 0 missed
                ltac:(lia) ltac:(lia))
      as (k & w' & Hk & Hbefore & Hrun & Hwaits & _ & Hstop & _).
    assert (Hfirst : ends_polling (getState (PopupArea.pstore missed)) = true
                     ∧ view_of (getState (PopupArea.pstore missed))
                       = PopupArea.ShowIdle).
    { unfold missed, PopupArea.cancelClicked. cbn [fst PopupArea.pstore].
      unfold getState, cancel.
      destruct (lookup_updateState now1 {["status" := Some (JStr "cancelled")]}
                  (PopupArea.pstore w) "status") as (S' & -> & Hl).
      rewrite decide_False, lookup_singleton_eq in Hl by done.
      unfold ends_polling, view_of, PopupArea.status_is. rewrite Hl.
      by repeat split. }
    destruct Hfirst as [Hend Hview].
    destruct k as [|k].
    + exists w'. split; [exact Hrun|]. split; [by rewrite Hwaits, Nat.add_0_r|].
      destruct (Hstop ltac:(lia)) as [_ Hlast]. cbn [store_at] in Hlast.
      by rewrite Hlast, Hview.
    + specialize (Hbefore 0%nat ltac:(lia)). cbn [store_at] in Hbefore.
      by rewrite Hend in Hbefore.
Qed.

End CancelAndPoll.

Lemma cancel_through_the_worker_witness :
  let w := PopupArea.mkPopupWorld capturing_store [] 0 in
  ∃ w', PopupArea.pollForAreaResult (λ _ s, s)
          (PopupArea.cancelClicked 5 6 true w).1 = (w', Ok ())
        ∧ PopupArea.waits w' = (PopupArea.waits w + 240)%nat
        ∧ last (PopupArea.views w')
          = Some (PopupArea.ShowError PopupArea.TIMEOUT_MESSAGE).
Proof.
  intros w.
  destruct (cancel_through_the_worker_leaves_the_poll_to_time_out
              (λ _ s, s) (λ _ s H, H) w 5 6) as [H _].
  exact H.
Defined.

(** X24. On a capture state with status ['error'] the listener of the
    floating icon changes nothing: the state stays in the store and a
    hidden button stays hidden. On ['complete'] and on ['cancelled'] it
    removes the request and the state and shows the button again, and on
    ['complete'] it puts a result that is present on the page. *)
Theorem floating_icon_ignores_an_error_state
    (state : obj) (icon : IconListener.Icon) :
  (PopupArea.status_is state "error" = true →
   IconListener.onCurrentCaptureChanged (Some state) icon = (icon, Ok ()))
  ∧ (PopupArea.status_is state "cancelled" = true →
     IconListener.onCurrentCaptureChanged (Some state) icon
     = (IconListener.mkIcon (reset (IconListener.istore icon)) false
          (IconListener.resultsShown icon), Ok ()))
  ∧ (PopupArea.status_is state "complete" = true →
     IconListener.onCurrentCaptureChanged (Some state) icon
     = (IconListener.mkIcon (reset (IconListener.istore icon)) false
          (IconListener.resultsShown icon
           ++ (if truthy (state !! "result")
               then [default JNull (state !! "result")] else [])),
        Ok ())).
Proof.
  destruct icon as [s hidden shown].
  unfold IconListener.onCurrentCaptureChanged, try_catch, mbind, St_bind.
  split; [|split]; intros Hst.
  - rewrite (status_is_exclusive state "error" "complete" ltac:(done) Hst), Hst.
    reflexivity.
  - rewrite (status_is_exclusive state "cancelled" "complete" ltac:(done) Hst),
      (status_is_exclusive state "cancelled" "error" ltac:(done) Hst), Hst.
    reflexivity.
  - rewrite Hst. destruct (truthy (state !! "result")); cbn.
    + reflexivity.
    + by rewrite app_nil_r.
Qed.

(** ** The gateway, further *)

Section GatewayMore.
Variable fetch_answer : nat → string → Result AIService.Response.

Lemma getModels_miss (now : Z) (provider : string) (apiKey : value)
    (n n1 : AIService.Net) (models : list AIService.Model) :
  let key := provider +:+ "-"
             +:+ AIService.tpl (Some (or_else apiKey (JStr "no-key"))) in
  AIService.cache_hit (AIService.cache n) key now = None →
  AIService.getModels fetch_answer now provider apiKey n = (n1, Ok models) →
  ∃ n', AIService.fetchModels fetch_answer provider apiKey n = (n', Ok models)
        ∧ n1 = AIService.mkNet (AIService.requests n')
                 (<[key := (models, now + 3600000)]> (AIService.cache n')).
Proof.
  intros key Hmiss. unfold AIService.getModels. fold key.
  unfold mbind, St_bind, AIService.get_cache. rewrite Hmiss.
  destruct (AIService.needs_key provider && negb (truthy apiKey));
    [intros [=]|].
  destruct (AIService.fetchModels fetch_answer provider apiKey n)
    as [n' [ms|e]]; [|intros [=]].
  unfold AIService.put_cache, mret, St_ret. intros [= <- <-]. by exists n'.
Qed.

End GatewayMore.

(** X25. A listing that [getModels] fetched is served from the cache to
    every call for the same provider and key during the next hour,
    whatever the network does, without a request; from then on the
    entry no longer counts. *)
Theorem getModels_serves_repeats_from_cache
    (fetch_answer fetch_later : nat → string → Result AIService.Response)
    (now later : Z) (provider : string) (apiKey : value)
    (n n1 : AIService.Net) (models : list AIService.Model) :
  let key := provider +:+ "-"
             +:+ AIService.tpl (Some (or_else apiKey (JStr "no-key"))) in
  AIService.cache_hit (AIService.cache n) key now = None →
  AIService.getModels fetch_answer now provider apiKey n = (n1, Ok models) →
  (later < now + 3600000 →
     AIService.getModels fetch_later later provider apiKey n1
       = (n1, Ok models))
  ∧ (now + 3600000 ≤ later →
       AIService.cache_hit (AIService.cache n1) key later = None).
Proof.
  intros key Hmiss Hrun.
  destruct (getModels_miss fetch_answer now provider apiKey n n1 models
              Hmiss Hrun) as (n' & _ & ->).
  fold key. split; intros Ht.
  - unfold AIService.getModels. fold key.
    unfold mbind, St_bind, AIService.get_cache, AIService.cache_hit.
    cbn [AIService.cache]. rewrite lookup_insert_eq.
    by rewrite (proj2 (Z.ltb_lt _ _) Ht).
  - unfold AIService.cache_hit. cbn [AIService.cache].
    rewrite lookup_insert_eq. by rewrite (proj2 (Z.ltb_ge _ _) Ht).
Qed.

Lemma getModels_serves_repeats_from_cache_witness :
  AIService.cache_hit (AIService.cache AIService.initial_net)
    ("ollama" +:+ "-" +:+ AIService.tpl (Some (or_else None (JStr "no-key"))))
    0 = None
  ∧ AIService.getModels no_network 1000 "ollama" None
      (AIService.getModels local_network 0 "ollama" None
         AIService.initial_net).1
    = ((AIService.getModels local_network 0 "ollama" None
          AIService.initial_net).1, Ok [("llava", "llava")]).
Proof.
  split; [reflexivity|].
  assert (Hrun : AIService.getModels local_network 0 "ollama" None
                   AIService.initial_net
                 = ((AIService.getModels local_network 0 "ollama" None
                       AIService.initial_net).1, Ok [("llava", "llava")]))
    by (vm_compute; reflexivity).
  apply (getModels_serves_repeats_from_cache local_network no_network 0 1000
           "ollama" None AIService.initial_net _ _ eq_refl Hrun).
  lia.
Defined.

(** X26. When the local server does not answer the listing, [getModels]
    for the local provider returns an empty list instead of failing, and
    that empty list is what every call of the next hour gets, without
    asking the server again. *)
Theorem unreachable_local_server_is_cached_as_empty
    (fetch_answer fetch_later : nat → string → Result AIService.Response)
    (now later : Z) (apiKey : value) (n : AIService.Net) :
  let key := "ollama" +:+ "-"
             +:+ AIService.tpl (Some (or_else apiKey (JStr "no-key"))) in
  let first := AIService.getModels fetch_answer now "ollama" apiKey n in
  let second := AIService.getModels fetch_later later "ollama" apiKey first.1 in
  AIService.cache_hit (AIService.cache n) key now = None →
  request_failed (fetch_answer (length (AIService.requests n))
                    "http://localhost:11434/api/tags") →
  later < now + 3600000 →
  first.2 = Ok []
  ∧ second.2 = Ok []
  ∧ AIService.requests second.1
    = AIService.requests n ++ ["http://localhost:11434/api/tags"].
Proof.
  intros key first second Hmiss Hfail Hlater.
  assert (Hfirst : first
            = (AIService.mkNet
                 (AIService.requests n ++ ["http://localhost:11434/api/tags"])
                 (<[key := ([], now + 3600000)]> (AIService.cache n)),
               Ok [])).
  { subst first. unfold AIService.getModels. fold key.
    unfold mbind, St_bind, AIService.get_cache. rewrite Hmiss.
    cbn [AIService.needs_key String.eqb andb orb negb].
    change (AIService.needs_key "ollama") with false. cbn [andb].
    change (AIService.fetchModels fetch_answer "ollama" apiKey n)
      with ((AIService.getLocalModels fetch_answer
             ≫= λ localModels,
                  mret (map (λ m : string * value, (m.1, m.1)) localModels)) n).
    unfold AIService.getLocalModels, try_catch, mbind, St_bind, AIService.fetch.
    unfold request_failed in Hfail.
    destruct (fetch_answer (length (AIService.requests n)) _) as [r|e].
    - rewrite Hfail. reflexivity.
    - reflexivity. }
  subst second. rewrite Hfirst. cbn [fst snd]. split; [reflexivity|].
  unfold AIService.getModels. fold key.
  unfold mbind, St_bind, AIService.get_cache, AIService.cache_hit.
  cbn [AIService.cache]. rewrite lookup_insert_eq.
  rewrite (proj2 (Z.ltb_lt _ _) Hlater). by split.
Qed.

Lemma unreachable_local_server_witness :
  request_failed (no_network 0%nat "http://localhost:11434/api/tags")
  ∧ (AIService.getModels local_network 1000 "ollama" None
       (AIService.getModels no_network 0 "ollama" None
          AIService.initial_net).1).2 = Ok [].
Proof.
  split; [exact I|].
  destruct (unreachable_local_server_is_cached_as_empty no_network
              local_network 0 1000 None AIService.initial_net
              eq_refl I ltac:(lia)) as (_ & H & _).
  exact H.
Defined.

(** X27. [hasLocalModel] ignores everything after the first colon of the
    requested name and matches by containment: as soon as the local
    server lists a model whose name contains that part, the model counts
    as installed. *)
Theorem hasLocalModel_matches_by_containment
    (fetch_answer : nat → string → Result AIService.Response)
    (n : AIService.Net) (r : AIService.Response)
    (modelName pre post : string) (displayName : value) :
  fetch_answer (length (AIService.requests n))
    "http://localhost:11434/api/tags" = Ok r →
  AIService.ok r = true →
  (pre +:+ AIService.until_colon modelName +:+ post, displayName)
    ∈ AIService.models r →
  AIService.hasLocalModel fetch_answer (Some (JStr modelName)) n
  = (AIService.mkNet
       (AIService.requests n ++ ["http://localhost:11434/api/tags"])
       (AIService.cache n), Ok true).
Proof.
  intros Hfetch Hok Hin.
  unfold AIService.hasLocalModel, AIService.checkLocalHealth.
  unfold try_catch, mbind, St_bind, AIService.fetch.
  change (AIService.ENDPOINT_local +:+ "/api/tags")
    with "http://localhost:11434/api/tags".
  rewrite Hfetch, Hok. unfold mret, St_ret. do 2 f_equal.
  apply existsb_exists. eexists. split; [apply list_elem_of_In, Hin|].
  apply includes_append.
Qed.

Lemma hasLocalModel_matches_by_containment_witness :
  AIService.hasLocalModel bakllava_network (Some (JStr "llava:13b"))
    AIService.initial_net
  = (AIService.mkNet ["http://localhost:11434/api/tags"] ∅, Ok true).
Proof.
  apply (hasLocalModel_matches_by_containment bakllava_network
           AIService.initial_net
           (AIService.mkResponse true 200 "" None None [("bakllava:7b", None)])
           "llava:13b" "bak" ":7b" None eq_refl eq_refl).
  apply list_elem_of_here.
Defined.

Section Dispatch.
Variable fetch_answer : nat → string → Result AIService.Response.
Variable latency : nat → string → Z.

Ltac decide_providers :=
  repeat match goal with
         | |- context [AIService.is_provider (Some (JStr ?a)) ?b] =>
             let v := eval vm_compute in
                        (AIService.is_provider (Some (JStr a)) b) in
             change (AIService.is_provider (Some (JStr a)) b) with v
         end.

Lemma is_provider_false (provider : value) (name : string) :
  provider ≠ Some (JStr name) → AIService.is_provider provider name = false.
Proof. intros H. unfold AIService.is_provider. by apply bool_decide_eq_false. Qed.

(** X28. [analyzeText] and [askFollowUp] issue no request for a provider
    that is none of the five they dispatch on: they throw, either the
    missing-key message of Google Vision or ['Unknown text provider']. *)
Theorem unknown_text_provider_issues_no_request
    (settings : literal) (n : AIService.Net) :
  (∀ p, p ∈ text_providers → settings !!! "textApiProvider" ≠ Some (JStr p)) →
  ∃ message,
    (message = "Unknown text provider: "
               +:+ AIService.tpl (settings !!! "textApiProvider")
     ∨ (settings !!! "textApiProvider" = Some (JStr "google-vision")
        ∧ message = "Google Cloud Vision API Key is required"))
    ∧ (∀ text, AIService.analyzeText fetch_answer latency text settings n
               = (n, Throw message))
    ∧ (∀ question history,
         AIService.askFollowUp fetch_answer latency question history settings n
         = (n, Throw message)).
Proof.
  intros Hp.
  assert (Hno : ∀ p, p ∈ text_providers →
            AIService.is_provider (settings !!! "textApiProvider") p = false).
  { intros p Hin. apply is_provider_false. by apply Hp. }
  assert (H1 := Hno "ollama" ltac:(by repeat constructor)).
  assert (H2 := Hno "ollama-cloud" ltac:(by repeat constructor)).
  assert (H3 := Hno "openai" ltac:(by repeat constructor)).
  assert (H4 := Hno "anthropic" ltac:(by repeat constructor)).
  assert (H5 := Hno "google-gemini" ltac:(by repeat constructor)).
  unfold AIService.analyzeText, AIService.askFollowUp,
    AIService.validateRequiredKey, mbind, St_bind, lift.
  change AIService.OLLAMA_LOCAL with "ollama".
  change AIService.OLLAMA_CLOUD with "ollama-cloud".
  change AIService.OPENAI with "openai".
  change AIService.ANTHROPIC with "anthropic".
  change AIService.GOOGLE_GEMINI with "google-gemini".
  rewrite H1, H2, H3, H4, H5. cbn [andb orb].
  destruct (AIService.is_provider (settings !!! "textApiProvider")
              "google-vision"
            && negb (truthy (settings !!! "googleApiKey"))) eqn:Hgv.
  - eexists. split; [right; split; [|reflexivity] | by split].
    apply andb_true_iff in Hgv as [Hgv _].
    unfold AIService.is_provider in Hgv. by apply bool_decide_eq_true in Hgv.
  - eexists. split; [by left | by split].
Qed.

(** X29. With the cloud provider and its key, a chat endpoint that
    settles in time but does not answer, or answers with a status that
    is not 2xx, is passed over silently: when the generate endpoint
    then answers in time, the description is the text it returns, and
    exactly these two requests are issued. When the 120 seconds of the
    timer run out before the chat request settles, or before the
    generate request that follows it settles, the call fails with the
    timeout error instead. *)
Theorem ollama_vision_falls_back_to_generate
    (image : string) (settings : literal) (n : AIService.Net) :
  settings !!! "visionApiProvider" = Some (JStr "ollama-cloud") →
  truthy (settings !!! "ollamaApiKey") = true →
  let k := length (AIService.requests n) in
  let chatUrl := "https://ollama.com/v1/chat/completions" in
  let generateUrl := "https://ollama.com/api/generate" in
  (∀ r t,
     latency k chatUrl < 120000 →
     latency k chatUrl + latency (S k) generateUrl < 120000 →
     request_failed (fetch_answer k chatUrl) →
     fetch_answer (S k) generateUrl = Ok r →
     AIService.ok r = true →
     AIService.content r = Some (JStr t) →
     t ≠ "" →
     AIService.describeImage fetch_answer latency image settings n
     = (AIService.mkNet (AIService.requests n ++ [chatUrl; generateUrl])
          (AIService.cache n), Ok t))
  ∧ (120000 ≤ latency k chatUrl →
     AIService.describeImage fetch_answer latency image settings n
     = (AIService.mkNet (AIService.requests n ++ [chatUrl])
          (AIService.cache n), Throw "Vision analysis timeout (120s)"))
  ∧ (latency k chatUrl < 120000 →
     request_failed (fetch_answer k chatUrl) →
     120000 ≤ latency k chatUrl + latency (S k) generateUrl →
     AIService.describeImage fetch_answer latency image settings n
     = (AIService.mkNet (AIService.requests n ++ [chatUrl; generateUrl])
          (AIService.cache n), Throw "Vision analysis timeout (120s)")).
Proof.
  intros Hp Hkey k chatUrl generateUrl.
  assert (Hrun : AIService.describeImage fetch_answer latency image settings n
            = (AIService.fetch_within fetch_answer latency chatUrl 0
               ≫= λ chat,
                    match chat.1 with
                    | None => throw "Vision analysis timeout (120s)"
                    | Some chatAnswer =>
                        match AIService.chat_content chatAnswer with
                        | Some c => mret c
                        | None =>
                            AIService.fetch_within fetch_answer latency
                              generateUrl chat.2
                            ≫= λ generate,
                                 match generate.1 with
                                 | None =>
                                     throw "Vision analysis timeout (120s)"
                                 | Some (Throw message) => throw message
                                 | Some (Ok response) =>
                                     if negb (AIService.ok response)
                                     then throw
                                            ("Vision analysis failed ("
                                             +:+ pretty (AIService.status response)
                                             +:+ "): "
                                             +:+ AIService.body response)
                                     else if negb (truthy (AIService.content response))
                                     then throw
                                            "Model returned empty response. Try a different vision model."
                                     else mret (AIService.text_or response
                                                  "No text extracted from image")
                                 end
                        end
                    end) n).
  { unfold AIService.describeImage, AIService.validateRequiredKey.
    rewrite Hp. decide_providers. cbn [andb orb negb]. rewrite Hkey.
    cbn [negb]. unfold mbind at 1. unfold St_bind at 1. unfold lift.
    unfold AIService.describeImageOllama. rewrite Hp. decide_providers.
    reflexivity. }
  rewrite Hrun. clear Hrun.
  unfold AIService.fetch_within, mbind, St_bind, mret, St_ret, throw.
  fold k. cbn [fst snd AIService.requests AIService.cache].
  assert (Hlen : length (AIService.requests n ++ [chatUrl]) = S k).
  { rewrite length_app. cbn. lia. }
  assert (Hfail : ∀ a, request_failed a → AIService.chat_content a = None).
  { intros [c|e] Ha; [|reflexivity]. cbn in Ha.
    unfold AIService.chat_content. by rewrite Ha. }
  change AIService.TIMEOUT_MS with 120000. rewrite !Z.add_0_l.
  split; [|split].
  - intros r t Hchat Hboth Hfailed Hgen Hok Hcontent Ht.
    assert (Htext : AIService.text_or r "No text extracted from image" = t).
    { unfold AIService.text_or. rewrite Hcontent.
      destruct (String.eqb_spec t ""); [done | reflexivity]. }
    assert (Htruthy : truthy (AIService.content r) = true).
    { rewrite Hcontent. cbn.
      destruct (String.eqb_spec t ""); [done | reflexivity]. }
    rewrite (proj2 (Z.leb_gt _ _) Hchat), (Hfail _ Hfailed).
    cbn [AIService.requests AIService.cache]. rewrite Hlen.
    rewrite (proj2 (Z.leb_gt _ _) Hboth), Hgen, Hok. cbn [negb].
    rewrite Htruthy. cbn [negb]. by rewrite Htext, <- app_assoc.
  - intros Hlate. by rewrite (proj2 (Z.leb_le _ _) Hlate).
  - intros Hchat Hfailed Hlate.
    rewrite (proj2 (Z.leb_gt _ _) Hchat), (Hfail _ Hfailed).
    cbn [AIService.requests AIService.cache]. rewrite Hlen.
    rewrite (proj2 (Z.leb_le _ _) Hlate). by rewrite <- app_assoc.
Qed.

(** X30. When the local server cannot be reached, a description with the
    local provider fails after that single request with the connection
    message, and neither the chat nor the generate endpoint is called. *)
Theorem local_vision_needs_the_server
    (image : string) (settings : literal) (n : AIService.Net) (e : string) :
  settings !!! "visionApiProvider" = Some (JStr "ollama") →
  fetch_answer (length (AIService.requests n))
    "http://localhost:11434/api/tags" = Throw e →
  includes e "Failed to fetch" = true →
  AIService.describeImage fetch_answer latency image settings n
  = (AIService.mkNet
       (AIService.requests n ++ ["http://localhost:11434/api/tags"])
       (AIService.cache n),
     Throw "Cannot connect to Ollama at localhost:11434. Is it running?").
Proof.
  intros Hp Hfetch He.
  unfold AIService.describeImage, AIService.validateRequiredKey.
  rewrite Hp. decide_providers. cbn [andb orb negb].
  unfold mbind at 1. unfold St_bind at 1. unfold lift.
  unfold AIService.describeImageOllama. rewrite Hp. decide_providers.
  unfold AIService.hasLocalModel, AIService.checkLocalHealth.
  change (AIService.ENDPOINT_local +:+ "/api/tags")
    with "http://localhost:11434/api/tags".
  unfold try_catch, mbind, St_bind, mret, St_ret, AIService.fetch.
  rewrite Hfetch, He. reflexivity.
Qed.

End Dispatch.

Lemma unknown_text_provider_witness :
  ∃ message,
    AIService.analyzeText no_network instant "text"
      (<["googleApiKey" := Some (JStr "k")]>
         {["textApiProvider" := Some (JStr "google-vision")]})
      AIService.initial_net
    = (AIService.initial_net, Throw message).
Proof.
  assert (Hp : ∀ p, p ∈ text_providers →
            (<["googleApiKey" := Some (JStr "k")]>
               ({["textApiProvider" := Some (JStr "google-vision")]} : literal))
              !!! "textApiProvider" ≠ Some (JStr p)).
  { intros p Hin. unfold text_providers in Hin.
    repeat (apply elem_of_cons in Hin as [->|Hin]; [by vm_compute|]).
    by apply elem_of_nil in Hin. }
  destruct (unknown_text_provider_issues_no_request no_network instant _
              AIService.initial_net Hp) as (message & _ & H & _).
  exists message. apply H.
Defined.

Lemma ollama_vision_falls_back_witness :
  request_failed (generate_only_network 0%nat
                    "https://ollama.com/v1/chat/completions")
  ∧ (AIService.describeImage generate_only_network instant "AAAA"
       (<["ollamaApiKey" := Some (JStr "k")]>
          {["visionApiProvider" := Some (JStr "ollama-cloud")]})
       AIService.initial_net).2 = Ok "a cat".
Proof.
  split; [exact I|].
  assert (Hp : (<["ollamaApiKey" := Some (JStr "k")]>
                  ({["visionApiProvider" := Some (JStr "ollama-cloud")]}
                     : literal)) !!! "visionApiProvider"
               = Some (JStr "ollama-cloud")) by (vm_compute; reflexivity).
  assert (Hk : truthy ((<["ollamaApiKey" := Some (JStr "k")]>
                  ({["visionApiProvider" := Some (JStr "ollama-cloud")]}
                     : literal)) !!! "ollamaApiKey") = true)
    by (vm_compute; reflexivity).
  destruct (ollama_vision_falls_back_to_generate generate_only_network instant
              "AAAA" _ AIService.initial_net Hp Hk) as [Hback _].
  rewrite (Hback
             (AIService.mkResponse true 200 "" (Some (JStr "a cat")) None [])
             "a cat" ltac:(reflexivity) ltac:(reflexivity) I eq_refl eq_refl
             eq_refl ltac:(discriminate)).
  reflexivity.
Defined.

Lemma local_vision_needs_the_server_witness :
  includes "Failed to fetch" "Failed to fetch" = true
  ∧ (AIService.describeImage no_network instant "AAAA"
       {["visionApiProvider" := Some (JStr "ollama")]}
       AIService.initial_net).2
    = Throw "Cannot connect to Ollama at localhost:11434. Is it running?".
Proof.
  split; [reflexivity|].
  assert (Hp : ({["visionApiProvider" := Some (JStr "ollama")]} : literal)
                 !!! "visionApiProvider" = Some (JStr "ollama"))
    by (vm_compute; reflexivity).
  rewrite (local_vision_needs_the_server no_network instant "AAAA" _
             AIService.initial_net "Failed to fetch" Hp eq_refl eq_refl).
  reflexivity.
Defined.
